(** * sundowner: sunrise, sunset and civil twilight times over a range of days

    A shallow embedding of [sundowner/__init__.py].  The service reads a
    latitude, a longitude and a range of calendar days, and for every day
    asks the [ephem] library for four horizon crossings of the sun.

    What is embedded and how:
    - [datetime.date], [datetime.timedelta], [datetime.datetime] and
      [timezone.utc] of the Python standard library, as far as the service
      uses them (date arithmetic with its [OverflowError], [replace],
      [timestamp], [isoformat]);
    - binary64 arithmetic of [timestamp() * 1000] and [round], on
      [SpecFloat] of the Standard Library;
    - the [ephem.Observer] object as a record that is threaded through the
      calls that assign to it, next to a trace of the solver calls made on
      it;
    - the [ephem] solver ([next_rising], [next_setting]), the angle setter
      of the observer and [dateutil.parser.parse] as a record of functions
      that the service takes as a parameter: their code is not part of
      this repository.

    The routes, the templates and [jsonify] are left out: [sun] returns the
    value it hands to [jsonify].  [parse_date], which the service
    does not call, is embedded with [int], slices and the [date]
    constructor of Python, over what [app.abort] does. *)

From Stdlib Require Import ZArith List String Ascii Bool Lia QArith Permutation.
From Stdlib Require Import SpecFloat.
Import ListNotations.

Local Open Scope string_scope.
Local Open Scope Z_scope.

(** ** Python exceptions and results *)

Inductive exn : Type :=
| TypeError
| ValueError
| KeyError
| OverflowError
| UnboundLocalError
| LibraryError (name : string).

Inductive outcome (A : Type) : Type :=
| Ok (a : A)
| Raise (e : exn).

Arguments Ok {A} a.
Arguments Raise {A} e.

Definition outcome_bind {A B} (r : outcome A) (k : A -> outcome B)
  : outcome B :=
  match r with
  | Ok a => k a
  | Raise e => Raise e
  end.

Definition outcome_map {A B} (f : A -> B) (r : outcome A) : outcome B :=
  outcome_bind r (fun a => Ok (f a)).

(** [[f(x) for x in xs]] where [f] may raise: evaluation stops at the first
    exception. *)
Fixpoint outcome_mapM {A B} (f : A -> outcome B) (xs : list A)
  : outcome (list B) :=
  match xs with
  | [] => Ok []
  | x :: xs' =>
      outcome_bind (f x) (fun y =>
      outcome_bind (outcome_mapM f xs') (fun ys => Ok (y :: ys)))
  end.

(** ** [datetime.date] and [datetime.timedelta]

    A date is identified by its proleptic Gregorian ordinal (day 1 is
    0001-01-01), which is what [date.toordinal()] returns and what date
    arithmetic and comparison are defined on.  Year, month and day are
    recovered by [ord2ymd]. *)

Record date : Type := fromordinal { toordinal : Z }.

Definition MAXORDINAL : Z := 3652059.   (* date(9999, 12, 31).toordinal() *)

Definition date_valid (d : date) : Prop := 1 <= toordinal d <= MAXORDINAL.

Definition date_min : date := fromordinal 1.
Definition date_max : date := fromordinal MAXORDINAL.

Definition date_lt (a b : date) : Prop := toordinal a < toordinal b.
Definition date_le (a b : date) : Prop := toordinal a <= toordinal b.

Record timedelta : Type := mktimedelta {
  days : Z;
  seconds : Z;
  microseconds : Z
}.

(** [timedelta(days=n)] *)
Definition timedelta_days (n : Z) : timedelta := mktimedelta n 0 0.

(** [date + timedelta]: only the [days] of the delta count, and a result
    outside [date.min .. date.max] raises [OverflowError]. *)
Definition date_add (d : date) (td : timedelta) : outcome date :=
  let o := toordinal d + days td in
  if (0 <? o) && (o <=? MAXORDINAL) then Ok (fromordinal o)
  else Raise OverflowError.

(** [date - date] *)
Definition date_sub (a b : date) : timedelta :=
  timedelta_days (toordinal a - toordinal b).

(** [range(n)] *)
Definition range (n : Z) : list Z :=
  map Z.of_nat (seq 0 (Z.to_nat n)).

(** *** Calendar fields *)

Definition is_leap (year : Z) : bool :=
  (year mod 4 =? 0) && (negb (year mod 100 =? 0) || (year mod 400 =? 0)).

Definition days_before_year (year : Z) : Z :=
  let y := year - 1 in
  y * 365 + y / 4 - y / 100 + y / 400.

Definition DAYS_IN_MONTH : list Z :=
  [-1; 31; 28; 31; 30; 31; 30; 31; 31; 30; 31; 30; 31].

Definition DAYS_BEFORE_MONTH : list Z :=
  [-1; 0; 31; 59; 90; 120; 151; 181; 212; 243; 273; 304; 334].

Definition table (t : list Z) (i : Z) : Z := nth (Z.to_nat i) t 0.

Definition days_in_month (year month : Z) : Z :=
  if (month =? 2) && is_leap year then 29 else table DAYS_IN_MONTH month.

Definition days_before_month (year month : Z) : Z :=
  table DAYS_BEFORE_MONTH month
  + (if (2 <? month) && is_leap year then 1 else 0).

Definition ymd2ord (year month day : Z) : Z :=
  days_before_year year + days_before_month year month + day.

Definition DI400Y : Z := 146097.
Definition DI100Y : Z := 36524.
Definition DI4Y : Z := 1461.

Definition ord2ymd (n : Z) : Z * Z * Z :=
  let n := n - 1 in
  let n400 := n / DI400Y in
  let n := n mod DI400Y in
  let year := n400 * 400 + 1 in
  let n100 := n / DI100Y in
  let n := n mod DI100Y in
  let n4 := n / DI4Y in
  let n := n mod DI4Y in
  let n1 := n / 365 in
  let n := n mod 365 in
  let year := year + n100 * 100 + n4 * 4 + n1 in
  if (n1 =? 4) || (n100 =? 4) then (year - 1, 12, 31)
  else
    let leapyear := (n1 =? 3) && (negb (n4 =? 24) || (n100 =? 3)) in
    let month := Z.shiftr (n + 50) 5 in
    let preceding :=
      table DAYS_BEFORE_MONTH month
      + (if (2 <? month) && leapyear then 1 else 0) in
    if n <? preceding then
      let month := month - 1 in
      let preceding :=
        preceding
        - (table DAYS_IN_MONTH month
           + (if (month =? 2) && leapyear then 1 else 0)) in
      (year, month, n - preceding + 1)
    else (year, month, n - preceding + 1).

(** [date(year, month, day)] for fields that name a day of the calendar. *)
Definition date_of_ymd (year month day : Z) : date :=
  fromordinal (ymd2ord year month day).

(** ** The calendar fields of a date

    [month_day] is the last step of [ord2ymd]: month and day of the month
    for the day [n] of a year, counted from 0. *)
Definition month_day (leapyear : bool) (n : Z) : Z * Z :=
  let month := Z.shiftr (n + 50) 5 in
  let preceding :=
    table DAYS_BEFORE_MONTH month
    + (if (2 <? month) && leapyear then 1 else 0) in
  if n <? preceding then
    let month := month - 1 in
    let preceding :=
      preceding
      - (table DAYS_IN_MONTH month
         + (if (month =? 2) && leapyear then 1 else 0)) in
    (month, n - preceding + 1)
  else (month, n - preceding + 1).

(** The check of [date(year, month, day)] on its fields. *)
Definition check_date_fields (year month day : Z) : bool :=
  (1 <=? year) && (year <=? 9999) && (1 <=? month) && (month <=? 12)
  && (1 <=? day) && (day <=? days_in_month year month).

(** What [month_day] has to give for the day [n] of a year. *)
Definition month_day_ok (leap : bool) (n : Z) : bool :=
  let '(m, d) := month_day leap n in
  (1 <=? m) && (m <=? 12) && (1 <=? d)
  && (d <=? (if (m =? 2) && leap then 29 else table DAYS_IN_MONTH m))
  && (table DAYS_BEFORE_MONTH m + (if (2 <? m) && leap then 1 else 0) + d
      =? n + 1).


(** What the tables have to give for the month [m]: the days before it
    and its own days stay inside the year. *)
Definition day_of_year_ok (leap : bool) (m : Z) : bool :=
  let before := table DAYS_BEFORE_MONTH m
                + (if (2 <? m) && leap then 1 else 0) in
  let len := if (m =? 2) && leap then 29 else table DAYS_IN_MONTH m in
  (0 <=? before) && (1 <=? len)
  && (before + len <=? 365 + (if leap then 1 else 0)).

(** ** Text of numbers: ["%02d"], ["%04d"], ["%06d"] *)

Definition digit (n : Z) : ascii :=
  ascii_of_nat (48 + Z.to_nat (n mod 10)).

(** The [width] low decimal digits of [n]; this is ["%0<width>d" % n] for
    [0 <= n < 10 ^ width], the only case the calendar fields reach. *)
Fixpoint zero_padded (width : nat) (n : Z) : string :=
  match width with
  | O => EmptyString
  | S w => zero_padded w (n / 10) ++ String (digit n) EmptyString
  end.

(** [date.isoformat()] *)
Definition date_isoformat (d : date) : string :=
  let '(y, m, dd) := ord2ymd (toordinal d) in
  zero_padded 4 y ++ "-" ++ zero_padded 2 m ++ "-" ++ zero_padded 2 dd.

(** ** Binary64 numbers

    Python's [float] is IEEE 754 binary64.  [SpecFloat] gives its
    operations with rounding to nearest even on explicit mantissas and
    exponents. *)

Definition float : Type := spec_float.

Definition exact_int (z : Z) : float :=
  match z with
  | Z0 => S754_zero false
  | Zpos p => S754_finite false p 0
  | Zneg p => S754_finite true p 0
  end.

(** [a / b] on integers: the correctly rounded quotient. *)
Definition int_true_divide (a b : Z) : float :=
  SFdiv 53 1024 (exact_int a) (exact_int b).

(** [x * n] for a float [x] and an integer [n] that a float holds exactly. *)
Definition float_mul_int (x : float) (n : Z) : float :=
  SFmul 53 1024 x (exact_int n).

(** The integer nearest to [m * 2 ^ e], ties to the even one. *)
Definition round_half_even (m e : Z) : Z :=
  if 0 <=? e then m * 2 ^ e
  else
    let d := 2 ^ (- e) in
    let q := m / d in
    let r := m mod d in
    match 2 * r ?= d with
    | Lt => q
    | Gt => q + 1
    | Eq => if Z.even q then q else q + 1
    end.

(** [round(x)] with one argument. *)
Definition py_round (x : float) : outcome Z :=
  match x with
  | S754_zero _ => Ok 0
  | S754_finite s m e =>
      let z := round_half_even (Zpos m) e in
      Ok (if s then - z else z)
  | S754_infinity _ => Raise OverflowError
  | S754_nan => Raise ValueError
  end.

(** ** [datetime.datetime] and [datetime.timezone] *)

Record timezone : Type := mktimezone {
  utcoffset : Z          (* seconds east of UTC *)
}.

(** [timezone.utc] *)
Definition timezone_utc : timezone := mktimezone 0.

Record datetime : Type := mkdatetime {
  day_of : date;         (* [.date()] *)
  hour : Z;
  minute : Z;
  second : Z;
  microsecond : Z;
  tzinfo : option timezone
}.

(** [t.replace(tzinfo=tz)]: the wall-clock fields stay as they are. *)
Definition replace_tzinfo (t : datetime) (tz : timezone) : datetime :=
  mkdatetime (day_of t) (hour t) (minute t) (second t) (microsecond t)
             (Some tz).

Definition EPOCH_ORDINAL : Z := 719163.   (* date(1970, 1, 1).toordinal() *)

(** Offset of an aware value.  A naive value is read as UTC here; Python
    reads it in the zone of the machine, a path the service never takes,
    since it sets [tzinfo] before it asks for a timestamp. *)
Definition offset_of (t : datetime) : Z :=
  match tzinfo t with
  | Some tz => utcoffset tz
  | None => 0
  end.

Definition microseconds_since_epoch (t : datetime) : Z :=
  ((toordinal (day_of t) - EPOCH_ORDINAL) * 86400
   + hour t * 3600 + minute t * 60 + second t - offset_of t) * 1000000
  + microsecond t.

(** [t - _EPOCH], normalised as [timedelta] does. *)
Definition datetime_sub_epoch (t : datetime) : timedelta :=
  let us := microseconds_since_epoch t in
  mktimedelta (us / 86400000000)
              ((us mod 86400000000) / 1000000)
              (us mod 1000000).

(** [timedelta.total_seconds()] *)
Definition total_seconds (td : timedelta) : float :=
  int_true_divide
    ((days td * 86400 + seconds td) * 1000000 + microseconds td) 1000000.

(** [datetime.timestamp()] of an aware value. *)
Definition timestamp (t : datetime) : float :=
  total_seconds (datetime_sub_epoch t).

(** The offset as [isoformat] writes it. *)
Definition offset_text (off : Z) : string :=
  let sign := if off <? 0 then "-" else "+" in
  let a := Z.abs off in
  let hh := a / 3600 in
  let mm := (a mod 3600) / 60 in
  let ss := a mod 60 in
  sign ++ zero_padded 2 hh ++ ":" ++ zero_padded 2 mm
  ++ (if ss =? 0 then "" else ":" ++ zero_padded 2 ss).

(** [datetime.isoformat()] *)
Definition datetime_isoformat (t : datetime) : string :=
  date_isoformat (day_of t) ++ "T"
  ++ zero_padded 2 (hour t) ++ ":" ++ zero_padded 2 (minute t) ++ ":"
  ++ zero_padded 2 (second t)
  ++ (if microsecond t =? 0 then "" else "." ++ zero_padded 6 (microsecond t))
  ++ match tzinfo t with
     | Some tz => offset_text (utcoffset tz)
     | None => ""
     end.

(** The instant that the calendar and clock fields name when they are
    read as UTC, in microseconds since the epoch. *)
Definition wall_clock (t : datetime) : Z :=
  ((toordinal (day_of t) - EPOCH_ORDINAL) * 86400
   + hour t * 3600 + minute t * 60 + second t) * 1000000
  + microsecond t.

(** The field ranges of a [datetime] object. *)
Definition datetime_valid (t : datetime) : Prop :=
  date_valid (day_of t) /\
  0 <= hour t < 24 /\ 0 <= minute t < 60 /\ 0 <= second t < 60 /\
  0 <= microsecond t < 1000000.

(** A float that is zero or finite, with a mantissa below [2 ^ k] and an
    exponent of at most [E]. *)
Definition float_within (k E : Z) (x : float) : Prop :=
  match x with
  | S754_zero _ => True
  | S754_finite _ m e => Zpos m < 2 ^ k /\ e <= E
  | _ => False
  end.

(** ** Binary64: positions

    [located mrs a b] says where the quotient [a / b] lies: its integer part
    is the mantissa of [mrs], and the round bit and the sticky bit of [mrs]
    tell whether the rest is zero, below a half, a half, or above a half. *)
Definition located (mrs : shr_record) (a b : Z) : Prop :=
  0 < b /\ 0 <= shr_m mrs /\
  shr_m mrs * b <= a < (shr_m mrs + 1) * b /\
  match shr_r mrs, shr_s mrs with
  | false, false => a = shr_m mrs * b
  | false, true => shr_m mrs * b < a /\ 2 * a < (2 * shr_m mrs + 1) * b
  | true, false => 2 * a = (2 * shr_m mrs + 1) * b
  | true, true => (2 * shr_m mrs + 1) * b < 2 * a
  end.

(** ** Python values that the service passes and returns

    [PyBytes] stands for a [bytes] and for a [bytearray] object, given by
    its bytes: the service has no use for one, but [parse_date] reads it
    as it reads text. *)

Inductive pyval : Type :=
| PyNone
| PyBool (b : bool)
| PyInt (z : Z)
| PyStr (s : string)
| PyDatetime (t : datetime)
| PyBytes (b : string).

(** [v is True] *)
Definition is_True (v : pyval) : bool :=
  match v with
  | PyBool true => true
  | _ => false
  end.

(** [request.args.get(key, None, type=str)] *)
Definition arg_or_None (a : option string) : pyval :=
  match a with
  | Some s => PyStr s
  | None => PyNone
  end.

(** ** Angle text

    [ephem] reads an angle given as text as degrees, or as
    degrees:minutes, or as degrees:minutes:seconds, with an optional sign
    in front.  [sexagesimal] is that reading for well-formed text; it is
    used to say which angle a horizon or a latitude text stands for. *)

Definition digit_value (c : ascii) : option Z :=
  let n := Z.of_nat (nat_of_ascii c) in
  if (48 <=? n) && (n <=? 57) then Some (n - 48) else None.

Fixpoint digits_value (s : string) (acc : Z) : option Z :=
  match s with
  | EmptyString => Some acc
  | String c s' =>
      match digit_value c with
      | Some d => digits_value s' (acc * 10 + d)
      | None => None
      end
  end.

Definition natural (s : string) : option Z :=
  match s with
  | EmptyString => None
  | _ => digits_value s 0
  end.

Fixpoint split_on (sep : ascii) (s : string) : list string :=
  match s with
  | EmptyString => [EmptyString]
  | String c s' =>
      if Ascii.eqb c sep then EmptyString :: split_on sep s'
      else
        match split_on sep s' with
        | [] => [String c EmptyString]
        | w :: ws => String c w :: ws
        end
  end.

(** A field: digits, or digits, a point and digits. *)
Definition field_value (s : string) : option Q :=
  match split_on "." s with
  | [i] => option_map inject_Z (natural i)
  | [i; f] =>
      match natural i, natural f with
      | Some a, Some b =>
          Some (inject_Z a + (b # Pos.pow 10 (Pos.of_nat (String.length f))))%Q
      | _, _ => None
      end
  | _ => None
  end.

Definition unsigned_sexagesimal (s : string) : option Q :=
  match map field_value (split_on ":" s) with
  | [Some d] => Some d
  | [Some d; Some m] => Some (d + m / 60)%Q
  | [Some d; Some m; Some sec] => Some (d + m / 60 + sec / 3600)%Q
  | _ => None
  end.

Definition sexagesimal (s : string) : option Q :=
  match s with
  | String "-" s' => option_map Qopp (unsigned_sexagesimal s')
  | String "+" s' => unsigned_sexagesimal s'
  | _ => unsigned_sexagesimal s
  end.

(** Degrees of an argument given as text, if it is well-formed text. *)
Definition degrees_of (v : pyval) : option Q :=
  match v with
  | PyStr s => sexagesimal s
  | _ => None
  end.

Definition latitude_in_range (v : pyval) : Prop :=
  exists q, degrees_of v = Some q /\ (-90 <= q)%Q /\ (q <= 90)%Q.

Definition longitude_in_range (v : pyval) : Prop :=
  exists q, degrees_of v = Some q /\ (-180 <= q)%Q /\ (q <= 180)%Q.

Definition latitude_out_of_range (v : pyval) : Prop :=
  exists q, degrees_of v = Some q /\ (q < -90 \/ 90 < q)%Q.

Definition longitude_out_of_range (v : pyval) : Prop :=
  exists q, degrees_of v = Some q /\ (q < -180 \/ 180 < q)%Q.

(** ** [int(text)], slices and [date(year, month, day)]

    Text is a [string] of characters with code points below 256.  [int]
    in base ten takes white space, an optional sign and decimal digits,
    between which single underscores may stand, and white space again;
    anything else raises [ValueError].  The white space is that of
    [str.isspace] as far as [int] takes it: the control characters 9 to
    13, the space, and the code points 133 and 160.  The limit that
    Python 3.11 puts on the number of digits is left out: [parse_date]
    hands [int] four characters at most. *)

Definition is_space (c : ascii) : bool :=
  let n := Z.of_nat (nat_of_ascii c) in
  ((9 <=? n) && (n <=? 13)) || (n =? 32) || (n =? 133) || (n =? 160).

Fixpoint lstrip (s : string) : string :=
  match s with
  | EmptyString => EmptyString
  | String c s' => if is_space c then lstrip s' else s
  end.

(** The digits and underscores at the front of [s]: their value on top of
    [acc], and the text that follows them.  [prev] is the character before
    [s]; two underscores in a row and an underscore at the end are
    refused. *)
Fixpoint scan_digits (s : string) (prev : ascii) (acc : Z)
  : option (Z * string) :=
  match s with
  | EmptyString => if Ascii.eqb prev "_" then None else Some (acc, s)
  | String c s' =>
      match digit_value c with
      | Some d => scan_digits s' c (acc * 10 + d)
      | None =>
          if Ascii.eqb c "_" then
            if Ascii.eqb prev "_" then None else scan_digits s' c acc
          else if Ascii.eqb prev "_" then None else Some (acc, s)
      end
  end.

Definition signed (s : string) : bool * string :=
  match s with
  | String "+" s' => (false, s')
  | String "-" s' => (true, s')
  | _ => (false, s)
  end.

(** [int(s)] *)
Definition py_int (s : string) : outcome Z :=
  let '(negative, body) := signed (lstrip s) in
  match body with
  | EmptyString => Raise ValueError
  | String c _ =>
      match digit_value c with
      | None => Raise ValueError
      | Some _ =>
          match scan_digits body zero 0 with
          | Some (n, rest) =>
              match lstrip rest with
              | EmptyString => Ok (if negative then - n else n)
              | _ => Raise ValueError
              end
          | None => Raise ValueError
          end
      end
  end.

(** [int(b)] for a [bytes] or [bytearray] object [b]: as for text, but the
    white space is that of ASCII, the characters 9 to 13 and the space. *)
Definition is_space_bytes (c : ascii) : bool :=
  let n := Z.of_nat (nat_of_ascii c) in
  ((9 <=? n) && (n <=? 13)) || (n =? 32).

Fixpoint lstrip_bytes (s : string) : string :=
  match s with
  | EmptyString => EmptyString
  | String c s' => if is_space_bytes c then lstrip_bytes s' else s
  end.

Definition py_int_bytes (s : string) : outcome Z :=
  let '(negative, body) := signed (lstrip_bytes s) in
  match body with
  | EmptyString => Raise ValueError
  | String c _ =>
      match digit_value c with
      | None => Raise ValueError
      | Some _ =>
          match scan_digits body zero 0 with
          | Some (n, rest) =>
              match lstrip_bytes rest with
              | EmptyString => Ok (if negative then - n else n)
              | _ => Raise ValueError
              end
          | None => Raise ValueError
          end
      end
  end.

(** [s[a:b]] for [0 <= a <= b], on text and on bytes *)
Definition slice (s : string) (a b : nat) : string :=
  substring a (b - a) s.

(** [date(year, month, day)]: fields that a C [int] does not hold raise
    [OverflowError], fields that name no day raise [ValueError]. *)
Definition fits_int (z : Z) : bool :=
  (-2147483648 <=? z) && (z <=? 2147483647).

Definition date_new (year month day : Z) : outcome date :=
  if fits_int year && fits_int month && fits_int day then
    if check_date_fields year month day
    then Ok (date_of_ymd year month day)
    else Raise ValueError
  else Raise OverflowError.

(** ** [parse_date]

    [app_abort code] is what [app.abort(code)] does: it raises, or it
    returns.  The handler is that of [except ValueError or TypeError],
    and [ValueError or TypeError] is [ValueError]: a [TypeError] passes
    through.  If [app.abort] returns, [return output] finds [output]
    unassigned.  Text and bytes have slices that [int] reads; [None], a
    truth value, a number and a datetime have no slices, and [day[:4]]
    raises [TypeError]. *)
Definition parse_date (app_abort : Z -> outcome unit) (day : pyval)
  : outcome date :=
  let body :=
    match day with
    | PyStr s =>
        outcome_bind (py_int (slice s 0 4)) (fun year =>
        outcome_bind (py_int (slice s 4 6)) (fun month =>
        outcome_bind (py_int (slice s 6 8)) (fun d =>
        date_new year month d)))
    | PyBytes b =>
        outcome_bind (py_int_bytes (slice b 0 4)) (fun year =>
        outcome_bind (py_int_bytes (slice b 4 6)) (fun month =>
        outcome_bind (py_int_bytes (slice b 6 8)) (fun d =>
        date_new year month d)))
    | PyNone | PyBool _ | PyInt _ | PyDatetime _ => Raise TypeError
    end in
  match body with
  | Ok output => Ok output
  | Raise ValueError =>
      outcome_bind (app_abort 500) (fun _ => Raise UnboundLocalError)
  | Raise e => Raise e
  end.

(** ** The [ephem.Observer] object

    The fields hold what has been assigned to them.  Angles ([lat], [lon],
    [horizon]) are kept as the Python value that was assigned; the library
    derives its own number from it, so anything the library computes is a
    function of these fields.  [o_date] and [o_epoch] are instants in
    microseconds since 1970-01-01T00:00:00Z. *)

Record Observer : Type := mkObserver {
  o_date : Z;
  o_epoch : Z;
  o_lat : pyval;
  o_lon : pyval;
  o_elevation : Z;
  o_temp : Z;
  o_pressure : Z;
  o_horizon : pyval
}.

Definition J2000 : Z := 946728000000000.   (* 2000-01-01T12:00:00Z *)

(** [ephem.Observer()]: the library's defaults, the date being the moment
    of construction. *)
Definition Observer_new (now : Z) : Observer :=
  mkObserver now J2000 (PyInt 0) (PyInt 0) 0 15 1010 (PyInt 0).

(** The instant [ephem] takes for a [datetime.date]: its midnight, UTC. *)
Definition midnight (day : date) : Z :=
  (toordinal day - EPOCH_ORDINAL) * 86400000000.

Definition with_date (o : Observer) (d : Z) : Observer :=
  mkObserver d (o_epoch o) (o_lat o) (o_lon o) (o_elevation o) (o_temp o)
             (o_pressure o) (o_horizon o).

Definition with_lat (o : Observer) (v : pyval) : Observer :=
  mkObserver (o_date o) (o_epoch o) v (o_lon o) (o_elevation o) (o_temp o)
             (o_pressure o) (o_horizon o).

Definition with_lon (o : Observer) (v : pyval) : Observer :=
  mkObserver (o_date o) (o_epoch o) (o_lat o) v (o_elevation o) (o_temp o)
             (o_pressure o) (o_horizon o).

Definition with_pressure (o : Observer) (p : Z) : Observer :=
  mkObserver (o_date o) (o_epoch o) (o_lat o) (o_lon o) (o_elevation o)
             (o_temp o) p (o_horizon o).

Definition with_horizon (o : Observer) (v : pyval) : Observer :=
  mkObserver (o_date o) (o_epoch o) (o_lat o) (o_lon o) (o_elevation o)
             (o_temp o) (o_pressure o) v.

(** What the solver answers: an instant (a naive [datetime], as
    [ephem.Date.datetime()] gives it), [ephem.CircumpolarError] (with its
    subclasses), or any other exception. *)
Inductive riset : Type :=
| Crossing (t : datetime)
| CircumpolarError
| Fault (e : exn).

(** One call of the solver: the direction asked for and the observer as it
    was at the call. *)
Record solver_call : Type := mkcall {
  sc_rising : bool;
  sc_observer : Observer
}.

(** ** State and the monad of the service

    One [Observer] object is live at a time: [list_times] creates it and
    hands it to [calculate_sunrise], which assigns to its fields.  The
    state is that object together with the trace of solver calls.  An
    exception leaves the state as it was when it was raised. *)

Record world : Type := mkworld {
  location : Observer;
  solver_trace : list solver_call
}.

Definition M (A : Type) : Type := world -> outcome A * world.

Definition ret {A} (a : A) : M A := fun w => (Ok a, w).

Definition raise {A} (e : exn) : M A := fun w => (Raise e, w).

Definition bind {A B} (m : M A) (k : A -> M B) : M B :=
  fun w =>
    match m w with
    | (Ok a, w') => k a w'
    | (Raise e, w') => (Raise e, w')
    end.

Definition lift {A} (r : outcome A) : M A := fun w => (r, w).

Definition modify_location (f : Observer -> Observer) : M unit :=
  fun w => (Ok tt, mkworld (f (location w)) (solver_trace w)).

Declare Scope py_scope.
Delimit Scope py_scope with py.
Notation "x <- m ;; k" := (bind m (fun x => k))
  (at level 61, m at next level, right associativity) : py_scope.
Notation "m ;; k" := (bind m (fun _ => k))
  (at level 61, right associativity) : py_scope.
Local Open Scope py_scope.

(** A list comprehension whose element expression runs in the monad. *)
Fixpoint mapM {A B} (f : A -> M B) (xs : list A) : M (list B) :=
  match xs with
  | [] => ret []
  | x :: xs' =>
      y <- f x ;;
      ys <- mapM f xs' ;;
      ret (y :: ys)
  end.

(** A [dict] with text keys, in insertion order. *)
Definition dict (V : Type) : Type := list (string * V).

Definition keys {V} (d : dict V) : list string := map fst d.

Fixpoint dict_get {V} (d : dict V) (k : string) : option V :=
  match d with
  | [] => None
  | (k', v) :: d' => if String.eqb k k' then Some v else dict_get d' k
  end.

(** What the service answers for one day and for a request. *)
Record day_entry : Type := mkday_entry {
  entry_date : string;
  entry_events : dict pyval
}.

Record response : Type := mkresponse {
  resp_latlon : pyval * pyval;
  resp_days : list day_entry
}.

(** The query string of a request to [/api/sun/]. *)
Record request_args : Type := mkargs {
  arg_lat : option string;
  arg_lon : option string;
  arg_start : option string;
  arg_end : option string;
  arg_output_type : option string
}.

(** Lines 134 to 148 of [calculate_sunrise]: the value returned for what
    the solver found.  With an instant and an [output_type] that is none of
    the three, no branch assigns [output_time] and [return output_time]
    raises [UnboundLocalError]. *)
Definition render (output_type : string) (suntime : option datetime)
  : outcome pyval :=
  match suntime with
  | Some t =>
      let suntime := replace_tzinfo t timezone_utc in
      if String.eqb output_type "js" then
        outcome_map PyInt (py_round (float_mul_int (timestamp suntime) 1000))
      else if String.eqb output_type "dt" then
        Ok (PyDatetime suntime)
      else if String.eqb output_type "iso" then
        Ok (PyStr (datetime_isoformat suntime))
      else Raise UnboundLocalError
  | None => Ok PyNone
  end.

(** The four events of [list_times]: name, horizon and whether it is a
    rising. *)
Definition events : dict (pyval * pyval) :=
  [ ("civil_dawn", (PyStr "-6", PyBool true));
    ("sunrise", (PyStr "-0:34", PyBool true));
    ("sunset", (PyStr "-0:34", PyBool false));
    ("civil_dusk", (PyStr "-6", PyBool false)) ].

(** ** The libraries

    The code of [ephem] and of [dateutil] is not part of the repository;
    the service is embedded over what they answer.
    - [angle_error v]: assigning [v] to an angle of the observer ([lat],
      [lon], [horizon]); [None] when the library takes the value, the
      exception when it refuses it.
    - [next_rising o], [next_setting o]: [sun.compute(location)] followed
      by [location.next_rising(sun)], or by [location.next_setting(sun)],
      on the observer [o].  The call leaves the observer as it found it.
    - [dateutil_parse]: [dateutil.parser.parse]. *)

Record libraries : Type := mklibraries {
  angle_error : pyval -> option exn;
  next_rising : Observer -> riset;
  next_setting : Observer -> riset;
  dateutil_parse : string -> outcome datetime
}.

Section Service.

Variable L : libraries.

(** *** Assignments to the observer *)

Definition set_angle (v : pyval) (store : Observer -> pyval -> Observer)
  : M unit :=
  match angle_error L v with
  | Some e => raise e
  | None => modify_location (fun o => store o v)
  end.

Definition solver (rising : bool) (o : Observer) : riset :=
  if rising then next_rising L o else next_setting L o.

(** [suntime = location.next_rising(sun).datetime()] inside [try], with
    [except ephem.CircumpolarError: suntime = None]; likewise for
    [next_setting].  The call is recorded in the trace. *)
Definition try_riset (rising : bool) : M (option datetime) :=
  fun w =>
    let o := location w in
    let w' := mkworld o (solver_trace w ++ [mkcall rising o]) in
    match solver rising o with
    | Crossing t => (Ok (Some t), w')
    | CircumpolarError => (Ok None, w')
    | Fault e => (Raise e, w')
    end.

(** *** [calculate_sunrise]

    The parameter [location] of the source is the observer of the state.
    [dawn] and [output_type] have defaults in the source (['True'] and
    ['iso']); [list_times] passes both. *)
Definition calculate_sunrise (day : date) (horizon : pyval) (dawn : pyval)
    (output_type : string) : M pyval :=
  modify_location (fun o => with_date o (midnight day)) ;;
  set_angle horizon with_horizon ;;
  suntime <- (if is_True dawn then try_riset true else try_riset false) ;;
  lift (render output_type suntime).

(** *** [list_times] *)

(** The comprehension [{event: calculate_sunrise(...) for event in
    events}] over a dict [evs] of events. *)
Definition event_times (evs : dict (pyval * pyval)) (day : date)
    (output_type : string) : M (dict pyval) :=
  mapM (fun event =>
          match dict_get evs event with
          | Some e =>
              v <- calculate_sunrise day (fst e) (snd e) output_type ;;
              ret (event, v)
          | None => raise KeyError
          end)
       (keys evs).

(** [now] is the moment at which [ephem.Observer()] is constructed. *)
Definition list_times (now : Z) (latitude longitude : pyval) (day : date)
    (output_type : string) : M (dict pyval) :=
  modify_location (fun _ => Observer_new now) ;;
  set_angle latitude with_lat ;;
  set_angle longitude with_lon ;;
  modify_location (fun o => with_pressure o 0) ;;
  event_times events day output_type.

(** *** [sun] *)

(** Lines 31 to 40: the first and the last day asked for. *)
Definition request_dates (today : date) (args : request_args)
  : outcome (date * date) :=
  outcome_bind
    (match arg_start args with
     | None => Ok today
     | Some s => outcome_map day_of (dateutil_parse L s)
     end)
    (fun start =>
  outcome_bind
    (match arg_end args with
     | None => Ok start
     | Some s => outcome_map day_of (dateutil_parse L s)
     end)
    (fun end_ => Ok (start, end_))).

(** Lines 42 and 43: the days from [start] to [end_]. *)
Definition days_between (start end_ : date) : outcome (list date) :=
  outcome_bind (date_add end_ (timedelta_days 1)) (fun next =>
  let days_range := days (date_sub next start) in
  outcome_mapM (fun i => date_add start (timedelta_days i))
               (range days_range)).

(** [today] is [date.today()]; [clock day] is the moment at which the
    observer for [day] is constructed. *)
Definition sun (today : date) (clock : date -> Z) (args : request_args)
  : M response :=
  let lat := arg_or_None (arg_lat args) in
  let lon := arg_or_None (arg_lon args) in
  let output_type :=
    match arg_output_type args with
    | Some s => s
    | None => "iso"
    end in
  dates <- lift (request_dates today args) ;;
  days <- lift (days_between (fst dates) (snd dates)) ;;
  times <- mapM (fun day =>
                   evs <- list_times (clock day) lat lon day output_type ;;
                   ret (mkday_entry (date_isoformat day) evs))
                days ;;
  ret (mkresponse (lat, lon) times).

(** *** Readings used in the statements *)

(** The observer as a solver call of [calculate_sunrise] sees it: date
    and horizon assigned, the other fields as they were. *)
Definition aimed (o : Observer) (day : date) (horizon : pyval) : Observer :=
  with_horizon (with_date o (midnight day)) horizon.

(** What [calculate_sunrise] returns for an answer of the solver. *)
Definition answer (output_type : string) (r : riset) : outcome pyval :=
  match r with
  | Crossing t => render output_type (Some t)
  | CircumpolarError => render output_type None
  | Fault e => Raise e
  end.

(** The value of one event, for an observer [o] whose date and horizon
    are yet to be assigned. *)
Definition event_value (o : Observer) (day : date) (output_type : string)
    (e : pyval * pyval) : outcome pyval :=
  match angle_error L (fst e) with
  | Some x => Raise x
  | None =>
      answer output_type (solver (is_True (snd e)) (aimed o day (fst e)))
  end.

Definition item_value (o : Observer) (day : date) (output_type : string)
    (item : string * (pyval * pyval)) : outcome (string * pyval) :=
  outcome_map (pair (fst item)) (event_value o day output_type (snd item)).

Definition call_of (o : Observer) (day : date)
    (item : string * (pyval * pyval)) : solver_call :=
  mkcall (is_True (snd (snd item))) (aimed o day (fst (snd item))).

(** The solver calls made for a dict of events: one per event, up to
    the first event that raises. *)
Fixpoint item_calls (o : Observer) (day : date) (output_type : string)
    (evs : dict (pyval * pyval)) : list solver_call :=
  match evs with
  | [] => []
  | item :: rest =>
      match angle_error L (fst (snd item)) with
      | Some _ => []
      | None =>
          call_of o day item ::
          match event_value o day output_type (snd item) with
          | Ok _ => item_calls o day output_type rest
          | Raise _ => []
          end
      end
  end.

(** Coordinates out of range are refused when the observer is set up,
    before any solver call. *)
Definition rejects_out_of_range : Prop :=
  forall now latitude longitude day output_type w,
    latitude_out_of_range latitude \/ longitude_out_of_range longitude ->
    exists e w',
      list_times now latitude longitude day output_type w = (Raise e, w')
      /\ solver_trace w' = solver_trace w.

(** For an observer in the geographic ranges and a day on which no event
    is absent, the four instants come in the order civil dawn, sunrise,
    sunset, civil dusk. *)
Definition events_in_order : Prop :=
  forall now latitude longitude day w w' dawn rise sset dusk,
    latitude_in_range latitude -> longitude_in_range longitude ->
    list_times now latitude longitude day "dt" w
    = (Ok [("civil_dawn", PyDatetime dawn); ("sunrise", PyDatetime rise);
           ("sunset", PyDatetime sset); ("civil_dusk", PyDatetime dusk)],
       w') ->
    microseconds_since_epoch dawn <= microseconds_since_epoch rise /\
    microseconds_since_epoch rise <= microseconds_since_epoch sset /\
    microseconds_since_epoch sset <= microseconds_since_epoch dusk.


End Service.

(** The fields of an observer that [calculate_sunrise] does not assign. *)
Definition frame (o : Observer) : Z * pyval * pyval * Z * Z * Z :=
  (o_epoch o, o_lat o, o_lon o, o_elevation o, o_temp o, o_pressure o).

(** The observer of a solver call of [list_times]. *)
Definition site (latitude longitude : pyval) (day : date) (horizon : string)
  : Observer :=
  mkObserver (midnight day) J2000 latitude longitude 0 15 0 (PyStr horizon).

(** The observer of [list_times] once latitude, longitude and pressure
    are assigned. *)
Definition station (now : Z) (latitude longitude : pyval) : Observer :=
  with_pressure (with_lon (with_lat (Observer_new now) latitude) longitude) 0.

(** The four solver calls of a day: civil dawn, sunrise, sunset, civil
    dusk. *)
Definition canonical_calls (latitude longitude : pyval) (day : date)
  : list solver_call :=
  [ mkcall true (site latitude longitude day "-6");
    mkcall true (site latitude longitude day "-0:34");
    mkcall false (site latitude longitude day "-0:34");
    mkcall false (site latitude longitude day "-6") ].

Definition chronological (ds : list date) : Prop :=
  forall i j a b,
    nth_error ds i = Some a -> nth_error ds j = Some b ->
    (i < j)%nat -> date_lt a b.

(** ** A sample almanac

    An instance of the libraries on which the service can be run.  Angle
    text is accepted when it is well formed, in range or not, as [ephem]
    does.  The sun is circumpolar for an observer at latitude 70.  For an
    observer at longitude 151.21 (Sydney) the hours are those of a day of
    June there: 00:00 UTC is 10:00 local time, so the first setting after
    it (06:54 UTC) comes before the first rising (21:00 UTC).  Elsewhere
    the hours are those of a day of June in London.  Dates are read in the
    form YYYY-MM-DD. *)

Module Almanac.

Definition angle_error (v : pyval) : option exn :=
  match v with
  | PyStr s =>
      match sexagesimal s with
      | Some _ => None
      | None => Some ValueError
      end
  | PyInt _ => None
  | _ => Some TypeError
  end.

Definition day_of_instant (us : Z) : date :=
  fromordinal (us / 86400000000 + EPOCH_ORDINAL).

Definition is_text (v : pyval) (s : string) : bool :=
  match v with
  | PyStr s' => String.eqb s s'
  | _ => false
  end.

Definition at_hour (o : Observer) (h m s us : Z) : riset :=
  Crossing (mkdatetime (day_of_instant (o_date o)) h m s us None).

Definition next_rising (o : Observer) : riset :=
  if is_text (o_lat o) "70" then CircumpolarError
  else if is_text (o_lon o) "151.21" then
    if is_text (o_horizon o) "-6" then at_hour o 20 33 0 0
    else at_hour o 21 0 0 0
  else
    if is_text (o_horizon o) "-6" then at_hour o 3 0 33 200000
    else at_hour o 3 43 12 345678.

Definition next_setting (o : Observer) : riset :=
  if is_text (o_lat o) "70" then CircumpolarError
  else if is_text (o_lon o) "151.21" then
    if is_text (o_horizon o) "-6" then at_hour o 7 21 0 0
    else at_hour o 6 54 0 0
  else
    if is_text (o_horizon o) "-6" then at_hour o 21 5 1 0
    else at_hour o 20 21 45 500000.

Definition dateutil_parse (s : string) : outcome datetime :=
  match map natural (split_on "-" s) with
  | [Some y; Some m; Some d] =>
      if (1 <=? y) && (y <=? 9999) && (1 <=? m) && (m <=? 12)
         && (1 <=? d) && (d <=? days_in_month y m)
      then Ok (mkdatetime (date_of_ymd y m d) 0 0 0 0 None)
      else Raise ValueError
  | _ => Raise ValueError
  end.

Definition libs : libraries :=
  mklibraries angle_error next_rising next_setting dateutil_parse.

Definition calculate_sunrise := calculate_sunrise libs.

Definition list_times := list_times libs.

Definition sun := sun libs.

(** A state to start from. *)
Definition start : world := mkworld (Observer_new 0) [].

Definition london (s e : string) (output_type : option string)
  : request_args :=
  mkargs (Some "51.5") (Some "-0.13") (Some s) (Some e) output_type.

End Almanac.

(** ** A sample with a failing solver

    The almanac, but the search for a rising that starts at 00:00 UTC of
    2016-06-02 fails with an exception of the library that is not a
    [CircumpolarError]. *)

Module Outage.

Definition next_rising (o : Observer) : riset :=
  if o_date o =? midnight (date_of_ymd 2016 6 2)
  then Fault (LibraryError "RuntimeError")
  else Almanac.next_rising o.

Definition libs : libraries :=
  mklibraries Almanac.angle_error next_rising Almanac.next_setting
              Almanac.dateutil_parse.

End Outage.

(** ** A sample with a rising at 04:29:39.738501

    The almanac, with every rising at 04:29:39.738501 of the observer's
    day. *)

Module Later.

Definition next_rising (o : Observer) : riset :=
  Almanac.at_hour o 4 29 39 738501.

Definition libs : libraries :=
  mklibraries Almanac.angle_error next_rising Almanac.next_setting
              Almanac.dateutil_parse.

End Later.

(** * Properties *)

(** ** Results and comprehensions *)

Lemma outcome_mapM_keys {A V} (f : string * A -> outcome (string * V))
    (xs : list (string * A)) (ys : list (string * V)) :
  (forall x y, f x = Ok y -> fst y = fst x) ->
  outcome_mapM f xs = Ok ys -> map fst ys = map fst xs.
Proof.
  intros Hkey. revert ys.
  induction xs as [|x xs IH]; intros ys H; simpl in H.
  - inversion H. reflexivity.
  - destruct (f x) as [y|e] eqn:Hx; simpl in H; [|discriminate].
    destruct (outcome_mapM f xs) as [ys'|e] eqn:Hxs; simpl in H;
      [|discriminate].
    inversion H; subst. simpl. rewrite (Hkey _ _ Hx), (IH ys' eq_refl).
    reflexivity.
Qed.

Lemma outcome_mapM_Forall2 {A B} (f : A -> outcome B) xs ys :
  outcome_mapM f xs = Ok ys <-> Forall2 (fun x y => f x = Ok y) xs ys.
Proof.
  revert ys. induction xs as [|x xs IH]; intros ys; simpl.
  - split; intros H.
    + inversion H. constructor.
    + inversion H. reflexivity.
  - split; intros H.
    + destruct (f x) as [y|e] eqn:Hx; simpl in H; [|discriminate].
      destruct (outcome_mapM f xs) as [ys'|e] eqn:Hxs; simpl in H;
      [|discriminate].
      inversion H; subst. constructor; [assumption|]. apply IH. reflexivity.
    + inversion H as [|x' y xs' ys' Hx Hrest]; subst.
      rewrite Hx. simpl. apply IH in Hrest. rewrite Hrest. reflexivity.
Qed.

Lemma outcome_mapM_ext {A B} (f g : A -> outcome B) xs :
  (forall x, In x xs -> f x = g x) -> outcome_mapM f xs = outcome_mapM g xs.
Proof.
  induction xs as [|x xs IH]; intros H; simpl; [reflexivity|].
  rewrite (H x (or_introl eq_refl)), IH; [reflexivity|].
  intros y Hy. apply H. right. exact Hy.
Qed.

(** Whether every element of a comprehension evaluates does not depend on
    the order of the elements, and neither do the values. *)
Lemma outcome_mapM_Permutation {A B} (f : A -> outcome B) xs xs' ys :
  Permutation xs xs' ->
  outcome_mapM f xs = Ok ys ->
  exists ys', outcome_mapM f xs' = Ok ys' /\ Permutation ys ys'.
Proof.
  intros HP. revert ys.
  induction HP as [|x l l' HP IH|x y l|l l' l'' HP1 IH1 HP2 IH2]; intros ys H.
  - exists ys. split; [exact H|]. apply Permutation_refl.
  - simpl in H. destruct (f x) as [b|e] eqn:Hx; simpl in H; [|discriminate].
    destruct (outcome_mapM f l) as [bs|e] eqn:Hl; simpl in H; [|discriminate].
    inversion H; subst.
    destruct (IH bs eq_refl) as [bs' [Hl' HPb]].
    exists (b :: bs'). simpl. rewrite Hx, Hl'. simpl.
    split; [reflexivity|]. apply perm_skip. exact HPb.
  - simpl in H.
    destruct (f y) as [b|e] eqn:Hy; simpl in H; [|discriminate].
    destruct (f x) as [a|e] eqn:Hx; simpl in H; [|discriminate].
    destruct (outcome_mapM f l) as [bs|e] eqn:Hl; simpl in H; [|discriminate].
    inversion H; subst.
    exists (a :: b :: bs). simpl. rewrite Hx, Hy, Hl. simpl.
    split; [reflexivity|]. apply perm_swap.
  - destruct (IH1 ys H) as [ys1 [H1 HPa]].
    destruct (IH2 ys1 H1) as [ys2 [H2 HPb]].
    exists ys2. split; [exact H2|]. eapply Permutation_trans; eassumption.
Qed.

(** ** The observer under [calculate_sunrise] *)

Lemma frame_aimed o day h : frame (aimed o day h) = frame o.
Proof. reflexivity. Qed.

Lemma aimed_same_frame o o' day h :
  frame o = frame o' -> aimed o day h = aimed o' day h.
Proof.
  destruct o, o'. unfold frame, aimed, with_horizon, with_date. simpl.
  intros H. inversion H. reflexivity.
Qed.

Lemma aimed_station now latitude longitude day h :
  aimed (station now latitude longitude) day (PyStr h)
  = site latitude longitude day h.
Proof. reflexivity. Qed.

Lemma frame_station now now' latitude longitude :
  frame (station now latitude longitude)
  = frame (station now' latitude longitude).
Proof. reflexivity. Qed.


(** ** Binary64: the range of the results *)

Lemma shr_1_bounds mrs :
  0 <= shr_m mrs -> 0 <= shr_m (shr_1 mrs) <= shr_m mrs.
Proof.
  destruct mrs as [m r s]. simpl. intros H.
  destruct m as [|p|p]; [simpl; lia| |lia].
  destruct p; simpl; lia.
Qed.

Lemma iter_pos_shr_1_bounds p : forall mrs,
  0 <= shr_m mrs -> 0 <= shr_m (iter_pos shr_1 p mrs) <= shr_m mrs.
Proof.
  induction p as [p IH|p IH|]; intros mrs H; simpl.
  - pose proof (shr_1_bounds mrs H) as H1.
    pose proof (IH (shr_1 mrs) (proj1 H1)) as H2.
    pose proof (IH _ (proj1 H2)) as H3. lia.
  - pose proof (IH mrs H) as H2.
    pose proof (IH _ (proj1 H2)) as H3. lia.
  - apply shr_1_bounds. exact H.
Qed.

Lemma shr_bounds mrs e n :
  0 <= shr_m mrs ->
  0 <= shr_m (fst (shr mrs e n)) <= shr_m mrs /\
  snd (shr mrs e n) = e + Z.max 0 n.
Proof.
  intros H. destruct n as [|p|p]; simpl.
  - split; lia.
  - split; [apply iter_pos_shr_1_bounds; exact H | lia].
  - split; lia.
Qed.

Lemma shr_record_of_loc_m m l : shr_m (shr_record_of_loc m l) = m.
Proof. destruct l as [|[]]; reflexivity. Qed.

Lemma digits2_pos_size p : digits2_pos p = Pos.size p.
Proof. induction p; simpl; congruence. Qed.

Lemma Zdigits2_bound m k :
  0 <= k -> 0 <= m < 2 ^ k -> 0 <= Zdigits2 m <= k.
Proof.
  intros Hk [Hm Hlt]. destruct m as [|p|p]; simpl; [lia| |lia].
  rewrite digits2_pos_size. split; [lia|].
  pose proof (Pos.size_le p) as Hs.
  assert (H2 : 2 ^ Zpos (Pos.size p) <= 2 * Zpos p).
  { change (2 * Zpos p) with (Zpos p~0).
    rewrite <- (Pos2Z.inj_pow 2 (Pos.size p)). apply Pos2Z.pos_le_pos. exact Hs. }
  assert (H3 : 2 ^ Zpos (Pos.size p) < 2 ^ (k + 1)).
  { rewrite Z.pow_add_r by lia. lia. }
  apply Z.pow_lt_mono_r_iff in H3; lia.
Qed.

Lemma shr_fexp_bounds m e l k :
  0 <= k -> 0 <= m < 2 ^ k ->
  0 <= shr_m (fst (shr_fexp 53 1024 m e l)) <= m /\
  snd (shr_fexp 53 1024 m e l) <= Z.max (e + k) (-1074).
Proof.
  intros Hk Hm. unfold shr_fexp.
  pose proof (shr_bounds (shr_record_of_loc m l) e
                (fexp 53 1024 (Zdigits2 m + e) - e)) as H.
  rewrite shr_record_of_loc_m in H. destruct (H (proj1 Hm)) as [H1 H2].
  split; [exact H1|]. rewrite H2.
  pose proof (Zdigits2_bound m k Hk Hm) as Hd.
  unfold fexp, emin. lia.
Qed.

Lemma round_nearest_even_bounds m l :
  0 <= m -> m <= round_nearest_even m l <= m + 1.
Proof.
  intros H. destruct l as [|[]]; simpl; try lia.
  destruct (Z.even m); lia.
Qed.

Lemma binary_round_aux_within sx mx ex lx k E :
  0 <= k -> 0 <= mx < 2 ^ k -> ex <= E -> -1074 <= E ->
  E + 2 * k + 1 <= 971 ->
  float_within (k + 1) (E + 2 * k + 1) (binary_round_aux 53 1024 sx mx ex lx).
Proof.
  intros Hk Hm He HE Hfit. unfold binary_round_aux.
  pose proof (shr_fexp_bounds mx ex lx k Hk Hm) as H1.
  destruct (shr_fexp 53 1024 mx ex lx) as [mrs1 e1]. simpl in H1.
  destruct H1 as [Hm1 He1].
  pose proof (round_nearest_even_bounds (shr_m mrs1) (loc_of_shr_record mrs1)
                (proj1 Hm1)) as Hr.
  assert (Hm2 : 0 <= round_nearest_even (shr_m mrs1) (loc_of_shr_record mrs1)
                < 2 ^ (k + 1)).
  { rewrite Z.pow_add_r by lia. lia. }
  pose proof (shr_fexp_bounds _ e1 loc_Exact (k + 1) ltac:(lia) Hm2) as H2.
  destruct (shr_fexp 53 1024 _ e1 loc_Exact) as [mrs2 e2]. simpl in H2.
  destruct H2 as [Hm3 He2].
  destruct (shr_m mrs2) as [|p|p] eqn:Hp; [exact I| |lia].
  destruct (Z.leb_spec e2 (1024 - 53)) as [Hle|Hgt]; unfold float_within.
  - split; lia.
  - lia.
Qed.

Lemma int_true_divide_within us :
  Z.abs us < 2 ^ 62 ->
  float_within 135 269 (int_true_divide us 1000000).
Proof.
  intros Hus.
  assert (Hcore : forall p, Zpos p < 2 ^ 62 ->
            forall sx, float_within 135 269
              (let '(mz, ez, lz) :=
                 SFdiv_core_binary 53 1024 (Zpos p) 0 1000000 0 in
               binary_round_aux 53 1024 sx mz ez lz)).
  { intros p Hp sx. unfold SFdiv_core_binary.
    pose proof (Zdigits2_bound (Zpos p) 62 ltac:(lia) ltac:(lia)) as Hd.
    assert (Hd1 : 1 <= Zdigits2 (Zpos p)) by (simpl; lia).
    change (Zdigits2 1000000) with 20.
    set (d := Zdigits2 (Zpos p)) in *.
    replace (Z.min (fexp 53 1024 (d + 0 - (20 + 0))) (0 - 0)) with (d - 73)
      by (unfold fexp, emin; lia).
    replace (0 - 0 - (d - 73)) with (73 - d) by lia.
    destruct (73 - d) as [|s|s] eqn:Hs; [lia| |lia].
    rewrite Z.shiftl_mul_pow2 by lia.
    pose proof (Z.div_eucl_eq (Zpos p * 2 ^ Zpos s) 1000000 ltac:(lia)) as Heq.
    pose proof (Z.mod_pos_bound (Zpos p * 2 ^ Zpos s) 1000000 ltac:(lia)) as Hr.
    unfold Z.modulo in Hr.
    destruct (Z.div_eucl (Zpos p * 2 ^ Zpos s) 1000000) as [q r].
    assert (Hpow : 0 < 2 ^ Zpos s) by (apply Z.pow_pos_nonneg; lia).
    assert (Hq : 0 <= q < 2 ^ 134).
    { assert (Hprod : Zpos p * 2 ^ Zpos s < 2 ^ 62 * 2 ^ 72).
      { apply Z.lt_le_trans with (2 ^ 62 * 2 ^ Zpos s).
        - apply Z.mul_lt_mono_pos_r; lia.
        - apply Z.mul_le_mono_nonneg_l; [lia|].
          apply Z.pow_le_mono_r; lia. }
      rewrite <- Z.pow_add_r in Hprod by lia. simpl Z.add in Hprod.
      split; nia. }
    pose proof (binary_round_aux_within sx q (d - 73)
                  (new_location 1000000 r) 134 0
                  ltac:(lia) Hq ltac:(lia) ltac:(lia) ltac:(lia)) as H.
    exact H. }
  unfold int_true_divide.
  destruct us as [|p|p]; cbn [exact_int SFdiv xorb].
  - exact I.
  - apply Hcore. lia.
  - apply Hcore. lia.
Qed.

Lemma float_mul_1000_within x :
  float_within 135 269 x ->
  float_within 146 560 (float_mul_int x 1000).
Proof.
  unfold float_mul_int. cbn [exact_int].
  destruct x as [s|s| |s m e]; cbn [SFmul float_within]; try tauto.
  intros [Hm He].
  apply (binary_round_aux_within _ _ _ _ 145 269); lia.
Qed.

Lemma py_round_total k E x :
  float_within k E x -> exists z, py_round x = Ok z.
Proof.
  destruct x as [s|s| |s m e]; simpl; intros H; try contradiction;
    eexists; reflexivity.
Qed.

Lemma total_microseconds t :
  (days (datetime_sub_epoch t) * 86400 + seconds (datetime_sub_epoch t))
  * 1000000 + microseconds (datetime_sub_epoch t)
  = microseconds_since_epoch t.
Proof.
  unfold datetime_sub_epoch. cbn [days seconds microseconds].
  set (us := microseconds_since_epoch t).
  pose proof (Z.div_mod us 86400000000 ltac:(lia)) as H1.
  pose proof (Z.div_mod (us mod 86400000000) 1000000 ltac:(lia)) as H2.
  assert (H3 : us mod 1000000 = (us mod 86400000000) mod 1000000).
  { rewrite H1 at 1.
    replace (86400000000 * (us / 86400000000) + us mod 86400000000)
      with (us mod 86400000000 + (86400 * (us / 86400000000)) * 1000000)
      by lia.
    apply Z.mod_add. lia. }
  lia.
Qed.

(** The instants of the calendar are far inside the range of binary64:
    [round(t.timestamp() * 1000)] is an integer for each of them. *)
Lemma js_milliseconds_total t :
  datetime_valid t ->
  exists z,
    py_round
      (float_mul_int (timestamp (replace_tzinfo t timezone_utc)) 1000)
    = Ok z.
Proof.
  intros (Hd & Hh & Hm & Hs & Hus). unfold date_valid, MAXORDINAL in Hd.
  unfold timestamp, total_seconds. rewrite total_microseconds.
  apply (py_round_total 146 560). apply float_mul_1000_within.
  apply int_true_divide_within.
  unfold microseconds_since_epoch, offset_of, EPOCH_ORDINAL. simpl.
  lia.
Qed.

Section ServiceFacts.

Variable L : libraries.

(** *** One run of [calculate_sunrise] *)

Lemma calculate_sunrise_accepted day h dawn ot w :
  angle_error L h = None ->
  calculate_sunrise L day h dawn ot w
  = (answer ot (solver L (is_True dawn) (aimed (location w) day h)),
     mkworld (aimed (location w) day h)
             (solver_trace w
              ++ [mkcall (is_True dawn) (aimed (location w) day h)])).
Proof.
  intros Hh.
  unfold calculate_sunrise, bind, modify_location, set_angle.
  rewrite Hh. simpl.
  destruct (is_True dawn); unfold try_riset, solver, aimed; simpl;
    match goal with
    | |- context [match ?r with Crossing _ => _ | _ => _ end] => destruct r
    end; reflexivity.
Qed.

Lemma calculate_sunrise_refused day h dawn ot w e :
  angle_error L h = Some e ->
  calculate_sunrise L day h dawn ot w
  = (Raise e,
     mkworld (with_date (location w) (midnight day)) (solver_trace w)).
Proof.
  intros Hh.
  unfold calculate_sunrise, bind, modify_location, set_angle.
  rewrite Hh. reflexivity.
Qed.

Lemma calculate_sunrise_value day e ot w :
  fst (calculate_sunrise L day (fst e) (snd e) ot w)
  = event_value L (location w) day ot e.
Proof.
  unfold event_value.
  destruct (angle_error L (fst e)) as [x|] eqn:He.
  - rewrite (calculate_sunrise_refused _ _ _ _ _ _ He). reflexivity.
  - rewrite (calculate_sunrise_accepted _ _ _ _ _ He). reflexivity.
Qed.

Lemma event_value_same_frame o o' day ot e :
  frame o = frame o' -> event_value L o day ot e = event_value L o' day ot e.
Proof.
  intros H. unfold event_value.
  rewrite (aimed_same_frame o o' day (fst e) H). reflexivity.
Qed.

Lemma item_value_same_frame o o' day ot item :
  frame o = frame o' ->
  item_value L o day ot item = item_value L o' day ot item.
Proof.
  intros H. unfold item_value.
  rewrite (event_value_same_frame o o' day ot _ H). reflexivity.
Qed.

Lemma item_calls_same_frame o o' day ot evs :
  frame o = frame o' -> item_calls L o day ot evs = item_calls L o' day ot evs.
Proof.
  intros H. induction evs as [|item rest IH]; simpl; [reflexivity|].
  unfold call_of.
  rewrite (aimed_same_frame o o' day _ H),
          (event_value_same_frame o o' day ot _ H), IH.
  reflexivity.
Qed.

(** *** The comprehension over the events *)

Lemma bind_run {A B} (m : M A) (k : A -> M B) w :
  bind m k w
  = match m w with
    | (Ok a, w') => k a w'
    | (Raise e, w') => (Raise e, w')
    end.
Proof. reflexivity. Qed.

Lemma mapM_cons {A B} (f : A -> M B) x xs w :
  mapM f (x :: xs) w
  = match f x w with
    | (Ok y, w1) =>
        match mapM f xs w1 with
        | (Ok ys, w2) => (Ok (y :: ys), w2)
        | (Raise e, w2) => (Raise e, w2)
        end
    | (Raise e, w1) => (Raise e, w1)
    end.
Proof.
  simpl. unfold bind. destruct (f x w) as [[y|e] w1]; [|reflexivity].
  destruct (mapM f xs w1) as [[ys|e] w2]; reflexivity.
Qed.

Lemma dict_get_item {V} (d : dict V) item :
  NoDup (keys d) -> In item d -> dict_get d (fst item) = Some (snd item).
Proof.
  induction d as [|[k v] d IH]; intros Hnd Hin; [contradiction|].
  inversion Hnd as [|k' ks Hk Hnd']; subst.
  destruct Hin as [Heq|Hin].
  - subst item. simpl. rewrite String.eqb_refl. reflexivity.
  - simpl. destruct (String.eqb (fst item) k) eqn:Hcmp.
    + apply String.eqb_eq in Hcmp. subst k.
      exfalso. apply Hk. apply in_map. exact Hin.
    + apply IH; assumption.
Qed.

Lemma event_times_by_items evs day ot items w :
  (forall item, In item items -> dict_get evs (fst item) = Some (snd item)) ->
  mapM (fun event =>
          match dict_get evs event with
          | Some e =>
              v <- calculate_sunrise L day (fst e) (snd e) ot ;;
              ret (event, v)
          | None => raise KeyError
          end) (keys items) w
  = mapM (fun item =>
            v <- calculate_sunrise L day (fst (snd item)) (snd (snd item)) ot ;;
            ret (fst item, v)) items w.
Proof.
  revert w. induction items as [|item rest IH]; intros w Hget; [reflexivity|].
  unfold keys. simpl map. fold (keys rest).
  rewrite !mapM_cons.
  rewrite (Hget item (or_introl eq_refl)).
  destruct (bind _ _ w) as [[kv|e] w1]; [|reflexivity].
  rewrite IH; [reflexivity|].
  intros it Hit. apply Hget. right. exact Hit.
Qed.

Lemma items_run day ot evs : forall w,
  exists o',
    frame o' = frame (location w) /\
    mapM (fun item =>
            v <- calculate_sunrise L day (fst (snd item)) (snd (snd item)) ot ;;
            ret (fst item, v)) evs w
    = (outcome_mapM (item_value L (location w) day ot) evs,
       mkworld o' (solver_trace w ++ item_calls L (location w) day ot evs)).
Proof.
  induction evs as [|item rest IH]; intros w.
  - exists (location w). split; [reflexivity|].
    simpl. unfold ret. rewrite app_nil_r. destruct w; reflexivity.
  - rewrite mapM_cons, bind_run.
    simpl outcome_mapM. simpl item_calls.
    unfold item_value at 1, event_value at 1 2.
    destruct (angle_error L (fst (snd item))) as [x|] eqn:Hangle.
    + exists (with_date (location w) (midnight day)).
      split; [reflexivity|].
      rewrite (calculate_sunrise_refused _ _ _ _ _ _ Hangle).
      simpl. rewrite app_nil_r. reflexivity.
    + rewrite (calculate_sunrise_accepted _ _ _ _ _ Hangle).
      destruct (answer ot _) as [v|e] eqn:Hans.
      * unfold ret at 1.
        destruct (IH (mkworld (aimed (location w) day (fst (snd item)))
                              (solver_trace w
                               ++ [call_of (location w) day item])))
          as [o' [Hframe Hrun]].
        simpl location in Hrun, Hframe. simpl solver_trace in Hrun.
        rewrite frame_aimed in Hframe.
        rewrite (outcome_mapM_ext _ (item_value L (location w) day ot)) in Hrun
          by (intros; apply item_value_same_frame; apply frame_aimed).
        rewrite (item_calls_same_frame _ (location w)) in Hrun
          by apply frame_aimed.
        unfold call_of in Hrun at 1. rewrite Hrun.
        exists o'. split; [exact Hframe|].
        destruct (outcome_mapM _ rest); simpl;
          rewrite <- app_assoc; reflexivity.
      * exists (aimed (location w) day (fst (snd item))).
        split; [reflexivity|]. reflexivity.
Qed.

(** [event_times] over a dict without repeated keys, from any state. *)
Lemma event_times_run evs day ot w :
  NoDup (keys evs) ->
  exists o',
    frame o' = frame (location w) /\
    event_times L evs day ot w
    = (outcome_mapM (item_value L (location w) day ot) evs,
       mkworld o' (solver_trace w ++ item_calls L (location w) day ot evs)).
Proof.
  intros Hnd. unfold event_times.
  rewrite event_times_by_items.
  - apply items_run.
  - intros item Hin. apply dict_get_item; assumption.
Qed.

(** The solver calls of a comprehension are those of its first events. *)
Lemma item_calls_prefix o day ot evs :
  exists n, (n <= List.length evs)%nat /\
    item_calls L o day ot evs = firstn n (map (call_of o day) evs) /\
    (forall out, outcome_mapM (item_value L o day ot) evs = Ok out ->
                 n = List.length evs).
Proof.
  induction evs as [|item rest IH].
  - exists 0%nat. split; [apply Nat.le_refl|]. split; [reflexivity|].
    intros; reflexivity.
  - destruct IH as [n [Hle [Hcalls Hall]]]. simpl.
    unfold item_value at 1, event_value at 1 2.
    destruct (angle_error L (fst (snd item))) as [x|] eqn:Hangle.
    + exists 0%nat. split; [lia|]. split; [reflexivity|].
      intros out H. simpl in H. discriminate.
    + destruct (answer ot _) as [v|e] eqn:Hans.
      * exists (S n). split; [lia|]. split.
        -- simpl. rewrite Hcalls. reflexivity.
        -- intros out H. simpl in H.
           destruct (outcome_mapM _ rest) as [ys|e]; [|discriminate].
           rewrite (Hall ys eq_refl). reflexivity.
      * exists 1%nat. split; [lia|]. split; [reflexivity|].
        intros out H. simpl in H. discriminate.
Qed.

(** *** One run of [list_times] *)

Lemma list_times_run now latitude longitude day ot w :
  exists o',
    list_times L now latitude longitude day ot w
    = (match angle_error L latitude, angle_error L longitude with
       | Some e, _ => Raise e
       | None, Some e => Raise e
       | None, None =>
           outcome_mapM (item_value L (station now latitude longitude) day ot)
                        events
       end,
       mkworld o'
         (solver_trace w
          ++ match angle_error L latitude, angle_error L longitude with
             | None, None =>
                 item_calls L (station now latitude longitude) day ot events
             | _, _ => []
             end)).
Proof.
  unfold list_times. rewrite !bind_run.
  unfold modify_location at 1. unfold set_angle at 1.
  destruct (angle_error L latitude) as [e|] eqn:Hlat.
  - exists (Observer_new now). unfold raise. rewrite app_nil_r. reflexivity.
  - unfold modify_location at 1. rewrite !bind_run.
    unfold set_angle at 1.
    destruct (angle_error L longitude) as [e|] eqn:Hlon.
    + exists (with_lat (Observer_new now) latitude).
      unfold raise. simpl. rewrite app_nil_r. reflexivity.
    + unfold modify_location. rewrite bind_run.
      simpl location. simpl solver_trace.
      fold (station now latitude longitude).
      destruct (event_times_run events day ot
                  (mkworld (station now latitude longitude) (solver_trace w)))
        as [o' [_ Hrun]].
      * repeat constructor; simpl; intuition discriminate.
      * exists o'. rewrite Hrun. reflexivity.
Qed.

(** *** The four events of a day *)

(** What [list_times] returns when it returns: all four solver calls have
    been made, and the four names are mapped, in order, to what
    [calculate_sunrise] returns for the solver's four answers. *)
Lemma list_times_values now latitude longitude day output_type w out w' :
  list_times L now latitude longitude day output_type w = (Ok out, w') ->
  solver_trace w'
  = (solver_trace w ++ canonical_calls latitude longitude day)%list /\
  exists dawn rise sset dusk,
    out = [("civil_dawn", dawn); ("sunrise", rise);
           ("sunset", sset); ("civil_dusk", dusk)] /\
    answer output_type
      (next_rising L (site latitude longitude day "-6")) = Ok dawn /\
    answer output_type
      (next_rising L (site latitude longitude day "-0:34")) = Ok rise /\
    answer output_type
      (next_setting L (site latitude longitude day "-0:34")) = Ok sset /\
    answer output_type
      (next_setting L (site latitude longitude day "-6")) = Ok dusk.
Proof.
  intros Hrun0.
  destruct (list_times_run now latitude longitude day output_type w)
    as [o' Hrun].
  rewrite Hrun in Hrun0.
  pose proof (f_equal fst Hrun0) as Hout.
  pose proof (f_equal snd Hrun0) as Hw.
  cbn [fst snd] in Hout, Hw. subst w'. clear Hrun0 Hrun.
  cbn [solver_trace].
  destruct (angle_error L latitude); [discriminate|].
  destruct (angle_error L longitude); [discriminate|].
  destruct (item_calls_prefix (station now latitude longitude) day
              output_type events) as [n [_ [Hcalls Hall]]].
  rewrite Hcalls, (Hall out Hout). split; [reflexivity|].
  unfold events in Hout. simpl in Hout.
  unfold item_value, event_value in Hout. simpl in Hout.
  rewrite !aimed_station in Hout.
  destruct (angle_error L (PyStr "-6")); [discriminate|].
  destruct (answer output_type
              (next_rising L (site latitude longitude day "-6")))
    as [dawn|] eqn:Hdawn; [|discriminate].
  simpl in Hout.
  destruct (angle_error L (PyStr "-0:34")); [discriminate|].
  destruct (answer output_type
              (next_rising L (site latitude longitude day "-0:34")))
    as [rise|] eqn:Hrise; [|discriminate].
  simpl in Hout.
  destruct (answer output_type
              (next_setting L (site latitude longitude day "-0:34")))
    as [sset|] eqn:Hsset; [|discriminate].
  simpl in Hout.
  destruct (answer output_type
              (next_setting L (site latitude longitude day "-6")))
    as [dusk|] eqn:Hdusk; [|discriminate].
  simpl in Hout. inversion Hout.
  exists dawn, rise, sset, dusk. repeat split; reflexivity.
Qed.

(** C1.  For every observer and day, [list_times] makes the solver calls
    of the four fixed events and no other: civil_dawn at -6 degrees
    rising, sunrise at -0:34 (that is -0.5667 degrees) rising, sunset at
    -0:34 setting, civil_dusk at -6 setting, in this order, stopping only
    at an exception.  Every call is made on an observer whose pressure is
    0, with the latitude, longitude and day given.  When [list_times]
    returns, all four calls have been made and the result maps the four
    names, in this order, to what [calculate_sunrise] returns for the
    solver's four answers. *)
Theorem list_times_canonical_events now latitude longitude day output_type
    w r w' :
  list_times L now latitude longitude day output_type w = (r, w') ->
  (exists n,
     solver_trace w'
     = (solver_trace w
        ++ firstn n (canonical_calls latitude longitude day))%list) /\
  (forall out,
     r = Ok out ->
     solver_trace w'
     = (solver_trace w ++ canonical_calls latitude longitude day)%list /\
     exists dawn rise sset dusk,
       out = [("civil_dawn", dawn); ("sunrise", rise);
              ("sunset", sset); ("civil_dusk", dusk)] /\
       answer output_type
         (next_rising L (site latitude longitude day "-6")) = Ok dawn /\
       answer output_type
         (next_rising L (site latitude longitude day "-0:34")) = Ok rise /\
       answer output_type
         (next_setting L (site latitude longitude day "-0:34")) = Ok sset /\
       answer output_type
         (next_setting L (site latitude longitude day "-6")) = Ok dusk) /\
  Forall (fun c => o_pressure (sc_observer c) = 0
                   /\ o_lat (sc_observer c) = latitude
                   /\ o_lon (sc_observer c) = longitude
                   /\ o_date (sc_observer c) = midnight day)
         (canonical_calls latitude longitude day) /\
  degrees_of (PyStr "-6") = Some (-6 # 1)%Q /\
  (exists q, degrees_of (PyStr "-0:34") = Some q /\
             (q == - (34 # 60))%Q /\
             (-5668 # 10000 < q)%Q /\ (q < -5666 # 10000)%Q).
Proof.
  intros Hrun0.
  split; [|split; [|split; [|split]]].
  - assert (Hw : w' = snd (list_times L now latitude longitude day
                             output_type w))
      by (rewrite Hrun0; reflexivity).
    subst w'.
    destruct (list_times_run now latitude longitude day output_type w)
      as [o' Hrun].
    rewrite Hrun. cbn [snd solver_trace].
    destruct (angle_error L latitude); [exists 0%nat; reflexivity|].
    destruct (angle_error L longitude); [exists 0%nat; reflexivity|].
    destruct (item_calls_prefix (station now latitude longitude) day
                output_type events) as [n [_ [Hcalls _]]].
    exists n. rewrite Hcalls. reflexivity.
  - intros out Hout. subst r.
    exact (list_times_values _ _ _ _ _ _ _ _ Hrun0).
  - repeat constructor.
  - reflexivity.
  - eexists. split; [reflexivity|].
    split; [reflexivity|]. split; reflexivity.
Qed.

(** *** The order of the four instants *)

Lemma answer_dt_instant r u :
  answer "dt" r = Ok (PyDatetime u) ->
  exists t, r = Crossing t /\ u = replace_tzinfo t timezone_utc.
Proof.
  destruct r as [t| |e]; simpl; intros H; try discriminate.
  exists t. split; [reflexivity|]. inversion H. reflexivity.
Qed.

Lemma wall_clock_utc t :
  microseconds_since_epoch (replace_tzinfo t timezone_utc) = wall_clock t.
Proof.
  unfold microseconds_since_epoch, wall_clock, offset_of. simpl. lia.
Qed.

(** C5, as the code has it.  On a day without an absent event the four
    instants that [list_times] returns are the solver's answers to four
    separate searches, each made on an observer whose date is 00:00 UTC
    of the day: the first rising at -6 and at -0:34, the first setting at
    -0:34 and at -6.  They are returned with UTC attached and otherwise
    unchanged, neither ordered nor checked, so they come in the order
    civil dawn, sunrise, sunset, civil dusk exactly when the solver's four
    answers do. *)
Theorem list_times_instants_are_answers now latitude longitude day w w'
    dawn rise sset dusk :
  list_times L now latitude longitude day "dt" w
  = (Ok [("civil_dawn", PyDatetime dawn); ("sunrise", PyDatetime rise);
         ("sunset", PyDatetime sset); ("civil_dusk", PyDatetime dusk)],
     w') ->
  exists t1 t2 t3 t4,
    next_rising L (site latitude longitude day "-6") = Crossing t1 /\
    next_rising L (site latitude longitude day "-0:34") = Crossing t2 /\
    next_setting L (site latitude longitude day "-0:34") = Crossing t3 /\
    next_setting L (site latitude longitude day "-6") = Crossing t4 /\
    o_date (site latitude longitude day "-6") = midnight day /\
    o_date (site latitude longitude day "-0:34") = midnight day /\
    dawn = replace_tzinfo t1 timezone_utc /\
    rise = replace_tzinfo t2 timezone_utc /\
    sset = replace_tzinfo t3 timezone_utc /\
    dusk = replace_tzinfo t4 timezone_utc /\
    (microseconds_since_epoch dawn <= microseconds_since_epoch rise /\
     microseconds_since_epoch rise <= microseconds_since_epoch sset /\
     microseconds_since_epoch sset <= microseconds_since_epoch dusk
     <->
     wall_clock t1 <= wall_clock t2 /\
     wall_clock t2 <= wall_clock t3 /\
     wall_clock t3 <= wall_clock t4).
Proof.
  intros Hrun.
  destruct (list_times_values _ _ _ _ _ _ _ _ Hrun)
    as (_ & v1 & v2 & v3 & v4 & Hout & H1 & H2 & H3 & H4).
  inversion Hout; subst v1 v2 v3 v4.
  apply answer_dt_instant in H1, H2, H3, H4.
  destruct H1 as (t1 & H1 & ->). destruct H2 as (t2 & H2 & ->).
  destruct H3 as (t3 & H3 & ->). destruct H4 as (t4 & H4 & ->).
  exists t1, t2, t3, t4.
  repeat (split; [first [assumption | reflexivity]|]).
  rewrite !wall_clock_utc. tauto.
Qed.

(** *** Absence *)

(** C2.  When the solver reports the circumpolar condition for the
    direction asked for (the sun does not cross the horizon that way),
    [calculate_sunrise] returns [None]: it does not raise, and the value is
    the same [None] for every [output_type]. *)
Theorem calculate_sunrise_circumpolar day horizon dawn output_type w :
  angle_error L horizon = None ->
  solver L (is_True dawn) (aimed (location w) day horizon) = CircumpolarError ->
  fst (calculate_sunrise L day horizon dawn output_type w) = Ok PyNone.
Proof.
  intros Hangle Hsolver.
  rewrite (calculate_sunrise_accepted _ _ _ _ _ Hangle), Hsolver.
  reflexivity.
Qed.

(** C9.  When the solver finds an instant and [output_type] is none of
    'js', 'dt' and 'iso', no branch assigns the value to return and
    [calculate_sunrise] raises [UnboundLocalError], after the solver call
    has been made. *)
Theorem calculate_sunrise_unknown_output_type day horizon dawn output_type w t :
  angle_error L horizon = None ->
  solver L (is_True dawn) (aimed (location w) day horizon) = Crossing t ->
  output_type <> "js" -> output_type <> "dt" -> output_type <> "iso" ->
  calculate_sunrise L day horizon dawn output_type w
  = (Raise UnboundLocalError,
     mkworld (aimed (location w) day horizon)
             (solver_trace w
              ++ [mkcall (is_True dawn) (aimed (location w) day horizon)])).
Proof.
  intros Hangle Hsolver Hjs Hdt Hiso.
  rewrite (calculate_sunrise_accepted _ _ _ _ _ Hangle), Hsolver.
  unfold answer, render.
  apply String.eqb_neq in Hjs, Hdt, Hiso.
  rewrite Hjs, Hdt, Hiso. reflexivity.
Qed.

(** *** What [calculate_sunrise] changes, and what its result depends on *)

(** C10.  A call of [calculate_sunrise] assigns the date and the horizon
    of the observer and leaves every other field (latitude, longitude,
    pressure, and the fields never assigned) as it was.  Its result
    depends on the state only through those other fields: on an observer
    as [list_times] sets it up it is a function of latitude, longitude,
    pressure, day, horizon and direction (and of the output type).  So in
    the comprehension over the events each value is the one a lone call
    from the initial state returns, and evaluating the events in another
    order gives the same values. *)
Theorem calculate_sunrise_frame day horizon dawn output_type w r w' :
  calculate_sunrise L day horizon dawn output_type w = (r, w') ->
  o_lat (location w') = o_lat (location w) /\
  o_lon (location w') = o_lon (location w) /\
  o_pressure (location w') = o_pressure (location w) /\
  frame (location w') = frame (location w) /\
  o_date (location w') = midnight day /\
  (angle_error L horizon = None -> o_horizon (location w') = horizon) /\
  (forall w2,
     frame (location w2) = frame (location w) ->
     fst (calculate_sunrise L day horizon dawn output_type w2) = r) /\
  (forall latitude longitude pressure,
     frame (location w) = (J2000, latitude, longitude, 0, 15, pressure) ->
     angle_error L horizon = None ->
     r = answer output_type
           (solver L (is_True dawn)
              (mkObserver (midnight day) J2000 latitude longitude 0 15
                          pressure horizon))) /\
  (forall evs out,
     NoDup (keys evs) ->
     fst (event_times L evs day output_type w) = Ok out ->
     Forall2 (fun item kv =>
                fst kv = fst item /\
                fst (calculate_sunrise L day (fst (snd item)) (snd (snd item))
                       output_type w)
                = Ok (snd kv))
             evs out) /\
  (forall evs evs' out,
     NoDup (keys evs) -> Permutation evs evs' ->
     fst (event_times L evs day output_type w) = Ok out ->
     exists out',
       fst (event_times L evs' day output_type w) = Ok out' /\
       Permutation out out').
Proof.
  intros Hrun.
  assert (Hr : r = fst (calculate_sunrise L day horizon dawn output_type w))
    by (rewrite Hrun; reflexivity).
  assert (Hw : w' = snd (calculate_sunrise L day horizon dawn output_type w))
    by (rewrite Hrun; reflexivity).
  clear Hrun. subst r w'.
  split; [|split; [|split; [|split; [|split; [|split; [|split;
    [|split; [|split]]]]]]]].
  1-6: destruct (angle_error L horizon) as [e|] eqn:Hangle;
    [ rewrite (calculate_sunrise_refused _ _ _ _ _ _ Hangle)
    | rewrite (calculate_sunrise_accepted _ _ _ _ _ Hangle) ];
    try reflexivity; intros; try discriminate; reflexivity.
  - intros w2 Hw2.
    change (fst (calculate_sunrise L day (fst (horizon, dawn))
                   (snd (horizon, dawn)) output_type w2)
            = fst (calculate_sunrise L day (fst (horizon, dawn))
                     (snd (horizon, dawn)) output_type w)).
    rewrite !calculate_sunrise_value.
    apply event_value_same_frame. exact Hw2.
  - intros latitude longitude pressure Hfields Hangle.
    rewrite (calculate_sunrise_accepted _ _ _ _ _ Hangle). cbn [fst].
    destruct (location w) as [d ep la lo el te pr ho].
    unfold frame in Hfields. simpl in Hfields.
    inversion Hfields; subst. reflexivity.
  - intros evs out Hnd Hout.
    destruct (event_times_run evs day output_type w Hnd) as [o' [_ Hrun]].
    rewrite Hrun in Hout. cbn [fst] in Hout.
    apply outcome_mapM_Forall2 in Hout.
    eapply Forall2_impl; [|exact Hout].
    intros item kv Hitem. cbv beta in Hitem.
    unfold item_value in Hitem.
    rewrite calculate_sunrise_value.
    destruct (event_value L (location w) day output_type (snd item));
      simpl in Hitem; [|discriminate].
    inversion Hitem. split; reflexivity.
  - intros evs evs' out Hnd HP Hout.
    assert (Hnd' : NoDup (keys evs')).
    { eapply Permutation_NoDup; [|exact Hnd].
      unfold keys. apply Permutation_map. exact HP. }
    destruct (event_times_run evs day output_type w Hnd) as [o1 [_ Hrun]].
    destruct (event_times_run evs' day output_type w Hnd') as [o2 [_ Hrun']].
    rewrite Hrun in Hout. rewrite Hrun'. cbn [fst] in *.
    eapply outcome_mapM_Permutation; eassumption.
Qed.

(** *** Determinism *)

(** C8.  The result of [list_times] is a function of latitude, longitude,
    day and output type: neither the moment at which the observer is
    constructed nor the state left by earlier calls has any influence on
    the four results, nor on the solver calls made.  (The libraries are
    functions of their arguments here.) *)
Theorem list_times_deterministic now1 now2 latitude longitude day output_type
    w1 w2 :
  fst (list_times L now1 latitude longitude day output_type w1)
  = fst (list_times L now2 latitude longitude day output_type w2) /\
  exists calls,
    solver_trace (snd (list_times L now1 latitude longitude day output_type w1))
    = (solver_trace w1 ++ calls)%list /\
    solver_trace (snd (list_times L now2 latitude longitude day output_type w2))
    = (solver_trace w2 ++ calls)%list.
Proof.
  destruct (list_times_run now1 latitude longitude day output_type w1)
    as [o1 H1].
  destruct (list_times_run now2 latitude longitude day output_type w2)
    as [o2 H2].
  rewrite H1, H2. cbn [fst snd solver_trace].
  rewrite (outcome_mapM_ext
             (item_value L (station now1 latitude longitude) day output_type)
             (item_value L (station now2 latitude longitude) day output_type))
    by (intros; apply item_value_same_frame; apply frame_station).
  rewrite (item_calls_same_frame (station now1 latitude longitude)
             (station now2 latitude longitude))
    by apply frame_station.
  split; [reflexivity|].
  eexists. split; reflexivity.
Qed.

(** *** Latitude and longitude *)

Lemma Forall_firstn {A} (P : A -> Prop) n xs :
  Forall P xs -> Forall P (firstn n xs).
Proof.
  revert n. induction xs as [|x xs IH]; intros n H.
  - rewrite firstn_nil. constructor.
  - destruct n as [|n]; [constructor|]. simpl.
    inversion H; subst. constructor; [assumption|]. apply IH. assumption.
Qed.

(** C7, as the code has it.  [list_times] has no range check and no
    clamp of its own: it assigns latitude and longitude to the observer as
    it receives them.  A value that the library's setter refuses raises
    the setter's exception before any solver call; values that the setter
    accepts, inside the geographic ranges or not, reach the solver as they
    were given, in every solver call of the day. *)
Theorem list_times_coordinates_unchecked now latitude longitude day
    output_type w :
  (forall e,
     angle_error L latitude = Some e ->
     list_times L now latitude longitude day output_type w
     = (Raise e, mkworld (Observer_new now) (solver_trace w))) /\
  (forall e,
     angle_error L latitude = None -> angle_error L longitude = Some e ->
     list_times L now latitude longitude day output_type w
     = (Raise e,
        mkworld (with_lat (Observer_new now) latitude) (solver_trace w))) /\
  (angle_error L latitude = None -> angle_error L longitude = None ->
   exists calls,
     solver_trace (snd (list_times L now latitude longitude day output_type w))
     = (solver_trace w ++ calls)%list /\
     Forall (fun c => o_lat (sc_observer c) = latitude
                      /\ o_lon (sc_observer c) = longitude) calls /\
     (angle_error L (PyStr "-6") = None -> calls <> [])).
Proof.
  split; [|split].
  - intros e Hlat. unfold list_times. rewrite !bind_run.
    unfold modify_location at 1. unfold set_angle at 1.
    rewrite Hlat. reflexivity.
  - intros e Hlat Hlon. unfold list_times. rewrite !bind_run.
    unfold modify_location at 1. unfold set_angle at 1.
    rewrite Hlat. unfold modify_location at 1. rewrite !bind_run.
    unfold set_angle at 1. rewrite Hlon. reflexivity.
  - intros Hlat Hlon.
    destruct (list_times_run now latitude longitude day output_type w)
      as [o' Hrun].
    rewrite Hrun, Hlat, Hlon. cbn [snd solver_trace].
    exists (item_calls L (station now latitude longitude) day output_type
                        events).
    split; [reflexivity|]. split.
    + destruct (item_calls_prefix (station now latitude longitude) day
                  output_type events) as [n [_ [Hcalls _]]].
      rewrite Hcalls. apply Forall_firstn.
      repeat constructor.
    + intros Hsix. unfold events. simpl. rewrite Hsix. discriminate.
Qed.

(** *** The days of a request *)

Lemma range_In i n : In i (range n) <-> 0 <= i < n.
Proof.
  unfold range. rewrite in_map_iff. split.
  - intros [k [Hk Hin]]. apply in_seq in Hin. lia.
  - intros H. exists (Z.to_nat i). split; [lia|]. apply in_seq. lia.
Qed.

Lemma range_length n : List.length (range n) = Z.to_nat n.
Proof. unfold range. rewrite length_map, length_seq. reflexivity. Qed.

Lemma range_nth i n :
  (i < Z.to_nat n)%nat -> nth_error (range n) i = Some (Z.of_nat i).
Proof.
  intros H. unfold range. rewrite nth_error_map, nth_error_seq.
  destruct (Nat.ltb_spec i (Z.to_nat n)); [reflexivity|lia].
Qed.

Lemma outcome_mapM_total {A B} (f : A -> outcome B) (g : A -> B) xs :
  (forall x, In x xs -> f x = Ok (g x)) ->
  outcome_mapM f xs = Ok (map g xs).
Proof.
  induction xs as [|x xs IH]; intros H; [reflexivity|].
  simpl. rewrite (H x (or_introl eq_refl)). simpl.
  rewrite IH; [reflexivity|]. intros y Hy. apply H. right. exact Hy.
Qed.

(** The days from [start] on, [n] of them. *)
Lemma days_between_span start end_ :
  date_valid start -> date_valid end_ -> toordinal end_ < MAXORDINAL ->
  days_between start end_
  = Ok (map (fun i => fromordinal (toordinal start + i))
            (range (toordinal end_ + 1 - toordinal start))).
Proof.
  unfold date_valid. intros Hs He Hlast.
  unfold days_between, date_add, timedelta_days, date_sub. simpl.
  destruct (Z.ltb_spec 0 (toordinal end_ + 1)); [|lia].
  destruct (Z.leb_spec (toordinal end_ + 1) MAXORDINAL); [|lia].
  simpl. apply outcome_mapM_total.
  intros i Hi. apply range_In in Hi.
  destruct (Z.ltb_spec 0 (toordinal start + i)); [|lia].
  destruct (Z.leb_spec (toordinal start + i) MAXORDINAL); [|lia].
  reflexivity.
Qed.

Lemma days_between_last_day start :
  days_between start date_max = Raise OverflowError.
Proof. reflexivity. Qed.

Lemma span_chronological start n :
  chronological (map (fun i => fromordinal (toordinal start + i)) (range n)).
Proof.
  intros i j a b Hi Hj Hlt.
  rewrite nth_error_map in Hi, Hj.
  destruct (nth_error (range n) i) as [x|] eqn:Hx; [|discriminate].
  destruct (nth_error (range n) j) as [y|] eqn:Hy; [|discriminate].
  simpl in Hi, Hj. inversion Hi; inversion Hj; subst.
  assert (Hjn : (j < Z.to_nat n)%nat).
  { rewrite <- range_length. apply nth_error_Some. congruence. }
  rewrite range_nth in Hx, Hy by lia.
  inversion Hx; inversion Hy; subst.
  unfold date_lt. simpl. lia.
Qed.

Lemma range_nonpositive n : n <= 0 -> range n = [].
Proof.
  intros H. unfold range.
  replace (Z.to_nat n) with 0%nat by lia. reflexivity.
Qed.

(** *** One run of [sun] *)

Lemma sun_run today clock args start end_ w :
  request_dates L today args = Ok (start, end_) ->
  sun L today clock args w
  = match days_between start end_ with
    | Raise e => (Raise e, w)
    | Ok days =>
        match mapM (fun day =>
                      evs <- list_times L (clock day)
                               (arg_or_None (arg_lat args))
                               (arg_or_None (arg_lon args)) day
                               match arg_output_type args with
                               | Some s => s
                               | None => "iso"
                               end ;;
                      ret (mkday_entry (date_isoformat day) evs))
                   days w with
        | (Ok times, w') =>
            (Ok (mkresponse (arg_or_None (arg_lat args),
                             arg_or_None (arg_lon args)) times), w')
        | (Raise e, w') => (Raise e, w')
        end
    end.
Proof.
  intros Hdates. unfold sun. rewrite bind_run. unfold lift at 1.
  rewrite Hdates. rewrite bind_run. unfold lift at 1. cbn [fst snd].
  destruct (days_between start end_) as [ds|e]; [|reflexivity].
  rewrite bind_run.
  destruct (mapM _ ds w) as [[times|e] w']; reflexivity.
Qed.

Lemma mapM_Ok_Forall2 {A B} (f : A -> M B) xs : forall w ys w',
  mapM f xs w = (Ok ys, w') ->
  Forall2 (fun x y => exists w1 w2, f x w1 = (Ok y, w2)) xs ys.
Proof.
  induction xs as [|x xs IH]; intros w ys w' H.
  - inversion H. constructor.
  - rewrite mapM_cons in H.
    destruct (f x w) as [[y|e] w1] eqn:Hx; [|discriminate].
    destruct (mapM f xs w1) as [[ys'|e] w2] eqn:Hxs; [|discriminate].
    inversion H; subst. constructor.
    + exists w, w1. exact Hx.
    + eapply IH. exact Hxs.
Qed.

Lemma list_times_keys now latitude longitude day ot w out :
  fst (list_times L now latitude longitude day ot w) = Ok out ->
  keys out = ["civil_dawn"; "sunrise"; "sunset"; "civil_dusk"].
Proof.
  destruct (list_times_run now latitude longitude day ot w) as [o' Hrun].
  rewrite Hrun. cbn [fst]. intros H.
  destruct (angle_error L latitude); [discriminate|].
  destruct (angle_error L longitude); [discriminate|].
  unfold keys. apply outcome_mapM_keys in H; [exact H|].
  intros x y Hxy. unfold item_value in Hxy.
  destruct (event_value L _ _ _ _); simpl in Hxy; [|discriminate].
  inversion Hxy. reflexivity.
Qed.

(** Below the last day of the calendar a range from [start] to [end_]
    gives one entry per day, in the order of the days, each with the four
    events, whenever every day's events can be computed. *)
Lemma sun_days_below_last_day today clock args start end_ w resp w' :
  request_dates L today args = Ok (start, end_) ->
  date_valid start -> date_valid end_ -> date_le start end_ ->
  toordinal end_ < MAXORDINAL ->
  sun L today clock args w = (Ok resp, w') ->
  exists ds,
    days_between start end_ = Ok ds /\
    ds = map (fun i => fromordinal (toordinal start + i))
             (range (toordinal end_ - toordinal start + 1)) /\
    Z.of_nat (List.length (resp_days resp))
    = toordinal end_ - toordinal start + 1 /\
    map entry_date (resp_days resp) = map date_isoformat ds /\
    chronological ds /\
    Forall (fun entry =>
              keys (entry_events entry)
              = ["civil_dawn"; "sunrise"; "sunset"; "civil_dusk"])
           (resp_days resp).
Proof.
  intros Hdates Hs He Hle Hlast Hsun.
  rewrite (sun_run _ _ _ _ _ _ Hdates) in Hsun.
  rewrite (days_between_span _ _ Hs He Hlast) in *.
  replace (toordinal end_ + 1 - toordinal start)
    with (toordinal end_ - toordinal start + 1) in * by lia.
  eexists. split; [reflexivity|]. split; [reflexivity|].
  destruct (mapM _ _ w) as [[times|e] w1] eqn:Hmap; [|discriminate].
  inversion Hsun; subst. cbn [resp_days].
  apply mapM_Ok_Forall2 in Hmap.
  split; [|split; [|split]].
  - rewrite <- (Forall2_length Hmap), length_map, range_length.
    unfold date_le in Hle. lia.
  - clear Hs He Hle Hlast Hdates Hsun.
    induction Hmap as [|d entry ds times Hd _ IH];
      [reflexivity|].
    simpl. rewrite IH. f_equal.
    destruct Hd as [w1 [w2 Hd]]. rewrite bind_run in Hd.
    destruct (list_times L _ _ _ _ _ w1) as [[evs|e] w3]; [|discriminate].
    inversion Hd. reflexivity.
  - apply span_chronological.
  - clear Hs He Hle Hlast Hdates Hsun.
    induction Hmap as [|d entry ds times Hd _ IH];
      constructor; [|exact IH].
    destruct Hd as [w1 [w2 Hd]]. rewrite bind_run in Hd.
    destruct (list_times L _ _ _ _ _ w1) as [[evs|e] w3] eqn:Hlt;
      [|discriminate].
    inversion Hd. cbn [entry_events].
    eapply list_times_keys. rewrite Hlt. reflexivity.
Qed.

(** C3, at the input on which the code fails.  A range that ends on
    9999-12-31, the last day of [datetime.date], produces no day at all:
    [end + timedelta(days=1)] raises [OverflowError] before any day is
    listed, whatever the first day is. *)
Theorem sun_range_ending_on_last_day today clock args start w :
  request_dates L today args = Ok (start, date_max) ->
  sun L today clock args w = (Raise OverflowError, w).
Proof.
  intros Hdates.
  rewrite (sun_run _ _ _ _ _ _ Hdates), days_between_last_day.
  reflexivity.
Qed.

(** C4.  When the last day asked for is before the first, the computed
    range length is not positive, the list of days is empty, and [sun]
    answers with an empty list of days: it raises nothing and makes no
    solver call. *)
Theorem sun_reversed_range today clock args start end_ w :
  request_dates L today args = Ok (start, end_) ->
  date_valid start -> date_valid end_ -> date_lt end_ start ->
  date_add end_ (timedelta_days 1) = Ok (fromordinal (toordinal end_ + 1)) /\
  days (date_sub (fromordinal (toordinal end_ + 1)) start) <= 0 /\
  days_between start end_ = Ok [] /\
  sun L today clock args w
  = (Ok (mkresponse (arg_or_None (arg_lat args), arg_or_None (arg_lon args))
                    []),
     w).
Proof.
  unfold date_valid, date_lt. intros Hdates Hs He Hlt.
  assert (Hdays : days_between start end_ = Ok []).
  { rewrite days_between_span by (unfold date_valid; lia).
    rewrite range_nonpositive by lia. reflexivity. }
  split; [|split; [|split]].
  - unfold date_add, timedelta_days. simpl.
    destruct (Z.ltb_spec 0 (toordinal end_ + 1)); [|lia].
    destruct (Z.leb_spec (toordinal end_ + 1) MAXORDINAL); [|lia].
    reflexivity.
  - simpl. lia.
  - exact Hdays.
  - rewrite (sun_run _ _ _ _ _ _ Hdates), Hdays. reflexivity.
Qed.

End ServiceFacts.


(** * The service on the sample almanac *)

(** London on 2024-06-20: the four solver calls and the four values. *)
Lemma list_times_canonical_events_witness :
  list_times Almanac.libs 0 (PyStr "51.5") (PyStr "-0.13")
    (date_of_ymd 2024 6 20) "iso" Almanac.start
  = (Ok [("civil_dawn", PyStr "2024-06-20T03:00:33.200000+00:00");
         ("sunrise", PyStr "2024-06-20T03:43:12.345678+00:00");
         ("sunset", PyStr "2024-06-20T20:21:45.500000+00:00");
         ("civil_dusk", PyStr "2024-06-20T21:05:01+00:00")],
     mkworld
       (site (PyStr "51.5") (PyStr "-0.13") (date_of_ymd 2024 6 20) "-6")
       (canonical_calls (PyStr "51.5") (PyStr "-0.13")
          (date_of_ymd 2024 6 20))) /\
  exists dawn rise sset dusk,
    answer "iso"
      (next_rising Almanac.libs
         (site (PyStr "51.5") (PyStr "-0.13") (date_of_ymd 2024 6 20) "-6"))
    = Ok dawn /\
    answer "iso"
      (next_rising Almanac.libs
         (site (PyStr "51.5") (PyStr "-0.13") (date_of_ymd 2024 6 20)
               "-0:34"))
    = Ok rise /\
    answer "iso"
      (next_setting Almanac.libs
         (site (PyStr "51.5") (PyStr "-0.13") (date_of_ymd 2024 6 20)
               "-0:34"))
    = Ok sset /\
    answer "iso"
      (next_setting Almanac.libs
         (site (PyStr "51.5") (PyStr "-0.13") (date_of_ymd 2024 6 20) "-6"))
    = Ok dusk.
Proof.
  assert (Hrun :
            list_times Almanac.libs 0 (PyStr "51.5") (PyStr "-0.13")
              (date_of_ymd 2024 6 20) "iso" Almanac.start
            = (Ok [("civil_dawn", PyStr "2024-06-20T03:00:33.200000+00:00");
                   ("sunrise", PyStr "2024-06-20T03:43:12.345678+00:00");
                   ("sunset", PyStr "2024-06-20T20:21:45.500000+00:00");
                   ("civil_dusk", PyStr "2024-06-20T21:05:01+00:00")],
               mkworld
                 (site (PyStr "51.5") (PyStr "-0.13")
                       (date_of_ymd 2024 6 20) "-6")
                 (canonical_calls (PyStr "51.5") (PyStr "-0.13")
                    (date_of_ymd 2024 6 20)))).
  { vm_compute. reflexivity. }
  split; [exact Hrun|].
  destruct (list_times_canonical_events Almanac.libs _ _ _ _ _ _ _ _ Hrun)
    as (_ & H & _).
  destruct (H _ eq_refl) as (_ & dawn & rise & sset & dusk & _ & Hvalues).
  exists dawn, rise, sset, dusk. exact Hvalues.
Defined.

(** Latitude 70 on 2024-06-21: no sunset, for the output type 'js'. *)
Lemma calculate_sunrise_circumpolar_witness :
  angle_error Almanac.libs (PyStr "-0:34") = None /\
  solver Almanac.libs (is_True (PyBool false))
    (aimed (station 0 (PyStr "70") (PyStr "20")) (date_of_ymd 2024 6 21)
           (PyStr "-0:34"))
  = CircumpolarError /\
  fst (Almanac.calculate_sunrise (date_of_ymd 2024 6 21) (PyStr "-0:34")
         (PyBool false) "js"
         (mkworld (station 0 (PyStr "70") (PyStr "20")) []))
  = Ok PyNone.
Proof.
  split; [reflexivity|]. split; [reflexivity|].
  apply (calculate_sunrise_circumpolar
           Almanac.libs);
    reflexivity.
Defined.

(** London on 2024-06-20 with the output type 'xml'. *)
Lemma calculate_sunrise_unknown_output_type_witness :
  angle_error Almanac.libs (PyStr "-6") = None /\
  solver Almanac.libs (is_True (PyBool true))
    (aimed (station 0 (PyStr "51.5") (PyStr "-0.13")) (date_of_ymd 2024 6 20)
           (PyStr "-6"))
  = Crossing (mkdatetime (date_of_ymd 2024 6 20) 3 0 33 200000 None) /\
  "xml" <> "js" /\ "xml" <> "dt" /\ "xml" <> "iso" /\
  fst (Almanac.calculate_sunrise (date_of_ymd 2024 6 20) (PyStr "-6")
         (PyBool true) "xml"
         (mkworld (station 0 (PyStr "51.5") (PyStr "-0.13")) []))
  = Raise UnboundLocalError.
Proof.
  split; [reflexivity|]. split; [reflexivity|].
  split; [discriminate|]. split; [discriminate|]. split; [discriminate|].
  unfold Almanac.calculate_sunrise.
  rewrite (calculate_sunrise_unknown_output_type
             Almanac.libs
             (date_of_ymd 2024 6 20) (PyStr "-6") (PyBool true) "xml"
             (mkworld (station 0 (PyStr "51.5") (PyStr "-0.13")) [])
             (mkdatetime (date_of_ymd 2024 6 20) 3 0 33 200000 None)
             eq_refl eq_refl);
    [reflexivity | discriminate | discriminate | discriminate].
Defined.

(** London on 2024-06-20: one call of [calculate_sunrise], and the events
    taken in the reverse order give the same values. *)
Lemma calculate_sunrise_frame_witness :
  calculate_sunrise Almanac.libs (date_of_ymd 2024 6 20) (PyStr "-6")
    (PyBool true) "iso"
    (mkworld (station 0 (PyStr "51.5") (PyStr "-0.13")) [])
  = (Ok (PyStr "2024-06-20T03:00:33.200000+00:00"),
     mkworld (site (PyStr "51.5") (PyStr "-0.13") (date_of_ymd 2024 6 20) "-6")
             [mkcall true
                (site (PyStr "51.5") (PyStr "-0.13") (date_of_ymd 2024 6 20)
                      "-6")]) /\
  NoDup (keys events) /\
  Permutation events (rev events) /\
  exists out',
    fst (event_times Almanac.libs (rev events) (date_of_ymd 2024 6 20) "iso"
           (mkworld (station 0 (PyStr "51.5") (PyStr "-0.13")) []))
    = Ok out' /\
    Permutation
      [("civil_dawn", PyStr "2024-06-20T03:00:33.200000+00:00");
       ("sunrise", PyStr "2024-06-20T03:43:12.345678+00:00");
       ("sunset", PyStr "2024-06-20T20:21:45.500000+00:00");
       ("civil_dusk", PyStr "2024-06-20T21:05:01+00:00")]
      out'.
Proof.
  assert (Hrun :
            calculate_sunrise Almanac.libs (date_of_ymd 2024 6 20)
              (PyStr "-6") (PyBool true) "iso"
              (mkworld (station 0 (PyStr "51.5") (PyStr "-0.13")) [])
            = (Ok (PyStr "2024-06-20T03:00:33.200000+00:00"),
               mkworld (site (PyStr "51.5") (PyStr "-0.13")
                             (date_of_ymd 2024 6 20) "-6")
                       [mkcall true
                          (site (PyStr "51.5") (PyStr "-0.13")
                                (date_of_ymd 2024 6 20) "-6")])).
  { vm_compute. reflexivity. }
  assert (Hnd : NoDup (keys events)).
  { repeat constructor; simpl; intuition discriminate. }
  split; [exact Hrun|]. split; [exact Hnd|].
  split; [apply Permutation_rev|].
  destruct (calculate_sunrise_frame Almanac.libs _ _ _ _ _ _ _ Hrun)
    as (_ & _ & _ & _ & _ & _ & _ & _ & _ & Horder).
  apply (Horder events (rev events) _ Hnd (Permutation_rev events)).
  vm_compute. reflexivity.
Defined.

(** The almanac takes any well-formed angle text, as [ephem] does:
    latitude 95 is not refused, and the solver is called with it. *)
Lemma list_times_out_of_range_accepted :
  ~ rejects_out_of_range Almanac.libs.
Proof.
  intros H.
  destruct (H 0 (PyStr "95") (PyStr "0") (date_of_ymd 2024 6 20) "iso"
              Almanac.start) as [e [w' [Hrun _]]].
  - left. exists (95 # 1)%Q. split; [reflexivity|]. right. reflexivity.
  - vm_compute in Hrun. discriminate.
Qed.

Lemma list_times_coordinates_unchecked_witness :
  angle_error Almanac.libs (PyStr "95") = None /\
  angle_error Almanac.libs (PyStr "0") = None /\
  latitude_out_of_range (PyStr "95") /\
  exists calls,
    solver_trace
      (snd (Almanac.list_times 0 (PyStr "95") (PyStr "0")
              (date_of_ymd 2024 6 20) "iso" Almanac.start))
    = (solver_trace Almanac.start ++ calls)%list /\
    Forall (fun c => o_lat (sc_observer c) = PyStr "95"
                     /\ o_lon (sc_observer c) = PyStr "0") calls /\
    (angle_error Almanac.libs (PyStr "-6") = None -> calls <> []).
Proof.
  split; [reflexivity|]. split; [reflexivity|]. split.
  - exists (95 # 1)%Q. split; [reflexivity|]. right. reflexivity.
  - destruct (list_times_coordinates_unchecked
                Almanac.libs
                0 (PyStr "95") (PyStr "0") (date_of_ymd 2024 6 20) "iso"
                Almanac.start) as (_ & _ & H).
    exact (H eq_refl eq_refl).
Defined.

(** The range 9999-12-30 to 9999-12-31. *)
Lemma sun_range_ending_on_last_day_witness :
  request_dates Almanac.libs (date_of_ymd 2024 6 20)
    (Almanac.london "9999-12-30" "9999-12-31" None)
  = Ok (date_of_ymd 9999 12 30, date_max) /\
  Almanac.sun (date_of_ymd 2024 6 20) (fun _ => 0)
    (Almanac.london "9999-12-30" "9999-12-31" None) Almanac.start
  = (Raise OverflowError, Almanac.start).
Proof.
  split; [vm_compute; reflexivity|].
  apply (sun_range_ending_on_last_day
           Almanac.libs (date_of_ymd 2024 6 20) (fun _ => 0)
           (Almanac.london "9999-12-30" "9999-12-31" None)
           (date_of_ymd 9999 12 30)).
  vm_compute. reflexivity.
Defined.

(** The range 2024-06-22 to 2024-06-20. *)
Lemma sun_reversed_range_witness :
  request_dates Almanac.libs (date_of_ymd 2024 1 1)
    (Almanac.london "2024-06-22" "2024-06-20" None)
  = Ok (date_of_ymd 2024 6 22, date_of_ymd 2024 6 20) /\
  date_valid (date_of_ymd 2024 6 22) /\
  date_valid (date_of_ymd 2024 6 20) /\
  date_lt (date_of_ymd 2024 6 20) (date_of_ymd 2024 6 22) /\
  Almanac.sun (date_of_ymd 2024 1 1) (fun _ => 0)
    (Almanac.london "2024-06-22" "2024-06-20" None) Almanac.start
  = (Ok (mkresponse (PyStr "51.5", PyStr "-0.13") []), Almanac.start).
Proof.
  assert (Hdates :
            request_dates Almanac.libs (date_of_ymd 2024 1 1)
              (Almanac.london "2024-06-22" "2024-06-20" None)
            = Ok (date_of_ymd 2024 6 22, date_of_ymd 2024 6 20)).
  { vm_compute. reflexivity. }
  assert (Hs : date_valid (date_of_ymd 2024 6 22)).
  { unfold date_valid. vm_compute. split; discriminate. }
  assert (He : date_valid (date_of_ymd 2024 6 20)).
  { unfold date_valid. vm_compute. split; discriminate. }
  assert (Hlt : date_lt (date_of_ymd 2024 6 20) (date_of_ymd 2024 6 22)).
  { unfold date_lt. vm_compute. reflexivity. }
  repeat (split; [assumption|]).
  exact (proj2 (proj2 (proj2
           (sun_reversed_range
              Almanac.libs (date_of_ymd 2024 1 1) (fun _ => 0)
              (Almanac.london "2024-06-22" "2024-06-20" None)
              _ _ Almanac.start Hdates Hs He Hlt)))).
Defined.

(** London on 2024-06-20 with the output type 'dt': the four instants are
    the almanac's four answers. *)
Lemma list_times_instants_are_answers_witness :
  list_times Almanac.libs 0 (PyStr "51.5") (PyStr "-0.13")
    (date_of_ymd 2024 6 20) "dt" Almanac.start
  = (Ok [("civil_dawn",
          PyDatetime (mkdatetime (date_of_ymd 2024 6 20) 3 0 33 200000
                                 (Some timezone_utc)));
         ("sunrise",
          PyDatetime (mkdatetime (date_of_ymd 2024 6 20) 3 43 12 345678
                                 (Some timezone_utc)));
         ("sunset",
          PyDatetime (mkdatetime (date_of_ymd 2024 6 20) 20 21 45 500000
                                 (Some timezone_utc)));
         ("civil_dusk",
          PyDatetime (mkdatetime (date_of_ymd 2024 6 20) 21 5 1 0
                                 (Some timezone_utc)))],
     mkworld
       (site (PyStr "51.5") (PyStr "-0.13") (date_of_ymd 2024 6 20) "-6")
       (canonical_calls (PyStr "51.5") (PyStr "-0.13")
          (date_of_ymd 2024 6 20))) /\
  exists t1 t2 t3 t4,
    next_rising Almanac.libs
      (site (PyStr "51.5") (PyStr "-0.13") (date_of_ymd 2024 6 20) "-6")
    = Crossing t1 /\
    next_rising Almanac.libs
      (site (PyStr "51.5") (PyStr "-0.13") (date_of_ymd 2024 6 20) "-0:34")
    = Crossing t2 /\
    next_setting Almanac.libs
      (site (PyStr "51.5") (PyStr "-0.13") (date_of_ymd 2024 6 20) "-0:34")
    = Crossing t3 /\
    next_setting Almanac.libs
      (site (PyStr "51.5") (PyStr "-0.13") (date_of_ymd 2024 6 20) "-6")
    = Crossing t4 /\
    wall_clock t1 <= wall_clock t2 /\
    wall_clock t2 <= wall_clock t3 /\
    wall_clock t3 <= wall_clock t4.
Proof.
  assert (Hrun :
    list_times Almanac.libs 0 (PyStr "51.5") (PyStr "-0.13")
      (date_of_ymd 2024 6 20) "dt" Almanac.start
    = (Ok [("civil_dawn",
            PyDatetime (mkdatetime (date_of_ymd 2024 6 20) 3 0 33 200000
                                   (Some timezone_utc)));
           ("sunrise",
            PyDatetime (mkdatetime (date_of_ymd 2024 6 20) 3 43 12 345678
                                   (Some timezone_utc)));
           ("sunset",
            PyDatetime (mkdatetime (date_of_ymd 2024 6 20) 20 21 45 500000
                                   (Some timezone_utc)));
           ("civil_dusk",
            PyDatetime (mkdatetime (date_of_ymd 2024 6 20) 21 5 1 0
                                   (Some timezone_utc)))],
       mkworld
         (site (PyStr "51.5") (PyStr "-0.13") (date_of_ymd 2024 6 20) "-6")
         (canonical_calls (PyStr "51.5") (PyStr "-0.13")
            (date_of_ymd 2024 6 20)))).
  { vm_compute. reflexivity. }
  split; [exact Hrun|].
  destruct (list_times_instants_are_answers Almanac.libs _ _ _ _ _ _ _ _ _ _
              Hrun)
    as (t1 & t2 & t3 & t4 & H1 & H2 & H3 & H4 & _ & _ & _ & _ & _ & _ & Hiff).
  exists t1, t2, t3, t4.
  repeat (split; [assumption|]).
  apply Hiff. repeat split; vm_compute; discriminate.
Defined.

(** An observer in Sydney on 2024-06-20: no event is absent, and the
    sunset of the day (06:54 UTC) is before its sunrise (21:00 UTC). *)
Lemma list_times_sunset_before_sunrise :
  ~ events_in_order Almanac.libs.
Proof.
  intros H.
  assert (Hrun :
    list_times Almanac.libs 0 (PyStr "-33.87") (PyStr "151.21")
      (date_of_ymd 2024 6 20) "dt" Almanac.start
    = (Ok [("civil_dawn",
            PyDatetime (mkdatetime (date_of_ymd 2024 6 20) 20 33 0 0
                                   (Some timezone_utc)));
           ("sunrise",
            PyDatetime (mkdatetime (date_of_ymd 2024 6 20) 21 0 0 0
                                   (Some timezone_utc)));
           ("sunset",
            PyDatetime (mkdatetime (date_of_ymd 2024 6 20) 6 54 0 0
                                   (Some timezone_utc)));
           ("civil_dusk",
            PyDatetime (mkdatetime (date_of_ymd 2024 6 20) 7 21 0 0
                                   (Some timezone_utc)))],
       mkworld
         (site (PyStr "-33.87") (PyStr "151.21") (date_of_ymd 2024 6 20) "-6")
         (canonical_calls (PyStr "-33.87") (PyStr "151.21")
            (date_of_ymd 2024 6 20)))).
  { vm_compute. reflexivity. }
  assert (Hlat : latitude_in_range (PyStr "-33.87")).
  { eexists. split; [reflexivity|]. split; discriminate. }
  assert (Hlon : longitude_in_range (PyStr "151.21")).
  { eexists. split; [reflexivity|]. split; discriminate. }
  destruct (H _ _ _ _ _ _ _ _ _ _ Hlat Hlon Hrun) as (_ & Hbad & _).
  vm_compute in Hbad. apply Hbad. reflexivity.
Qed.

(** * Checks of the embedded library functions *)

Example epoch_ordinal : ymd2ord 1970 1 1 = EPOCH_ORDINAL.
Proof. reflexivity. Qed.

Example last_day_ordinal :
  ymd2ord 9999 12 31 = MAXORDINAL /\ ord2ymd MAXORDINAL = (9999, 12, 31).
Proof. split; reflexivity. Qed.

Example leap_days :
  ord2ymd (ymd2ord 2024 2 28 + 1) = (2024, 2, 29) /\
  ord2ymd (ymd2ord 2024 2 29 + 1) = (2024, 3, 1) /\
  ord2ymd (ymd2ord 1900 2 28 + 1) = (1900, 3, 1) /\
  ord2ymd (ymd2ord 2000 12 31) = (2000, 12, 31) /\
  ord2ymd 1 = (1, 1, 1).
Proof. repeat split; reflexivity. Qed.

Example j2000_instant :
  microseconds_since_epoch
    (mkdatetime (date_of_ymd 2000 1 1) 12 0 0 0 (Some timezone_utc))
  = J2000.
Proof. reflexivity. Qed.

(** [round(t.timestamp() * 1000)] as CPython computes it, instants half
    a millisecond between two integers included. *)
Example js_milliseconds :
  py_round
    (float_mul_int
       (timestamp (mkdatetime (date_of_ymd 2024 6 20) 3 43 12 345678
                              (Some timezone_utc))) 1000)
  = Ok 1718854992346 /\
  py_round
    (float_mul_int
       (timestamp (mkdatetime (date_of_ymd 2024 6 20) 3 43 12 500
                              (Some timezone_utc))) 1000)
  = Ok 1718854992000 /\
  py_round
    (float_mul_int
       (timestamp (mkdatetime (date_of_ymd 2024 6 20) 3 43 12 1500
                              (Some timezone_utc))) 1000)
  = Ok 1718854992002 /\
  py_round
    (float_mul_int
       (timestamp (mkdatetime (date_of_ymd 9999 6 20) 3 43 12 2500
                              (Some timezone_utc))) 1000)
  = Ok 253385466192002.
Proof. repeat split; vm_compute; reflexivity. Qed.

Example angle_texts :
  sexagesimal "51.5" = Some (515 # 10)%Q /\
  sexagesimal "-0.13" = Some (- (13 # 100))%Q /\
  sexagesimal "1:30" = Some (1 + 30 / 60)%Q /\
  sexagesimal "abc" = None.
Proof. repeat split; reflexivity. Qed.

(** London from 2024-06-20 to 2024-06-22: three days in order, four
    events each. *)
Example sun_london_three_days :
  exists resp w',
    Almanac.sun (date_of_ymd 2024 1 1) (fun _ => 0)
      (Almanac.london "2024-06-20" "2024-06-22" None) Almanac.start
    = (Ok resp, w') /\
    map entry_date (resp_days resp)
    = ["2024-06-20"; "2024-06-21"; "2024-06-22"] /\
    map (fun entry => keys (entry_events entry)) (resp_days resp)
    = [["civil_dawn"; "sunrise"; "sunset"; "civil_dusk"];
       ["civil_dawn"; "sunrise"; "sunset"; "civil_dusk"];
       ["civil_dawn"; "sunrise"; "sunset"; "civil_dusk"]] /\
    List.length (solver_trace w') = 12%nat.
Proof.
  eexists. eexists. split; [vm_compute; reflexivity|].
  repeat split.
Qed.

(** At latitude 70 the almanac has no crossing: every event of the day is
    [None], whatever the output type, and the request succeeds. *)
Example sun_midnight_sun :
  fst (Almanac.sun (date_of_ymd 2024 6 21) (fun _ => 0)
         (mkargs (Some "70") (Some "20") None None (Some "xml"))
         Almanac.start)
  = Ok (mkresponse (PyStr "70", PyStr "20")
          [mkday_entry "2024-06-21"
             [("civil_dawn", PyNone); ("sunrise", PyNone);
              ("sunset", PyNone); ("civil_dusk", PyNone)]]).
Proof. vm_compute. reflexivity. Qed.

(** * Further properties

    What the code does beyond the statements above: the ways
    [calculate_sunrise], [list_times] and [sun] return and fail, the days
    of a request, the calendar behind the date texts, and [parse_date]. *)

Lemma NoDup_map_injective {A B} (f : A -> B) (l : list A) :
  (forall x y, f x = f y -> x = y) -> NoDup l -> NoDup (map f l).
Proof.
  intros Hinj Hnd. induction Hnd as [|x l Hx _ IH]; simpl; constructor.
  - rewrite in_map_iff. intros [y [Hy Hin]].
    apply Hinj in Hy. subst y. contradiction.
  - exact IH.
Qed.

(** ** The calendar *)

Lemma forallb_range (P : Z -> bool) (N : Z) :
  forallb P (range N) = true -> forall n, 0 <= n < N -> P n = true.
Proof.
  intros H n Hn. rewrite forallb_forall in H. apply H. apply range_In. exact Hn.
Qed.

Lemma ord2ymd_month_day n :
  ord2ymd n
  = (let n0 := n - 1 in
     let n400 := n0 / DI400Y in
     let n1 := n0 mod DI400Y in
     let n100 := n1 / DI100Y in
     let n2 := n1 mod DI100Y in
     let n4 := n2 / DI4Y in
     let n3 := n2 mod DI4Y in
     let n5 := n3 / 365 in
     let n6 := n3 mod 365 in
     let year := n400 * 400 + 1 + n100 * 100 + n4 * 4 + n5 in
     if (n5 =? 4) || (n100 =? 4) then (year - 1, 12, 31)
     else
       let '(m, d) :=
         month_day ((n5 =? 3) && (negb (n4 =? 24) || (n100 =? 3))) n6 in
       (year, m, d)).
Proof.
  unfold ord2ymd, month_day. cbv zeta.
  destruct (orb _ _); [reflexivity|].
  destruct (Z.ltb _ _); reflexivity.
Qed.

Lemma month_day_spec (leap : bool) (n : Z) :
  0 <= n < 365 + (if leap then 1 else 0) ->
  month_day_ok leap n = true.
Proof.
  intros Hn.
  assert (H : forallb (fun k => month_day_ok true k) (range 366) = true
              /\ forallb (fun k => month_day_ok false k) (range 365) = true)
    by (split; vm_compute; reflexivity).
  destruct H as [Ht Hf].
  destruct leap.
  - apply (forallb_range _ _ Ht). lia.
  - apply (forallb_range _ _ Hf). lia.
Qed.

Lemma is_leap_cycles a b c e :
  0 <= a -> 0 <= b <= 3 -> 0 <= c <= 24 -> 0 <= e <= 3 ->
  is_leap (a * 400 + 1 + b * 100 + c * 4 + e)
  = (e =? 3) && (negb (c =? 24) || (b =? 3)).
Proof.
  intros Ha Hb Hc He. unfold is_leap.
  set (y := a * 400 + 1 + b * 100 + c * 4 + e).
  assert (H4 : y mod 4 = (e + 1) mod 4).
  { unfold y. replace (a * 400 + 1 + b * 100 + c * 4 + e)
      with (e + 1 + (a * 100 + b * 25 + c) * 4) by ring.
    apply Z.mod_add. lia. }
  assert (H100 : y mod 100 = (c * 4 + e + 1) mod 100).
  { unfold y. replace (a * 400 + 1 + b * 100 + c * 4 + e)
      with (c * 4 + e + 1 + (a * 4 + b) * 100) by ring.
    apply Z.mod_add. lia. }
  assert (H400 : y mod 400 = (b * 100 + c * 4 + e + 1) mod 400).
  { unfold y. replace (a * 400 + 1 + b * 100 + c * 4 + e)
      with (b * 100 + c * 4 + e + 1 + a * 400) by ring.
    apply Z.mod_add. lia. }
  rewrite H4, H100, H400.
  destruct (Z.eqb_spec e 3) as [->|He3].
  - cbn [andb]. change ((3 + 1) mod 4 =? 0) with true. cbn [andb].
    destruct (Z.eqb_spec c 24) as [->|Hc24].
    + change ((24 * 4 + 3 + 1) mod 100 =? 0) with true. cbn [negb orb].
      destruct (Z.eqb_spec b 3) as [->|Hb3]; [reflexivity|].
      assert (Hlt : 0 <= b * 100 + 24 * 4 + 3 + 1 < 400) by lia.
      rewrite (Z.mod_small _ _ Hlt).
      destruct (Z.eqb_spec (b * 100 + 24 * 4 + 3 + 1) 0); [lia|reflexivity].
    + assert (Hlt : 0 <= c * 4 + 3 + 1 < 100) by lia.
      rewrite (Z.mod_small _ _ Hlt).
      destruct (Z.eqb_spec (c * 4 + 3 + 1) 0); [lia|]. reflexivity.
  - assert (Hlt : 0 <= e + 1 < 4) by lia.
    rewrite (Z.mod_small _ _ Hlt).
    destruct (Z.eqb_spec (e + 1) 0); [lia|]. reflexivity.
Qed.

Lemma days_before_year_cycles a b c e :
  0 <= a -> 0 <= b <= 3 -> 0 <= c <= 24 -> 0 <= e <= 3 ->
  days_before_year (a * 400 + 1 + b * 100 + c * 4 + e)
  = a * DI400Y + b * DI100Y + c * DI4Y + e * 365.
Proof.
  intros Ha Hb Hc He. unfold days_before_year, DI400Y, DI100Y, DI4Y.
  cbv zeta.
  replace (a * 400 + 1 + b * 100 + c * 4 + e - 1)
    with (a * 400 + b * 100 + c * 4 + e) by ring.
  assert (H4 : (a * 400 + b * 100 + c * 4 + e) / 4 = a * 100 + b * 25 + c).
  { symmetry. apply (Z.div_unique _ 4 _ e); lia. }
  assert (H100 : (a * 400 + b * 100 + c * 4 + e) / 100 = a * 4 + b).
  { symmetry. apply (Z.div_unique _ 100 _ (c * 4 + e)); lia. }
  assert (H400 : (a * 400 + b * 100 + c * 4 + e) / 400 = a).
  { symmetry. apply (Z.div_unique _ 400 _ (b * 100 + c * 4 + e)); lia. }
  rewrite H4, H100, H400. ring.
Qed.

(** Year, month and day of an ordinal of the calendar name a day, and
    that day has the ordinal. *)
Lemma ord2ymd_ymd2ord n :
  1 <= n <= MAXORDINAL ->
  let '(y, m, d) := ord2ymd n in
  check_date_fields y m d = true /\ ymd2ord y m d = n.
Proof.
  unfold MAXORDINAL. intros Hn. rewrite ord2ymd_month_day. cbv zeta.
  unfold DI400Y, DI100Y, DI4Y.
  set (n0 := n - 1).
  pose proof (Z.div_mod n0 146097 ltac:(lia)) as E400.
  pose proof (Z.mod_pos_bound n0 146097 ltac:(lia)) as B400.
  set (a := n0 / 146097) in *. set (n1 := n0 mod 146097) in *.
  pose proof (Z.div_mod n1 36524 ltac:(lia)) as E100.
  pose proof (Z.mod_pos_bound n1 36524 ltac:(lia)) as B100.
  set (b := n1 / 36524) in *. set (n2 := n1 mod 36524) in *.
  pose proof (Z.div_mod n2 1461 ltac:(lia)) as E4.
  pose proof (Z.mod_pos_bound n2 1461 ltac:(lia)) as B4.
  set (c := n2 / 1461) in *. set (n3 := n2 mod 1461) in *.
  pose proof (Z.div_mod n3 365 ltac:(lia)) as E1.
  pose proof (Z.mod_pos_bound n3 365 ltac:(lia)) as B1.
  set (e := n3 / 365) in *. set (n6 := n3 mod 365) in *.
  assert (Ha : 0 <= a <= 24) by (unfold n0 in *; lia).
  assert (Hb : 0 <= b <= 4) by lia.
  assert (Hc : 0 <= c <= 24) by lia.
  assert (He : 0 <= e <= 4) by lia.
  destruct (Z.eqb_spec e 4) as [He4|He4]; cbn [orb].
  - (* the last day of a leap year that ends a four-year cycle *)
    assert (Hb3 : b <= 3) by lia.
    assert (Hn6 : n6 = 0) by lia.
    replace (a * 400 + 1 + b * 100 + c * 4 + e - 1)
      with (a * 400 + 1 + b * 100 + c * 4 + 3) by lia.
    assert (Hleap : is_leap (a * 400 + 1 + b * 100 + c * 4 + 3) = true).
    { rewrite is_leap_cycles by lia. cbn [Z.eqb Pos.eqb andb].
      destruct (Z.eqb_spec c 24) as [Hc24|Hc24]; [|reflexivity].
      destruct (Z.eqb_spec b 3) as [Hb'|Hb']; [reflexivity|]. lia. }
    split.
    + unfold check_date_fields, days_in_month. rewrite Hleap.
      change (table DAYS_IN_MONTH 12) with 31.
      change ((12 =? 2) && true) with false. cbv iota.
      repeat (apply andb_true_intro; split); apply Z.leb_le; lia.
    + unfold ymd2ord, days_before_month. rewrite Hleap.
      rewrite days_before_year_cycles by lia.
      change (table DAYS_BEFORE_MONTH 12) with 334.
      change ((2 <? 12) && true) with true. cbv iota.
      unfold DI400Y, DI100Y, DI4Y. unfold n0 in *. lia.
  - destruct (Z.eqb_spec b 4) as [Hb4|Hb4]; cbn [orb].
    + (* the last day of a year that ends a 400-year cycle *)
      assert (Hn2 : n2 = 0) by lia.
      assert (Hc0 : c = 0) by lia.
      assert (Hn3 : n3 = 0) by lia.
      assert (He0 : e = 0) by lia.
      replace (a * 400 + 1 + b * 100 + c * 4 + e - 1)
        with (a * 400 + 1 + 3 * 100 + 24 * 4 + 3) by lia.
      assert (Hleap : is_leap (a * 400 + 1 + 3 * 100 + 24 * 4 + 3) = true).
      { rewrite is_leap_cycles by lia. reflexivity. }
      split.
      * unfold check_date_fields, days_in_month. rewrite Hleap.
        change (table DAYS_IN_MONTH 12) with 31.
        change ((12 =? 2) && true) with false. cbv iota.
        repeat (apply andb_true_intro; split); apply Z.leb_le; lia.
      * unfold ymd2ord, days_before_month. rewrite Hleap.
        rewrite days_before_year_cycles by lia.
        change (table DAYS_BEFORE_MONTH 12) with 334.
        change ((2 <? 12) && true) with true. cbv iota.
        unfold DI400Y, DI100Y, DI4Y. unfold n0 in *. lia.
    + assert (Hb3 : b <= 3) by lia.
      assert (He3 : e <= 3) by lia.
      pose proof (is_leap_cycles a b c e ltac:(lia) ltac:(lia) ltac:(lia)
                    ltac:(lia)) as Hleap.
      pose proof (days_before_year_cycles a b c e ltac:(lia) ltac:(lia)
                    ltac:(lia) ltac:(lia)) as Hyear.
      set (leap := (e =? 3) && (negb (c =? 24) || (b =? 3))) in *.
      pose proof (month_day_spec leap n6 ltac:(destruct leap; lia)) as Hmd.
      unfold month_day_ok in Hmd.
      destruct (month_day leap n6) as [m d].
      rewrite !andb_true_iff in Hmd.
      destruct Hmd as [[[[Hm1 Hm2] Hd1] Hd2] Hsum].
      apply Z.eqb_eq in Hsum.
      split.
      * unfold check_date_fields, days_in_month. rewrite Hleap, Hm1, Hm2, Hd1, Hd2.
        rewrite !andb_true_r.
        apply andb_true_intro; split; apply Z.leb_le; lia.
      * unfold ymd2ord, days_before_month. rewrite Hleap, Hyear.
        unfold DI400Y, DI100Y, DI4Y. unfold n0 in *. lia.
Qed.

Lemma days_before_year_succ y :
  days_before_year (y + 1)
  = days_before_year y + 365 + (if is_leap y then 1 else 0).
Proof.
  unfold days_before_year, is_leap. cbv zeta.
  replace (y + 1 - 1) with y by ring.
  pose proof (Z.div_mod y 4 ltac:(lia)) as E4.
  pose proof (Z.mod_pos_bound y 4 ltac:(lia)) as B4.
  pose proof (Z.div_mod y 100 ltac:(lia)) as E100.
  pose proof (Z.mod_pos_bound y 100 ltac:(lia)) as B100.
  pose proof (Z.div_mod y 400 ltac:(lia)) as E400.
  pose proof (Z.mod_pos_bound y 400 ltac:(lia)) as B400.
  pose proof (Z.div_mod (y - 1) 4 ltac:(lia)) as F4.
  pose proof (Z.mod_pos_bound (y - 1) 4 ltac:(lia)) as C4.
  pose proof (Z.div_mod (y - 1) 100 ltac:(lia)) as F100.
  pose proof (Z.mod_pos_bound (y - 1) 100 ltac:(lia)) as C100.
  pose proof (Z.div_mod (y - 1) 400 ltac:(lia)) as F400.
  pose proof (Z.mod_pos_bound (y - 1) 400 ltac:(lia)) as C400.
  destruct (Z.eqb_spec (y mod 4) 0) as [H4|H4];
  destruct (Z.eqb_spec (y mod 100) 0) as [H100|H100];
  destruct (Z.eqb_spec (y mod 400) 0) as [H400|H400];
  cbn [andb orb negb]; lia.
Qed.

Lemma days_before_year_le a b :
  a <= b -> days_before_year a <= days_before_year b.
Proof.
  intros Hab. unfold days_before_year. cbv zeta.
  pose proof (Z.div_mod (a - 1) 4 ltac:(lia)) as E4.
  pose proof (Z.mod_pos_bound (a - 1) 4 ltac:(lia)) as B4.
  pose proof (Z.div_mod (a - 1) 100 ltac:(lia)) as E100.
  pose proof (Z.mod_pos_bound (a - 1) 100 ltac:(lia)) as B100.
  pose proof (Z.div_mod (a - 1) 400 ltac:(lia)) as E400.
  pose proof (Z.mod_pos_bound (a - 1) 400 ltac:(lia)) as B400.
  pose proof (Z.div_mod (b - 1) 4 ltac:(lia)) as F4.
  pose proof (Z.mod_pos_bound (b - 1) 4 ltac:(lia)) as C4.
  pose proof (Z.div_mod (b - 1) 100 ltac:(lia)) as F100.
  pose proof (Z.mod_pos_bound (b - 1) 100 ltac:(lia)) as C100.
  pose proof (Z.div_mod (b - 1) 400 ltac:(lia)) as F400.
  pose proof (Z.mod_pos_bound (b - 1) 400 ltac:(lia)) as C400.
  lia.
Qed.

Lemma day_of_year_spec (leap : bool) (m : Z) :
  1 <= m <= 12 -> day_of_year_ok leap m = true.
Proof.
  intros Hm.
  assert (H : forallb (fun k => day_of_year_ok leap (k + 1)) (range 12) = true)
    by (destruct leap; vm_compute; reflexivity).
  replace m with (m - 1 + 1) by ring.
  apply (forallb_range _ _ H). lia.
Qed.

Lemma days_before_month_le (leap : bool) (m m' : Z) :
  1 <= m -> m < m' -> m' <= 12 ->
  table DAYS_BEFORE_MONTH m + (if (2 <? m) && leap then 1 else 0)
  + (if (m =? 2) && leap then 29 else table DAYS_IN_MONTH m)
  <= table DAYS_BEFORE_MONTH m' + (if (2 <? m') && leap then 1 else 0).
Proof.
  intros H1 Hlt H12.
  assert (H : forallb
                (fun i =>
                   forallb
                     (fun j =>
                        negb (i + 1 <? j + 1)
                        || (table DAYS_BEFORE_MONTH (i + 1)
                            + (if (2 <? i + 1) && leap then 1 else 0)
                            + (if (i + 1 =? 2) && leap then 29
                               else table DAYS_IN_MONTH (i + 1))
                            <=? table DAYS_BEFORE_MONTH (j + 1)
                                + (if (2 <? j + 1) && leap then 1 else 0)))
                     (range 12))
                (range 12) = true)
    by (destruct leap; vm_compute; reflexivity).
  pose proof (forallb_range _ _ H (m - 1) ltac:(lia)) as Hm.
  cbv beta in Hm.
  pose proof (forallb_range _ _ Hm (m' - 1) ltac:(lia)) as Hmm.
  cbv beta in Hmm.
  replace (m - 1 + 1) with m in Hmm by ring.
  replace (m' - 1 + 1) with m' in Hmm by ring.
  destruct (Z.ltb_spec m m'); [|lia].
  cbn [negb orb] in Hmm. apply Z.leb_le in Hmm. exact Hmm.
Qed.

Lemma check_date_fields_spec y m d :
  check_date_fields y m d = true <->
  1 <= y <= 9999 /\ 1 <= m <= 12 /\ 1 <= d <= days_in_month y m.
Proof.
  unfold check_date_fields. rewrite !andb_true_iff, !Z.leb_le. tauto.
Qed.

(** The ordinal of valid fields lies in the year of the fields. *)
Lemma ymd2ord_in_year y m d :
  check_date_fields y m d = true ->
  days_before_year y < ymd2ord y m d <= days_before_year (y + 1).
Proof.
  intros H. apply check_date_fields_spec in H. destruct H as [Hy [Hm Hd]].
  rewrite days_before_year_succ.
  unfold ymd2ord, days_before_month. unfold days_in_month in Hd.
  pose proof (day_of_year_spec (is_leap y) m Hm) as Hok.
  unfold day_of_year_ok in Hok. cbv zeta in Hok.
  rewrite !andb_true_iff, !Z.leb_le in Hok.
  destruct Hok as [[H0 H1] H365]. lia.
Qed.

Lemma ymd2ord_valid y m d :
  check_date_fields y m d = true -> 1 <= ymd2ord y m d <= MAXORDINAL.
Proof.
  intros H. pose proof (ymd2ord_in_year _ _ _ H) as Hin.
  apply check_date_fields_spec in H. destruct H as [Hy _].
  pose proof (days_before_year_le 1 y ltac:(lia)) as Hlo.
  pose proof (days_before_year_le (y + 1) 10000 ltac:(lia)) as Hhi.
  change (days_before_year 1) with 0 in Hlo.
  change (days_before_year 10000) with MAXORDINAL in Hhi.
  lia.
Qed.

Lemma ymd2ord_injective y m d y' m' d' :
  check_date_fields y m d = true -> check_date_fields y' m' d' = true ->
  ymd2ord y m d = ymd2ord y' m' d' ->
  y = y' /\ m = m' /\ d = d'.
Proof.
  intros H H' Heq.
  pose proof (ymd2ord_in_year _ _ _ H) as Hin.
  pose proof (ymd2ord_in_year _ _ _ H') as Hin'.
  assert (Hy : y = y').
  { destruct (Z.lt_trichotomy y y') as [Hlt|[Hyy|Hgt]]; [|exact Hyy|].
    - pose proof (days_before_year_le (y + 1) y' ltac:(lia)). lia.
    - pose proof (days_before_year_le (y' + 1) y ltac:(lia)). lia. }
  subst y'. split; [reflexivity|].
  apply check_date_fields_spec in H, H'.
  destruct H as [_ [Hm Hd]], H' as [_ [Hm' Hd']].
  unfold ymd2ord, days_before_month in Heq. unfold days_in_month in Hd, Hd'.
  assert (Hmm : m = m').
  { destruct (Z.lt_trichotomy m m') as [Hlt|[Hmm|Hgt]]; [|exact Hmm|].
    - pose proof (days_before_month_le (is_leap y) m m' ltac:(lia) Hlt
                    ltac:(lia)). lia.
    - pose proof (days_before_month_le (is_leap y) m' m ltac:(lia) Hgt
                    ltac:(lia)). lia. }
  subst m'. split; [reflexivity|]. lia.
Qed.

(** The fields of the date that [date(year, month, day)] makes are the
    fields given. *)
Lemma ymd2ord_ord2ymd y m d :
  check_date_fields y m d = true -> ord2ymd (ymd2ord y m d) = (y, m, d).
Proof.
  intros H.
  pose proof (ord2ymd_ymd2ord _ (ymd2ord_valid _ _ _ H)) as Hback.
  destruct (ord2ymd (ymd2ord y m d)) as [[y' m'] d'].
  destruct Hback as [H' Heq].
  destruct (ymd2ord_injective _ _ _ _ _ _ H' H Heq) as [-> [-> ->]].
  reflexivity.
Qed.

(** ** Text of numbers *)

Lemma string_length_app (a b : string) :
  String.length (a ++ b) = (String.length a + String.length b)%nat.
Proof. induction a as [|c a IH]; simpl; [reflexivity|]. rewrite IH. reflexivity. Qed.

Lemma zero_padded_length w n : String.length (zero_padded w n) = w.
Proof.
  revert n. induction w as [|w IH]; intros n; [reflexivity|].
  cbn [zero_padded]. rewrite string_length_app, IH. simpl. lia.
Qed.

Lemma string_app_inj (a a' b b' : string) :
  String.length a = String.length a' ->
  (a ++ b = a' ++ b')%string -> a = a' /\ b = b'.
Proof.
  revert a'. induction a as [|c a IH]; intros [|c' a'] Hlen H;
    try discriminate.
  - split; [reflexivity|exact H].
  - simpl in Hlen, H. inversion H; subst.
    destruct (IH a' ltac:(lia) H2) as [-> ->]. split; reflexivity.
Qed.

Lemma digit_value_digit n : digit_value (digit n) = Some (n mod 10).
Proof.
  unfold digit_value, digit.
  pose proof (Z.mod_pos_bound n 10 ltac:(lia)) as Hb.
  rewrite nat_ascii_embedding by lia.
  replace (Z.of_nat (48 + Z.to_nat (n mod 10))) with (48 + n mod 10) by lia.
  destruct (Z.leb_spec 48 (48 + n mod 10)); [|lia].
  destruct (Z.leb_spec (48 + n mod 10) 57); [|lia].
  cbn [andb]. f_equal. lia.
Qed.

Lemma digits_value_app s1 s2 acc :
  digits_value (s1 ++ s2) acc
  = match digits_value s1 acc with
    | Some v => digits_value s2 v
    | None => None
    end.
Proof.
  revert acc. induction s1 as [|c s1 IH]; intros acc; [reflexivity|].
  simpl. destruct (digit_value c); [apply IH|reflexivity].
Qed.

Lemma digits_value_zero_padded w n acc :
  digits_value (zero_padded w n) acc
  = Some (acc * 10 ^ Z.of_nat w + n mod 10 ^ Z.of_nat w).
Proof.
  revert n acc. induction w as [|w IH]; intros n acc.
  - cbn [zero_padded digits_value]. change (10 ^ Z.of_nat 0) with 1.
    rewrite Z.mod_1_r. f_equal. lia.
  - cbn [zero_padded]. rewrite digits_value_app, IH.
    cbn [digits_value]. rewrite digit_value_digit. f_equal.
    rewrite Nat2Z.inj_succ, Z.pow_succ_r by lia.
    assert (Hp : 0 < 10 ^ Z.of_nat w) by (apply Z.pow_pos_nonneg; lia).
    rewrite (Z.rem_mul_r n 10 (10 ^ Z.of_nat w)) by lia.
    ring.
Qed.

Lemma zero_padded_nonempty w n : (0 < w)%nat -> zero_padded w n <> "".
Proof.
  intros Hw H. apply (f_equal String.length) in H.
  rewrite zero_padded_length in H. simpl in H. lia.
Qed.

(** The text of a number in [width] digits reads as that number. *)
Lemma natural_zero_padded w n :
  (0 < w)%nat -> 0 <= n < 10 ^ Z.of_nat w ->
  natural (zero_padded w n) = Some n.
Proof.
  intros Hw Hn. unfold natural.
  pose proof (zero_padded_nonempty w n Hw) as Hne.
  pose proof (digits_value_zero_padded w n 0) as Hv.
  rewrite Z.mod_small in Hv by exact Hn.
  destruct (zero_padded w n); [contradiction|]. exact Hv.
Qed.

Lemma zero_padded_injective w a b :
  0 <= a < 10 ^ Z.of_nat w -> 0 <= b < 10 ^ Z.of_nat w ->
  zero_padded w a = zero_padded w b -> a = b.
Proof.
  intros Ha Hb H.
  pose proof (digits_value_zero_padded w a 0) as Hva.
  pose proof (digits_value_zero_padded w b 0) as Hvb.
  rewrite H in Hva. rewrite Hva in Hvb.
  rewrite !Z.mod_small in Hvb by assumption.
  inversion Hvb. lia.
Qed.

(** ** [int] *)

Lemma scan_digits_digits s : forall prev acc v,
  digits_value s acc = Some v ->
  s <> "" \/ prev <> "_"%char ->
  scan_digits s prev acc = Some (v, "").
Proof.
  induction s as [|c s IH]; intros prev acc v Hv Hne.
  - cbn in Hv |- *. destruct Hne as [Hne|Hne]; [contradiction|].
    destruct (Ascii.eqb_spec prev "_"); [contradiction|]. congruence.
  - cbn [digits_value scan_digits] in *.
    destruct (digit_value c) as [d|] eqn:Hd; [|discriminate].
    apply IH; [exact Hv|].
    right. intros ->. vm_compute in Hd. discriminate.
Qed.

Lemma digit_not_space c d : digit_value c = Some d -> is_space c = false.
Proof.
  unfold digit_value, is_space. cbv zeta.
  set (n := Z.of_nat (nat_of_ascii c)).
  destruct (Z.leb_spec 48 n); [|discriminate].
  destruct (Z.leb_spec n 57); [|discriminate].
  intros _.
  destruct (Z.leb_spec 9 n); destruct (Z.leb_spec n 13);
  destruct (Z.eqb_spec n 32); destruct (Z.eqb_spec n 133);
  destruct (Z.eqb_spec n 160); cbn; try reflexivity; lia.
Qed.

Lemma digit_not_sign c d :
  digit_value c = Some d -> c <> "+"%char /\ c <> "-"%char.
Proof.
  intros Hd. split; intros ->; vm_compute in Hd; discriminate.
Qed.

(** [int] reads a text of digits as the number they write. *)
Lemma py_int_natural s v : natural s = Some v -> py_int s = Ok v.
Proof.
  unfold natural, py_int. destruct s as [|c s]; [discriminate|].
  intros Hv.
  assert (Hc : exists d, digit_value c = Some d).
  { cbn [digits_value] in Hv. destruct (digit_value c) as [d|];
      [exists d; reflexivity|discriminate]. }
  destruct Hc as [d Hd].
  cbn [lstrip]. rewrite (digit_not_space _ _ Hd).
  destruct (digit_not_sign _ _ Hd) as [Hplus Hminus].
  assert (Hsigned : signed (String c s) = (false, String c s)).
  { unfold signed.
    destruct c as [[] [] [] [] [] [] [] []]; try reflexivity;
      exfalso; first [now apply Hminus | now apply Hplus]. }
  rewrite Hsigned, Hd.
  rewrite (scan_digits_digits _ zero 0 v Hv) by (left; discriminate).
  reflexivity.
Qed.

Lemma py_int_zero_padded w n :
  (0 < w)%nat -> 0 <= n < 10 ^ Z.of_nat w ->
  py_int (zero_padded w n) = Ok n.
Proof.
  intros Hw Hn. apply py_int_natural, natural_zero_padded; assumption.
Qed.

(** ** ISO text of dates and instants *)

Lemma date_isoformat_fields y m d :
  check_date_fields y m d = true ->
  date_isoformat (date_of_ymd y m d)
  = zero_padded 4 y ++ "-" ++ zero_padded 2 m ++ "-" ++ zero_padded 2 d.
Proof.
  intros H. unfold date_isoformat, date_of_ymd. cbn [toordinal].
  rewrite (ymd2ord_ord2ymd _ _ _ H). reflexivity.
Qed.

Lemma date_isoformat_length d : String.length (date_isoformat d) = 10%nat.
Proof.
  unfold date_isoformat. destruct (ord2ymd (toordinal d)) as [[y m] dd].
  rewrite !string_length_app, !zero_padded_length. reflexivity.
Qed.

Lemma days_in_month_le y m : 1 <= m <= 12 -> days_in_month y m <= 31.
Proof.
  intros Hm. unfold days_in_month.
  assert (H : forallb (fun k => table DAYS_IN_MONTH (k + 1) <=? 31) (range 12)
              = true) by (vm_compute; reflexivity).
  pose proof (forallb_range _ _ H (m - 1) ltac:(lia)) as Hk.
  cbv beta in Hk. replace (m - 1 + 1) with m in Hk by ring.
  apply Z.leb_le in Hk.
  destruct ((m =? 2) && is_leap y); lia.
Qed.

(** The ISO text of a date of the calendar names no other date. *)
Lemma date_isoformat_injective a b :
  date_valid a -> date_valid b ->
  date_isoformat a = date_isoformat b -> a = b.
Proof.
  unfold date_valid, date_isoformat. intros Ha Hb H.
  pose proof (ord2ymd_ymd2ord _ Ha) as Hya.
  pose proof (ord2ymd_ymd2ord _ Hb) as Hyb.
  destruct (ord2ymd (toordinal a)) as [[y m] d].
  destruct (ord2ymd (toordinal b)) as [[y' m'] d'].
  destruct Hya as [Hca Hna], Hyb as [Hcb Hnb].
  apply check_date_fields_spec in Hca, Hcb.
  destruct Hca as [Hy [Hm Hd]], Hcb as [Hy' [Hm' Hd']].
  pose proof (days_in_month_le y m Hm).
  pose proof (days_in_month_le y' m' Hm').
  apply string_app_inj in H; [|rewrite !zero_padded_length; reflexivity].
  destruct H as [Hyy H].
  apply (string_app_inj "-" "-") in H; [|reflexivity].
  destruct H as [_ H].
  apply string_app_inj in H; [|rewrite !zero_padded_length; reflexivity].
  destruct H as [Hmm H].
  apply (string_app_inj "-" "-") in H; [|reflexivity].
  destruct H as [_ Hdd].
  apply zero_padded_injective in Hyy; [|simpl; lia|simpl; lia].
  apply zero_padded_injective in Hmm; [|simpl; lia|simpl; lia].
  apply zero_padded_injective in Hdd; [|simpl; lia|simpl; lia].
  subst y' m' d'. destruct a as [na], b as [nb]. cbn [toordinal] in *.
  congruence.
Qed.

(** ** [parse_date] *)

Lemma substring_app_front (a b : string) n :
  String.length a = n -> substring 0 n (a ++ b) = a.
Proof.
  revert n. induction a as [|c a IH]; intros n Hn; simpl in Hn; subst n.
  - destruct b; reflexivity.
  - cbn [append String.length substring]. rewrite IH; reflexivity.
Qed.

Lemma substring_app_skip (a b : string) k n :
  substring (String.length a + k) n (a ++ b) = substring k n b.
Proof.
  induction a as [|c a IH]; [reflexivity|].
  cbn [append String.length Nat.add substring]. exact IH.
Qed.

Lemma substring_length_le s : forall a n,
  (String.length (substring a n s) <= n)%nat.
Proof.
  induction s as [|c s IH]; intros a n.
  - destruct a, n; simpl; lia.
  - destruct a as [|a]; [destruct n as [|n]|]; cbn [substring String.length].
    + lia.
    + specialize (IH 0%nat n). lia.
    + apply IH.
Qed.

Lemma substring_length_short s : forall a n,
  (String.length s <= a)%nat -> substring a n s = "".
Proof.
  induction s as [|c s IH]; intros a n Hlen.
  - destruct a, n; reflexivity.
  - destruct a as [|a]; cbn [String.length] in Hlen; [lia|].
    cbn [substring]. apply IH. lia.
Qed.

Lemma lstrip_length s : (String.length (lstrip s) <= String.length s)%nat.
Proof.
  induction s as [|c s IH]; [apply Nat.le_refl|].
  cbn [lstrip]. destruct (is_space c); cbn [String.length]; lia.
Qed.

Lemma signed_length s :
  (String.length (snd (signed s)) <= String.length s)%nat.
Proof.
  unfold signed. destruct s as [|c s]; [apply Nat.le_refl|].
  destruct c as [[] [] [] [] [] [] [] []]; cbn [snd String.length]; lia.
Qed.

Lemma digit_value_range c d : digit_value c = Some d -> 0 <= d <= 9.
Proof.
  unfold digit_value. cbv zeta.
  destruct (Z.leb_spec 48 (Z.of_nat (nat_of_ascii c))) as [Hlo|Hlo];
    [|discriminate].
  destruct (Z.leb_spec (Z.of_nat (nat_of_ascii c)) 57) as [Hhi|Hhi];
    [|discriminate].
  cbn [andb]. intros Heq. inversion Heq. lia.
Qed.

Lemma scan_digits_bound s : forall prev acc v rest,
  0 <= acc ->
  scan_digits s prev acc = Some (v, rest) ->
  0 <= v < (acc + 1) * 10 ^ Z.of_nat (String.length s).
Proof.
  induction s as [|c s IH]; intros prev acc v rest Hacc H.
  - cbn in H. destruct (Ascii.eqb prev "_"); [discriminate|].
    inversion H; subst. cbn. lia.
  - cbn [scan_digits] in H. cbn [String.length].
    rewrite Nat2Z.inj_succ, Z.pow_succ_r by lia.
    assert (Hp : 0 < 10 ^ Z.of_nat (String.length s))
      by (apply Z.pow_pos_nonneg; lia).
    destruct (digit_value c) as [d|] eqn:Hd.
    + apply digit_value_range in Hd.
      apply IH in H; [|lia]. nia.
    + destruct (Ascii.eqb c "_").
      * destruct (Ascii.eqb prev "_"); [discriminate|].
        apply IH in H; [|lia]. nia.
      * destruct (Ascii.eqb prev "_"); [discriminate|].
        inversion H; subst. nia.
Qed.

(** A text of [n] characters at most reads as a number of [n] digits at
    most. *)
Lemma py_int_bound s z :
  py_int s = Ok z -> Z.abs z < 10 ^ Z.of_nat (String.length s).
Proof.
  unfold py_int.
  pose proof (lstrip_length s) as Hstrip.
  pose proof (signed_length (lstrip s)) as Hsigned.
  destruct (signed (lstrip s)) as [negative body]. cbn [snd] in Hsigned.
  destruct body as [|c body']; [discriminate|].
  destruct (digit_value c); [|discriminate].
  destruct (scan_digits (String c body') zero 0) as [[n rest]|] eqn:Hscan;
    [|discriminate].
  apply scan_digits_bound in Hscan; [|lia].
  destruct (lstrip rest); [|discriminate].
  intros H.
  assert (Hz : Z.abs z = n) by (inversion H; destruct negative; lia).
  rewrite Hz.
  assert (Hmono : 10 ^ Z.of_nat (String.length (String c body'))
                  <= 10 ^ Z.of_nat (String.length s))
    by (apply Z.pow_le_mono_r; lia).
  lia.
Qed.

Lemma py_int_slice_fits s a b z :
  (b - a <= 9)%nat -> py_int (slice s a b) = Ok z -> fits_int z = true.
Proof.
  intros Hab H. apply py_int_bound in H.
  pose proof (substring_length_le s a (b - a)) as Hlen.
  fold (slice s a b) in Hlen.
  assert (Hmono : 10 ^ Z.of_nat (String.length (slice s a b)) <= 10 ^ 9)
    by (apply Z.pow_le_mono_r; lia).
  unfold fits_int. apply andb_true_intro. split; apply Z.leb_le; lia.
Qed.

Lemma py_int_empty : py_int "" = Raise ValueError.
Proof. reflexivity. Qed.

Lemma py_int_raises s e : py_int s = Raise e -> e = ValueError.
Proof.
  unfold py_int. destruct (signed (lstrip s)) as [negative body].
  destruct body as [|c body']; [congruence|].
  destruct (digit_value c); [|congruence].
  destruct (scan_digits _ _ _) as [[n rest]|]; [|congruence].
  destruct (lstrip rest); congruence.
Qed.

Lemma slices_of_fields (a b c rest : string) :
  String.length a = 4%nat -> String.length b = 2%nat ->
  String.length c = 2%nat ->
  slice (a ++ b ++ c ++ rest) 0 4 = a /\
  slice (a ++ b ++ c ++ rest) 4 6 = b /\
  slice (a ++ b ++ c ++ rest) 6 8 = c.
Proof.
  intros Ha Hb Hc.
  destruct a as [|a1 [|a2 [|a3 [|a4 [|a5 a]]]]]; try discriminate.
  destruct b as [|b1 [|b2 [|b3 b]]]; try discriminate.
  destruct c as [|c1 [|c2 [|c3 c]]]; try discriminate.
  unfold slice. cbn. destruct rest; repeat split; reflexivity.
Qed.

Lemma string_app_empty (s : string) : (s ++ "")%string = s.
Proof. induction s as [|c s IH]; simpl; [reflexivity|]. rewrite IH. reflexivity. Qed.

Lemma parse_date_fields app_abort y m d rest :
  check_date_fields y m d = true ->
  parse_date app_abort
    (PyStr (zero_padded 4 y ++ zero_padded 2 m ++ zero_padded 2 d ++ rest))
  = Ok (date_of_ymd y m d).
Proof.
  intros H. pose proof H as Hc. apply check_date_fields_spec in Hc.
  destruct Hc as [Hy [Hm Hd]].
  pose proof (days_in_month_le y m Hm) as H31.
  destruct (slices_of_fields (zero_padded 4 y) (zero_padded 2 m)
              (zero_padded 2 d) rest) as [Hsy [Hsm Hsd]];
    try apply zero_padded_length.
  unfold parse_date. cbv zeta. rewrite Hsy, Hsm, Hsd.
  rewrite !py_int_zero_padded by (simpl; lia).
  cbn [outcome_bind]. unfold date_new.
  assert (Hfits : fits_int y && fits_int m && fits_int d = true).
  { unfold fits_int. rewrite !andb_true_iff, !Z.leb_le. lia. }
  rewrite Hfits, H. reflexivity.
Qed.

Lemma parse_date_text app_abort s :
  parse_date app_abort (PyStr s)
  = match py_int (slice s 0 4), py_int (slice s 4 6), py_int (slice s 6 8) with
    | Ok y, Ok m, Ok d =>
        if check_date_fields y m d then Ok (date_of_ymd y m d)
        else outcome_bind (app_abort 500) (fun _ => Raise UnboundLocalError)
    | _, _, _ =>
        outcome_bind (app_abort 500) (fun _ => Raise UnboundLocalError)
    end.
Proof.
  unfold parse_date. cbv zeta.
  destruct (py_int (slice s 0 4)) as [y|e] eqn:Hy; cbn [outcome_bind];
    [|rewrite (py_int_raises _ _ Hy); reflexivity].
  destruct (py_int (slice s 4 6)) as [m|e] eqn:Hm; cbn [outcome_bind];
    [|rewrite (py_int_raises _ _ Hm); reflexivity].
  destruct (py_int (slice s 6 8)) as [d|e] eqn:Hd; cbn [outcome_bind];
    [|rewrite (py_int_raises _ _ Hd); reflexivity].
  unfold date_new.
  rewrite (py_int_slice_fits s 0 4 y ltac:(simpl; lia) Hy).
  rewrite (py_int_slice_fits s 4 6 m ltac:(simpl; lia) Hm).
  rewrite (py_int_slice_fits s 6 8 d ltac:(simpl; lia) Hd).
  cbn [andb]. destruct (check_date_fields y m d); reflexivity.
Qed.

Section MoreServiceFacts.

Variable L : libraries.

(** ** [calculate_sunrise] *)

(** X1.  What a value returned by [calculate_sunrise] tells: [None]
    stands for an event that the solver reports as absent and for nothing
    else, an integer is returned for 'js' alone, a datetime for 'dt'
    alone and always with UTC attached, a text for 'iso' alone, each
    for an instant that the solver found; a truth value and bytes are
    never returned. *)
Theorem calculate_sunrise_value_kinds day horizon dawn output_type w v w' :
  calculate_sunrise L day horizon dawn output_type w = (Ok v, w') ->
  angle_error L horizon = None /\
  match v with
  | PyNone =>
      solver L (is_True dawn) (aimed (location w) day horizon)
      = CircumpolarError
  | PyBool _ => False
  | PyInt z =>
      output_type = "js" /\
      exists t,
        solver L (is_True dawn) (aimed (location w) day horizon)
        = Crossing t /\
        py_round
          (float_mul_int (timestamp (replace_tzinfo t timezone_utc)) 1000)
        = Ok z
  | PyStr s =>
      output_type = "iso" /\
      exists t,
        solver L (is_True dawn) (aimed (location w) day horizon)
        = Crossing t /\
        s = datetime_isoformat (replace_tzinfo t timezone_utc)
  | PyDatetime u =>
      output_type = "dt" /\ tzinfo u = Some timezone_utc /\
      exists t,
        solver L (is_True dawn) (aimed (location w) day horizon)
        = Crossing t /\
        u = replace_tzinfo t timezone_utc
  | PyBytes _ => False
  end.
Proof.
  intros Hrun.
  destruct (angle_error L horizon) as [e|] eqn:Hangle.
  { rewrite (calculate_sunrise_refused L _ _ _ _ _ _ Hangle) in Hrun.
    discriminate. }
  split; [reflexivity|].
  rewrite (calculate_sunrise_accepted L _ _ _ _ _ Hangle) in Hrun.
  destruct (solver L _ _) as [t| |e]; cbn [answer] in Hrun.
  - unfold render in Hrun.
    destruct (String.eqb_spec output_type "js") as [Hjs|Hjs].
    { destruct (py_round _) as [z|e] eqn:Hround; cbn in Hrun;
        [|discriminate].
      assert (Hv : v = PyInt z) by congruence. subst v.
      split; [exact Hjs|]. exists t. split; [reflexivity|exact Hround]. }
    destruct (String.eqb_spec output_type "dt") as [Hdt|Hdt].
    { assert (Hv : v = PyDatetime (replace_tzinfo t timezone_utc))
        by congruence.
      subst v. split; [exact Hdt|]. split; [reflexivity|].
      exists t. split; reflexivity. }
    destruct (String.eqb_spec output_type "iso") as [Hiso|Hiso].
    { assert (Hv : v = PyStr (datetime_isoformat
                                (replace_tzinfo t timezone_utc)))
        by congruence.
      subst v. split; [exact Hiso|]. exists t. split; reflexivity. }
    discriminate.
  - cbn [render] in Hrun.
    assert (Hv : v = PyNone) by congruence. subst v. reflexivity.
  - discriminate.
Qed.

(** X2.  The direction is a rising only when [dawn] is the object
    [True].  For every other value, the text 'True' that the signature
    gives as default and the number 1 included, [calculate_sunrise] asks
    the solver for the next setting and returns what it renders for
    that. *)
Theorem calculate_sunrise_dawn_not_True day horizon dawn output_type w :
  dawn <> PyBool true ->
  angle_error L horizon = None ->
  calculate_sunrise L day horizon dawn output_type w
  = (answer output_type (next_setting L (aimed (location w) day horizon)),
     mkworld (aimed (location w) day horizon)
             (solver_trace w
              ++ [mkcall false (aimed (location w) day horizon)])).
Proof.
  intros Hdawn Hangle.
  assert (His : is_True dawn = false).
  { destruct dawn as [|[|]|z|s|t|b]; try reflexivity. congruence. }
  rewrite (calculate_sunrise_accepted L _ _ _ _ _ Hangle), His.
  reflexivity.
Qed.

(** X3.  An exception of the solver other than [CircumpolarError] is not
    caught: [calculate_sunrise] raises it, for every output type, with date
    and horizon of the observer assigned and the call made. *)
Theorem calculate_sunrise_solver_error day horizon dawn output_type w e :
  angle_error L horizon = None ->
  solver L (is_True dawn) (aimed (location w) day horizon) = Fault e ->
  calculate_sunrise L day horizon dawn output_type w
  = (Raise e,
     mkworld (aimed (location w) day horizon)
             (solver_trace w
              ++ [mkcall (is_True dawn) (aimed (location w) day horizon)])).
Proof.
  intros Hangle Hsolver.
  rewrite (calculate_sunrise_accepted L _ _ _ _ _ Hangle), Hsolver.
  reflexivity.
Qed.

(** X4.  When the library refuses the horizon, [calculate_sunrise] raises
    the library's exception without a solver call; the date of the
    observer has been assigned by then and stays assigned, the horizon and
    all other fields are as before the call. *)
Theorem calculate_sunrise_horizon_refused day horizon dawn output_type w e
    r w' :
  angle_error L horizon = Some e ->
  calculate_sunrise L day horizon dawn output_type w = (r, w') ->
  r = Raise e /\
  solver_trace w' = solver_trace w /\
  o_date (location w') = midnight day /\
  o_horizon (location w') = o_horizon (location w) /\
  frame (location w') = frame (location w).
Proof.
  intros Hangle Hrun.
  rewrite (calculate_sunrise_refused L _ _ _ _ _ _ Hangle) in Hrun.
  inversion Hrun. repeat split.
Qed.

(** ** [list_times] *)

Lemma answer_unknown_output_type output_type r v :
  output_type <> "js" -> output_type <> "dt" -> output_type <> "iso" ->
  answer output_type r = Ok v <-> r = CircumpolarError /\ v = PyNone.
Proof.
  intros Hjs Hdt Hiso.
  apply String.eqb_neq in Hjs, Hdt, Hiso.
  destruct r as [t| |e]; cbn [answer render].
  - rewrite Hjs, Hdt, Hiso. split; [discriminate|intros [H _]; discriminate].
  - split.
    + intros H. inversion H. split; reflexivity.
    + intros [_ H]. rewrite H. reflexivity.
  - split; [discriminate|intros [H _]; discriminate].
Qed.

(** X5.  [list_times] returns exactly when the library takes latitude,
    longitude and the two horizons and each of the four answers of the
    solver can be rendered; one event that raises makes the whole call
    raise, and there is no result with fewer than four events. *)
Theorem list_times_returns_iff now latitude longitude day output_type w out :
  fst (list_times L now latitude longitude day output_type w) = Ok out <->
  angle_error L latitude = None /\
  angle_error L longitude = None /\
  angle_error L (PyStr "-6") = None /\
  angle_error L (PyStr "-0:34") = None /\
  exists dawn rise sset dusk,
    out = [("civil_dawn", dawn); ("sunrise", rise);
           ("sunset", sset); ("civil_dusk", dusk)] /\
    answer output_type
      (next_rising L (site latitude longitude day "-6")) = Ok dawn /\
    answer output_type
      (next_rising L (site latitude longitude day "-0:34")) = Ok rise /\
    answer output_type
      (next_setting L (site latitude longitude day "-0:34")) = Ok sset /\
    answer output_type
      (next_setting L (site latitude longitude day "-6")) = Ok dusk.
Proof.
  destruct (list_times_run L now latitude longitude day output_type w)
    as [o' Hrun].
  rewrite Hrun. cbn [fst]. clear Hrun.
  unfold events. cbn [outcome_mapM].
  unfold item_value, event_value. cbn [fst snd is_True solver].
  rewrite !aimed_station.
  split.
  - intros Hout.
    destruct (angle_error L latitude); [discriminate|].
    destruct (angle_error L longitude); [discriminate|].
    destruct (angle_error L (PyStr "-6")); [discriminate|].
    destruct (answer output_type
                (next_rising L (site latitude longitude day "-6")))
      as [dawn|]; [|discriminate].
    cbn [outcome_map outcome_bind] in Hout.
    destruct (angle_error L (PyStr "-0:34")); [discriminate|].
    destruct (answer output_type
                (next_rising L (site latitude longitude day "-0:34")))
      as [rise|]; [|discriminate].
    cbn [outcome_map outcome_bind] in Hout.
    destruct (answer output_type
                (next_setting L (site latitude longitude day "-0:34")))
      as [sset|]; [|discriminate].
    cbn [outcome_map outcome_bind] in Hout.
    destruct (answer output_type
                (next_setting L (site latitude longitude day "-6")))
      as [dusk|]; [|discriminate].
    cbn [outcome_map outcome_bind] in Hout.
    do 4 (split; [reflexivity|]).
    exists dawn, rise, sset, dusk.
    inversion Hout. repeat split; reflexivity.
  - intros [Hlat [Hlon [Hsix [Hrim [dawn [rise [sset [dusk H]]]]]]]].
    destruct H as [Hout [Hdawn [Hrise [Hsset Hdusk]]]].
    rewrite Hlat, Hlon, Hsix, Hrim, Hdawn, Hrise, Hsset, Hdusk, Hout.
    reflexivity.
Qed.

(** X6.  With an output type that is none of 'js', 'dt' and 'iso',
    [list_times] returns only on a day on which all four events are
    absent, and then with four times [None]: a single event that the
    solver finds makes it raise. *)
Theorem list_times_unknown_output_type now latitude longitude day output_type
    w out :
  output_type <> "js" -> output_type <> "dt" -> output_type <> "iso" ->
  fst (list_times L now latitude longitude day output_type w) = Ok out <->
  angle_error L latitude = None /\
  angle_error L longitude = None /\
  angle_error L (PyStr "-6") = None /\
  angle_error L (PyStr "-0:34") = None /\
  next_rising L (site latitude longitude day "-6") = CircumpolarError /\
  next_rising L (site latitude longitude day "-0:34") = CircumpolarError /\
  next_setting L (site latitude longitude day "-0:34") = CircumpolarError /\
  next_setting L (site latitude longitude day "-6") = CircumpolarError /\
  out = [("civil_dawn", PyNone); ("sunrise", PyNone);
         ("sunset", PyNone); ("civil_dusk", PyNone)].
Proof.
  intros Hjs Hdt Hiso.
  destruct (list_times_run L now latitude longitude day output_type w)
    as [o' Hrun].
  rewrite Hrun. cbn [fst]. clear Hrun.
  unfold events. cbn [outcome_mapM].
  unfold item_value, event_value. cbn [fst snd is_True solver].
  rewrite !aimed_station.
  split.
  - intros Hout.
    destruct (angle_error L latitude); [discriminate|].
    destruct (angle_error L longitude); [discriminate|].
    destruct (angle_error L (PyStr "-6")); [discriminate|].
    destruct (answer output_type
                (next_rising L (site latitude longitude day "-6")))
      as [dawn|] eqn:Hdawn; [|discriminate].
    cbn [outcome_map outcome_bind] in Hout.
    destruct (angle_error L (PyStr "-0:34")); [discriminate|].
    destruct (answer output_type
                (next_rising L (site latitude longitude day "-0:34")))
      as [rise|] eqn:Hrise; [|discriminate].
    cbn [outcome_map outcome_bind] in Hout.
    destruct (answer output_type
                (next_setting L (site latitude longitude day "-0:34")))
      as [sset|] eqn:Hsset; [|discriminate].
    cbn [outcome_map outcome_bind] in Hout.
    destruct (answer output_type
                (next_setting L (site latitude longitude day "-6")))
      as [dusk|] eqn:Hdusk; [|discriminate].
    cbn [outcome_map outcome_bind] in Hout.
    apply (answer_unknown_output_type _ _ _ Hjs Hdt Hiso) in Hdawn.
    apply (answer_unknown_output_type _ _ _ Hjs Hdt Hiso) in Hrise.
    apply (answer_unknown_output_type _ _ _ Hjs Hdt Hiso) in Hsset.
    apply (answer_unknown_output_type _ _ _ Hjs Hdt Hiso) in Hdusk.
    destruct Hdawn as [H1 V1], Hrise as [H2 V2], Hsset as [H3 V3],
             Hdusk as [H4 V4].
    subst dawn rise sset dusk.
    do 4 (split; [reflexivity|]).
    do 4 (split; [assumption|]).
    congruence.
  - intros [Hlat [Hlon [Hsix [Hrim [H1 [H2 [H3 [H4 Hout]]]]]]]].
    rewrite Hlat, Hlon, Hsix, Hrim, H1, H2, H3, H4, Hout.
    reflexivity.
Qed.

(** ** [sun] *)

(** X7.  For a first and a last day of the calendar, the list of days
    fails only for the last day of the calendar, where it raises
    [OverflowError]; otherwise it holds every day from the first to the
    last, both included, once and in order, and no other day. *)
Theorem days_between_spec start end_ :
  date_valid start -> date_valid end_ ->
  (days_between start end_ = Raise OverflowError <-> end_ = date_max) /\
  (end_ <> date_max ->
   exists ds,
     days_between start end_ = Ok ds /\
     (forall d, In d ds <-> date_le start d /\ date_le d end_) /\
     NoDup ds /\ chronological ds /\
     Z.of_nat (List.length ds)
     = Z.max 0 (toordinal end_ - toordinal start + 1)).
Proof.
  intros Hs He.
  assert (Hmax : end_ = date_max <-> toordinal end_ = MAXORDINAL).
  { destruct end_ as [n]. unfold date_max. simpl. split.
    - intros H. inversion H. reflexivity.
    - intros H. rewrite H. reflexivity. }
  assert (Hspan : end_ <> date_max ->
                  days_between start end_
                  = Ok (map (fun i => fromordinal (toordinal start + i))
                          (range (toordinal end_ + 1 - toordinal start)))).
  { intros Hne. apply days_between_span; try assumption.
    unfold date_valid in He. rewrite Hmax in Hne. lia. }
  split.
  - split.
    + intros Hraise. destruct end_ as [n]. unfold date_max.
      destruct (Z.eq_dec n MAXORDINAL) as [->|Hne]; [reflexivity|].
      rewrite Hspan in Hraise; [discriminate|].
      intros H. inversion H. contradiction.
    + intros ->. apply days_between_last_day.
  - intros Hne. eexists. split; [apply Hspan; exact Hne|].
    split; [|split; [|split]].
    + intros d. rewrite in_map_iff. unfold date_le. split.
      * intros [i [Hd Hi]]. apply range_In in Hi. subst d. simpl. lia.
      * intros [H1 H2]. exists (toordinal d - toordinal start). split.
        -- destruct d as [n]. simpl. f_equal. lia.
        -- apply range_In. lia.
    + apply NoDup_map_injective.
      * intros i j H. inversion H. lia.
      * unfold range. apply NoDup_map_injective.
        -- intros i j H. lia.
        -- apply seq_NoDup.
    + apply span_chronological.
    + rewrite length_map, range_length. lia.
Qed.

Lemma mapM_fst {A B} (f : A -> M B) (g : A -> outcome B) xs :
  (forall x w, fst (f x w) = g x) ->
  forall w, fst (mapM f xs w) = outcome_mapM g xs.
Proof.
  intros Hf. induction xs as [|x xs IH]; intros w; [reflexivity|].
  rewrite mapM_cons. cbn [outcome_mapM].
  rewrite <- (Hf x w).
  destruct (f x w) as [[y|e] w1]; cbn [fst outcome_bind]; [|reflexivity].
  rewrite <- (IH w1).
  destruct (mapM f xs w1) as [[ys|e] w2]; reflexivity.
Qed.

Lemma list_times_fst now now' latitude longitude day ot w w' :
  fst (list_times L now latitude longitude day ot w)
  = fst (list_times L now' latitude longitude day ot w').
Proof.
  destruct (list_times_run L now latitude longitude day ot w) as [o1 H1].
  destruct (list_times_run L now' latitude longitude day ot w') as [o2 H2].
  rewrite H1, H2. cbn [fst].
  destruct (angle_error L latitude); [reflexivity|].
  destruct (angle_error L longitude); [reflexivity|].
  apply outcome_mapM_ext. intros item _.
  apply item_value_same_frame. apply frame_station.
Qed.

Lemma day_entry_fst now latitude longitude day ot w :
  fst ((evs <- list_times L now latitude longitude day ot ;;
        ret (mkday_entry (date_isoformat day) evs)) w)
  = outcome_map (mkday_entry (date_isoformat day))
      (fst (list_times L 0 latitude longitude day ot
              (mkworld (Observer_new 0) []))).
Proof.
  rewrite bind_run.
  rewrite <- (list_times_fst now 0 latitude longitude day ot w
                (mkworld (Observer_new 0) [])).
  destruct (list_times L now latitude longitude day ot w) as [[evs|e] w1];
    reflexivity.
Qed.

(** X8.  What [sun] answers, and whether it raises, depends neither on
    the moments at which the observers are constructed nor on the state
    left by earlier requests: two requests with the same arguments on the
    same day get the same answer. *)
Theorem sun_independent_of_clock today clock1 clock2 args w1 w2 :
  fst (sun L today clock1 args w1) = fst (sun L today clock2 args w2).
Proof.
  destruct (request_dates L today args) as [[start end_]|e] eqn:Hdates.
  - rewrite (sun_run L _ clock1 _ _ _ w1 Hdates).
    rewrite (sun_run L _ clock2 _ _ _ w2 Hdates).
    destruct (days_between start end_) as [ds|e]; [|reflexivity].
    pose proof (mapM_fst _ _ ds
                  (fun day w =>
                     day_entry_fst (clock1 day) (arg_or_None (arg_lat args))
                       (arg_or_None (arg_lon args)) day
                       match arg_output_type args with
                       | Some s => s
                       | None => "iso"
                       end w) w1) as H1.
    pose proof (mapM_fst _ _ ds
                  (fun day w =>
                     day_entry_fst (clock2 day) (arg_or_None (arg_lat args))
                       (arg_or_None (arg_lon args)) day
                       match arg_output_type args with
                       | Some s => s
                       | None => "iso"
                       end w) w2) as H2.
    cbv beta in H1, H2.
    destruct (mapM _ ds w1) as [[t1|e1] v1];
    destruct (mapM _ ds w2) as [[t2|e2] v2];
    cbn [fst] in *; congruence.
  - unfold sun. rewrite !bind_run. unfold lift. rewrite Hdates.
    reflexivity.
Qed.

(** The entries and the solver calls of a run over a list of days. *)
Lemma days_run (clock : date -> Z) latitude longitude ot days :
  forall w times w',
  mapM (fun day =>
          evs <- list_times L (clock day) latitude longitude day ot ;;
          ret (mkday_entry (date_isoformat day) evs))
       days w = (Ok times, w') ->
  Forall2 (fun day entry =>
             entry_date entry = date_isoformat day /\
             fst (list_times L (clock day) latitude longitude day ot w)
             = Ok (entry_events entry))
          days times /\
  solver_trace w'
  = (solver_trace w ++ flat_map (canonical_calls latitude longitude) days)%list.
Proof.
  induction days as [|day days IH]; intros w times w' Hrun.
  - cbn in Hrun. inversion Hrun. split; [constructor|].
    cbn. rewrite app_nil_r. reflexivity.
  - rewrite mapM_cons, bind_run in Hrun.
    destruct (list_times L (clock day) latitude longitude day ot w)
      as [[evs|e] w1] eqn:Hday; [|discriminate].
    cbn [ret] in Hrun.
    destruct (mapM _ days w1) as [[rest|e] w2] eqn:Hrest; [|discriminate].
    inversion Hrun; subst times w2. clear Hrun.
    destruct (IH _ _ _ Hrest) as [Hall Htrace].
    destruct (list_times_values L _ _ _ _ _ _ _ _ Hday) as [Hcalls _].
    split.
    + constructor.
      * split; [reflexivity|]. rewrite Hday. reflexivity.
      * eapply Forall2_impl; [|exact Hall].
        intros d entry [Hd Hev]. split; [exact Hd|].
        rewrite <- Hev. apply list_times_fst.
    + rewrite Htrace, Hcalls. cbn [flat_map].
      rewrite <- !app_assoc. reflexivity.
Qed.

(** X9.  An answer of [sun] holds one entry for every day of the range,
    in the order of the days: the entry carries the ISO text of its day
    and the events that [list_times] returns for that day, and the
    coordinates are given back as they came.  The solver has been called
    four times for every day, day after day. *)
Theorem sun_entries today clock args start end_ w resp w' :
  request_dates L today args = Ok (start, end_) ->
  sun L today clock args w = (Ok resp, w') ->
  exists days,
    days_between start end_ = Ok days /\
    resp_latlon resp
    = (arg_or_None (arg_lat args), arg_or_None (arg_lon args)) /\
    Forall2 (fun day entry =>
               entry_date entry = date_isoformat day /\
               fst (list_times L (clock day) (arg_or_None (arg_lat args))
                      (arg_or_None (arg_lon args)) day
                      match arg_output_type args with
                      | Some s => s
                      | None => "iso"
                      end w)
               = Ok (entry_events entry))
            days (resp_days resp) /\
    solver_trace w'
    = (solver_trace w
       ++ flat_map (canonical_calls (arg_or_None (arg_lat args))
                                    (arg_or_None (arg_lon args))) days)%list.
Proof.
  intros Hdates Hsun.
  rewrite (sun_run L _ _ _ _ _ _ Hdates) in Hsun.
  destruct (days_between start end_) as [days|e]; [|discriminate].
  exists days. split; [reflexivity|].
  destruct (mapM _ days w) as [[times|e] w1] eqn:Hmap; [|discriminate].
  assert (Hresp : resp = mkresponse (arg_or_None (arg_lat args),
                                     arg_or_None (arg_lon args)) times)
    by congruence.
  assert (Hw : w' = w1) by congruence.
  subst resp w'. cbn [resp_latlon resp_days].
  split; [reflexivity|].
  apply days_run in Hmap. exact Hmap.
Qed.

(** X10.  A request that names no last day is a request for the first day
    alone: the answer holds the one entry of that day, after four solver
    calls. *)
Theorem sun_single_day today clock args start end_ w resp w' :
  arg_end args = None ->
  request_dates L today args = Ok (start, end_) ->
  date_valid start ->
  sun L today clock args w = (Ok resp, w') ->
  end_ = start /\
  (exists evs,
     resp_days resp = [mkday_entry (date_isoformat start) evs] /\
     fst (list_times L (clock start) (arg_or_None (arg_lat args))
            (arg_or_None (arg_lon args)) start
            match arg_output_type args with
            | Some s => s
            | None => "iso"
            end w)
     = Ok evs) /\
  solver_trace w'
  = (solver_trace w
     ++ canonical_calls (arg_or_None (arg_lat args))
                        (arg_or_None (arg_lon args)) start)%list.
Proof.
  intros Hend Hdates Hs Hsun.
  assert (Hsame : end_ = start).
  { unfold request_dates in Hdates. rewrite Hend in Hdates.
    destruct (match arg_start args with
              | Some s => outcome_map day_of (dateutil_parse L s)
              | None => Ok today
              end) as [d|e]; cbn in Hdates; congruence. }
  subst end_. split; [reflexivity|].
  rewrite (sun_run L _ _ _ _ _ _ Hdates) in Hsun.
  assert (Hdays : days_between start start = Ok [start]).
  { destruct (Z.eq_dec (toordinal start) MAXORDINAL) as [Hlast|Hlast].
    - exfalso. destruct start as [n]. cbn in Hlast. subst n.
      fold date_max in Hsun. rewrite days_between_last_day in Hsun.
      discriminate.
    - unfold date_valid in Hs.
      rewrite days_between_span by (unfold date_valid; lia).
      replace (toordinal start + 1 - toordinal start) with 1 by lia.
      destruct start as [n]. change (range 1) with [0].
      cbn [map toordinal]. rewrite Z.add_0_r. reflexivity. }
  rewrite Hdays in Hsun.
  destruct (mapM _ [start] w) as [[times|e] w1] eqn:Hmap; [|discriminate].
  assert (Hresp : resp = mkresponse (arg_or_None (arg_lat args),
                                     arg_or_None (arg_lon args)) times)
    by congruence.
  assert (Hw : w' = w1) by congruence.
  subst resp w'. cbn [resp_days].
  apply days_run in Hmap. destruct Hmap as [Hall Htrace].
  inversion Hall as [|d entry ds rest [Hdate Hevs] Hnil]; subst.
  inversion Hnil; subst. split.
  - exists (entry_events entry). split; [|exact Hevs].
    destruct entry as [dt evs]. cbn in Hdate. subst dt. reflexivity.
  - rewrite Htrace. cbn [flat_map]. rewrite app_nil_r. reflexivity.
Qed.

(** X11.  A first or a last day that [dateutil] cannot read makes [sun]
    raise the parser's exception before an observer is made: the state
    is untouched and the solver is not called.  The first day is read
    before the last one, so its exception is the one raised when both
    fail. *)
Theorem sun_unreadable_day today clock args w :
  (forall s e,
     arg_start args = Some s -> dateutil_parse L s = Raise e ->
     sun L today clock args w = (Raise e, w)) /\
  (forall s e,
     (forall s0, arg_start args = Some s0 ->
                 exists t, dateutil_parse L s0 = Ok t) ->
     arg_end args = Some s -> dateutil_parse L s = Raise e ->
     sun L today clock args w = (Raise e, w)).
Proof.
  split.
  - intros s e Hstart Hparse.
    unfold sun, request_dates. rewrite bind_run. unfold lift.
    rewrite Hstart, Hparse. reflexivity.
  - intros s e Hstart Hend Hparse.
    unfold sun, request_dates. rewrite bind_run. unfold lift.
    rewrite Hend, Hparse.
    destruct (arg_start args) as [s0|].
    + destruct (Hstart s0 eq_refl) as [t Ht]. rewrite Ht. reflexivity.
    + reflexivity.
Qed.

Lemma list_times_calls_prefix now latitude longitude day ot w :
  exists n,
    solver_trace (snd (list_times L now latitude longitude day ot w))
    = (solver_trace w ++ firstn n (canonical_calls latitude longitude day))%list.
Proof.
  destruct (list_times_run L now latitude longitude day ot w) as [o' Hrun].
  rewrite Hrun. cbn [snd solver_trace].
  destruct (angle_error L latitude);
    [exists 0%nat; reflexivity|].
  destruct (angle_error L longitude);
    [exists 0%nat; reflexivity|].
  destruct (item_calls_prefix L (station now latitude longitude) day ot
              events) as [n [_ [Hcalls _]]].
  exists n. rewrite Hcalls. unfold events, call_of. cbn [map fst snd is_True].
  rewrite !aimed_station. reflexivity.
Qed.

Lemma mapM_Raise {A B} (f : A -> M B) xs : forall w e w',
  mapM f xs w = (Raise e, w') ->
  exists before x after ys w1,
    xs = (before ++ x :: after)%list /\
    mapM f before w = (Ok ys, w1) /\
    f x w1 = (Raise e, w').
Proof.
  induction xs as [|x xs IH]; intros w e w' H.
  - cbn in H. discriminate.
  - rewrite mapM_cons in H.
    destruct (f x w) as [[y|e1] w1] eqn:Hx.
    + destruct (mapM f xs w1) as [[ys|e2] w2] eqn:Hxs; [discriminate|].
      assert (He : e2 = e) by congruence.
      assert (Hw : w2 = w') by congruence.
      subst e2 w2.
      destruct (IH _ _ _ Hxs) as [before [z [after [zs [w3 [Hsplit [Hb Hz]]]]]]].
      exists (x :: before), z, after, (y :: zs), w3.
      split; [rewrite Hsplit; reflexivity|]. split; [|exact Hz].
      rewrite mapM_cons, Hx, Hb. reflexivity.
    + assert (He : e1 = e) by congruence.
      assert (Hw : w1 = w') by congruence.
      subst e1 w1.
      exists [], x, xs, [], w. repeat split. exact Hx.
Qed.

(** X12.  [sun] stops at the first day whose events cannot be computed
    and raises that day's exception: the answer is lost as a whole.  The
    days before that day have had their four solver calls each, the day
    itself the calls up to its failure, the days after it none. *)
Theorem sun_first_failing_day today clock args start end_ days w e w' :
  request_dates L today args = Ok (start, end_) ->
  days_between start end_ = Ok days ->
  sun L today clock args w = (Raise e, w') ->
  exists before day after n,
    days = (before ++ day :: after)%list /\
    Forall (fun d =>
              exists evs,
                fst (list_times L (clock d) (arg_or_None (arg_lat args))
                       (arg_or_None (arg_lon args)) d
                       match arg_output_type args with
                       | Some s => s
                       | None => "iso"
                       end w)
                = Ok evs)
           before /\
    fst (list_times L (clock day) (arg_or_None (arg_lat args))
           (arg_or_None (arg_lon args)) day
           match arg_output_type args with
           | Some s => s
           | None => "iso"
           end w)
    = Raise e /\
    solver_trace w'
    = (solver_trace w
       ++ flat_map (canonical_calls (arg_or_None (arg_lat args))
                                    (arg_or_None (arg_lon args))) before
       ++ firstn n (canonical_calls (arg_or_None (arg_lat args))
                                    (arg_or_None (arg_lon args)) day))%list.
Proof.
  intros Hdates Hdays Hsun.
  rewrite (sun_run L _ _ _ _ _ _ Hdates), Hdays in Hsun.
  destruct (mapM _ days w) as [[times|e1] w1] eqn:Hmap; [discriminate|].
  assert (He : e1 = e) by congruence.
  assert (Hw : w1 = w') by congruence.
  subst e1 w1. clear Hsun.
  apply mapM_Raise in Hmap.
  destruct Hmap as [before [day [after [entries [w1 [Hsplit [Hb Hday]]]]]]].
  apply days_run in Hb. destruct Hb as [Hall Htrace].
  rewrite bind_run in Hday.
  destruct (list_times_calls_prefix (clock day) (arg_or_None (arg_lat args))
              (arg_or_None (arg_lon args)) day
              match arg_output_type args with
              | Some s => s
              | None => "iso"
              end w1) as [n Hn].
  destruct (list_times L (clock day) _ _ day _ w1) as [[evs|e1] w2] eqn:Hlt;
    [discriminate|].
  assert (He : e1 = e) by congruence.
  assert (Hw : w2 = w') by congruence.
  subst e1 w2. cbn [snd] in Hn.
  exists before, day, after, n.
  split; [exact Hsplit|]. split; [|split].
  - clear -Hall. induction Hall as [|d entry ds es [_ Hd] _ IH];
      constructor; [|exact IH].
    exists (entry_events entry). exact Hd.
  - rewrite (list_times_fst (clock day) (clock day) _ _ _ _ w w1), Hlt.
    reflexivity.
  - rewrite Hn, Htrace, <- app_assoc. reflexivity.
Qed.

(** X13.  The entries of an answer of [sun] carry pairwise distinct date
    texts of ten characters each, so a client can use them as keys. *)
Theorem sun_dates_distinct today clock args start end_ w resp w' :
  request_dates L today args = Ok (start, end_) ->
  date_valid start -> date_valid end_ ->
  sun L today clock args w = (Ok resp, w') ->
  NoDup (map entry_date (resp_days resp)) /\
  Forall (fun entry => String.length (entry_date entry) = 10%nat)
         (resp_days resp).
Proof.
  intros Hdates Hs He Hsun.
  rewrite (sun_run L _ _ _ _ _ _ Hdates) in Hsun.
  assert (Hlast : toordinal end_ < MAXORDINAL).
  { destruct (Z.eq_dec (toordinal end_) MAXORDINAL) as [Heq|Hne].
    - exfalso. destruct end_ as [n]. cbn in Heq. subst n.
      fold date_max in Hsun. rewrite days_between_last_day in Hsun.
      discriminate.
    - unfold date_valid in He. lia. }
  rewrite (days_between_span _ _ Hs He Hlast) in Hsun.
  set (ds := map _ (range _)) in Hsun.
  destruct (mapM _ ds w) as [[times|e] w1] eqn:Hmap; [|discriminate].
  assert (Hresp : resp = mkresponse (arg_or_None (arg_lat args),
                                     arg_or_None (arg_lon args)) times)
    by congruence.
  subst resp. cbn [resp_days]. clear Hsun.
  apply mapM_Ok_Forall2 in Hmap.
  assert (Htexts : map entry_date times = map date_isoformat ds).
  { clear -Hmap. induction Hmap as [|d entry ds' ts Hd _ IH]; [reflexivity|].
    cbn [map]. rewrite IH. f_equal.
    destruct Hd as [w1 [w2 Hd]]. rewrite bind_run in Hd.
    destruct (list_times L _ _ _ _ _ w1) as [[evs|e] w3]; [|discriminate].
    cbn [ret] in Hd. inversion Hd. reflexivity. }
  split.
  - rewrite Htexts.
    assert (Hvalid : Forall date_valid ds).
    { apply Forall_forall. intros d Hd. unfold ds in Hd.
      apply in_map_iff in Hd. destruct Hd as [i [Hi Hin]].
      apply range_In in Hin. subst d. unfold date_valid in *. cbn. lia. }
    assert (Hnd : NoDup ds).
    { unfold ds. apply NoDup_map_injective.
      - intros i j H. inversion H. lia.
      - unfold range. apply NoDup_map_injective.
        + intros i j H. lia.
        + apply seq_NoDup. }
    clear -Hvalid Hnd.
    induction Hnd as [|d ds' Hd _ IH]; cbn [map]; constructor.
    + rewrite in_map_iff. intros [d' [Htext Hin]].
      inversion Hvalid as [|? ? Hdv Hrest]; subst.
      rewrite Forall_forall in Hrest.
      apply date_isoformat_injective in Htext;
        [subst d'; contradiction|apply Hrest; exact Hin|exact Hdv].
    + apply IH. inversion Hvalid; assumption.
  - apply Forall_forall. intros entry Hin.
    apply (in_map entry_date) in Hin. rewrite Htexts in Hin.
    apply in_map_iff in Hin. destruct Hin as [d [Hd _]].
    rewrite <- Hd. apply date_isoformat_length.
Qed.

End MoreServiceFacts.

(** X14.  The ISO text that 'iso' gives identifies the instant to the
    microsecond: two instants of the calendar with the same text are the
    same instant, so nothing is lost against 'dt'. *)
Theorem iso_text_identifies_instant t1 t2 :
  datetime_valid t1 -> datetime_valid t2 ->
  render "iso" (Some t1) = render "iso" (Some t2) ->
  render "dt" (Some t1) = render "dt" (Some t2).
Proof.
  intros [Hd1 [Hh1 [Hm1 [Hs1 Hu1]]]] [Hd2 [Hh2 [Hm2 [Hs2 Hu2]]]] H.
  cbn [render String.eqb Ascii.eqb Bool.eqb] in H |- *.
  assert (Htext : datetime_isoformat (replace_tzinfo t1 timezone_utc)
                  = datetime_isoformat (replace_tzinfo t2 timezone_utc))
    by congruence.
  clear H. do 2 f_equal.
  destruct t1 as [d1 h1 m1 s1 u1 z1], t2 as [d2 h2 m2 s2 u2 z2].
  unfold replace_tzinfo, datetime_isoformat in *.
  cbn [day_of hour minute second microsecond tzinfo utcoffset timezone_utc]
    in *.
  change (offset_text 0) with "+00:00" in Htext.
  apply string_app_inj in Htext; [|rewrite !date_isoformat_length; reflexivity].
  destruct Htext as [Hdate H].
  apply (string_app_inj "T" "T") in H; [|reflexivity].
  destruct H as [_ H].
  apply string_app_inj in H; [|rewrite !zero_padded_length; reflexivity].
  destruct H as [Hh H].
  apply (string_app_inj ":" ":") in H; [|reflexivity].
  destruct H as [_ H].
  apply string_app_inj in H; [|rewrite !zero_padded_length; reflexivity].
  destruct H as [Hm H].
  apply (string_app_inj ":" ":") in H; [|reflexivity].
  destruct H as [_ H].
  apply string_app_inj in H; [|rewrite !zero_padded_length; reflexivity].
  destruct H as [Hs H].
  apply date_isoformat_injective in Hdate; [|assumption|assumption].
  apply zero_padded_injective in Hh; [|simpl; lia|simpl; lia].
  apply zero_padded_injective in Hm; [|simpl; lia|simpl; lia].
  apply zero_padded_injective in Hs; [|simpl; lia|simpl; lia].
  subst d2 h2 m2 s2.
  assert (Hu : u1 = u2).
  { destruct (Z.eqb_spec u1 0) as [Hz1|Hz1];
    destruct (Z.eqb_spec u2 0) as [Hz2|Hz2].
    - congruence.
    - exfalso. cbn in H. discriminate.
    - exfalso. cbn in H. discriminate.
    - cbn [append] in H.
      apply (f_equal (fun s => match s with
                               | String _ r => r
                               | EmptyString => EmptyString
                               end)) in H.
      cbv beta iota in H.
      apply string_app_inj in H; [|rewrite !zero_padded_length; reflexivity].
      destruct H as [Hu _].
      apply zero_padded_injective in Hu; [exact Hu|simpl; lia|simpl; lia]. }
  subst u2. reflexivity.
Qed.

(** X15.  The text that 'iso' gives has two lengths: 25 characters for an
    instant on a whole second, because [isoformat] leaves the fraction
    out, and 32 characters otherwise.  It starts with the ISO text of the
    date and a 'T'. *)
Theorem iso_text_shape t :
  exists text rest,
    render "iso" (Some t) = Ok (PyStr text) /\
    text = date_isoformat (day_of t) ++ "T" ++ rest /\
    String.length text = if microsecond t =? 0 then 25%nat else 32%nat.
Proof.
  cbn [render String.eqb Ascii.eqb Bool.eqb].
  unfold datetime_isoformat, replace_tzinfo.
  cbn [day_of hour minute second microsecond tzinfo utcoffset timezone_utc].
  change (offset_text 0) with "+00:00".
  eexists. eexists. split; [reflexivity|]. split; [reflexivity|].
  rewrite !string_length_app, !zero_padded_length, date_isoformat_length.
  destruct (microsecond t =? 0).
  - reflexivity.
  - rewrite !string_length_app, !zero_padded_length. reflexivity.
Qed.

(** ** Binary64: the error of a rounding *)

Lemma shr_1_located mrs a b :
  located mrs a b -> located (shr_1 mrs) a (2 * b).
Proof.
  destruct mrs as [m r s]. unfold located. cbn [shr_m shr_r shr_s].
  intros (Hb & Hm & Hin & Hloc).
  destruct m as [|p|p]; [| |lia].
  - cbn [shr_1 shr_m shr_r shr_s]. destruct r, s; cbn [orb]; lia.
  - destruct p as [p|p|].
    + cbn [shr_1 shr_m shr_r shr_s].
      rewrite Pos2Z.inj_xI in *. set (P := Zpos p) in *.
      destruct r, s; cbn [orb]; nia.
    + cbn [shr_1 shr_m shr_r shr_s].
      rewrite Pos2Z.inj_xO in *. set (P := Zpos p) in *.
      destruct r, s; cbn [orb]; nia.
    + cbn [shr_1 shr_m shr_r shr_s]. destruct r, s; cbn [orb]; lia.
Qed.

Lemma iter_pos_shr_1_located p : forall mrs a b,
  located mrs a b -> located (iter_pos shr_1 p mrs) a (b * 2 ^ Zpos p).
Proof.
  induction p as [p IH|p IH|]; intros mrs a b H; cbn [iter_pos].
  - apply shr_1_located in H. apply IH in H. apply IH in H.
    replace (b * 2 ^ Zpos p~1) with (2 * b * 2 ^ Zpos p * 2 ^ Zpos p);
      [exact H|].
    assert (Hp : 2 ^ Zpos p~1 = 2 * (2 ^ Zpos p * 2 ^ Zpos p)).
    { rewrite <- Z.pow_add_r, <- Z.pow_succ_r by lia. f_equal. lia. }
    rewrite Hp. ring.
  - apply IH in H. apply IH in H.
    replace (b * 2 ^ Zpos p~0) with (b * 2 ^ Zpos p * 2 ^ Zpos p);
      [exact H|].
    assert (Hp : 2 ^ Zpos p~0 = 2 ^ Zpos p * 2 ^ Zpos p).
    { rewrite <- Z.pow_add_r by lia. f_equal. lia. }
    rewrite Hp. ring.
  - apply shr_1_located in H.
    replace (b * 2 ^ 1) with (2 * b) by (change (2 ^ 1) with 2; ring).
    exact H.
Qed.

Lemma shr_located mrs e n a b :
  located mrs a b ->
  located (fst (shr mrs e n)) a (b * 2 ^ Z.max 0 n) /\
  snd (shr mrs e n) = e + Z.max 0 n.
Proof.
  intros H. destruct n as [|p|p]; cbn [shr fst snd].
  - change (Z.max 0 0) with 0. rewrite Z.mul_1_r, Z.add_0_r. split; [exact H|reflexivity].
  - replace (Z.max 0 (Zpos p)) with (Zpos p) by lia.
    split; [apply iter_pos_shr_1_located; exact H|reflexivity].
  - replace (Z.max 0 (Zneg p)) with 0 by lia.
    rewrite Z.mul_1_r, Z.add_0_r. split; [exact H|reflexivity].
Qed.

Lemma round_nearest_even_located mrs a b :
  located mrs a b ->
  shr_m mrs <= round_nearest_even (shr_m mrs) (loc_of_shr_record mrs)
            <= shr_m mrs + 1 /\
  2 * Z.abs (round_nearest_even (shr_m mrs) (loc_of_shr_record mrs) * b - a)
  <= b.
Proof.
  destruct mrs as [m r s]. unfold located. cbn [shr_m shr_r shr_s].
  intros (Hb & Hm & Hin & Hloc).
  destruct r, s; cbn [loc_of_shr_record round_nearest_even].
  - split; [lia|]. nia.
  - destruct (Z.even m); split; try lia; nia.
  - split; [lia|]. nia.
  - split; [lia|]. nia.
Qed.

Lemma Zdigits2_gt m : 0 <= m -> m < 2 ^ Zdigits2 m.
Proof.
  intros Hm. destruct m as [|p|p]; [reflexivity| |lia].
  cbn [Zdigits2]. rewrite digits2_pos_size.
  pose proof (Pos.size_gt p) as H.
  rewrite <- (Pos2Z.inj_pow 2 (Pos.size p)). apply Pos2Z.pos_lt_pos. exact H.
Qed.

Lemma Zdigits2_nonneg m : 0 <= Zdigits2 m.
Proof. destruct m; simpl; lia. Qed.

(** The result of a rounding, in units of [2 ^ - K]: it is away from the
    quotient [a / b], taken in units of [2 ^ ex], by half a unit of its
    last place at most. *)
Lemma binary_round_aux_error K sx mx ex lx a b :
  - K <= ex ->
  located (shr_record_of_loc mx lx) a b ->
  let E := Z.max ex (fexp 53 1024 (Zdigits2 mx + ex)) in
  match binary_round_aux 53 1024 sx mx ex lx with
  | S754_zero _ => 2 * (a * 2 ^ (ex + K)) <= b * 2 ^ (E + K)
  | S754_finite s m e =>
      s = sx /\ E <= e <= E + 1 /\ Zpos m < 2 ^ 53 /\
      2 * Z.abs (Zpos m * 2 ^ (e + K) * b - a * 2 ^ (ex + K))
      <= b * 2 ^ (E + K)
  | S754_infinity _ => 970 < E
  | S754_nan => False
  end.
Proof.
  intros HK Hloc E.
  assert (Hmx : 0 <= mx).
  { destruct Hloc as (_ & H & _). rewrite shr_record_of_loc_m in H. exact H. }
  assert (Hb : 0 < b) by (destruct Hloc as (H & _); exact H).
  assert (Hup : a < (mx + 1) * b).
  { destruct Hloc as (_ & _ & H & _). rewrite shr_record_of_loc_m in H. lia. }
  unfold binary_round_aux, shr_fexp.
  set (d := Zdigits2 mx).
  pose proof (Zdigits2_gt mx Hmx) as Hd. fold d in Hd.
  pose proof (Zdigits2_nonneg mx) as Hd0. fold d in Hd0.
  set (n := fexp 53 1024 (d + ex) - ex).
  pose proof (shr_located (shr_record_of_loc mx lx) ex n a b Hloc)
    as [Hloc1 He1].
  destruct (shr (shr_record_of_loc mx lx) ex n) as [mrs1 e1].
  cbn [fst snd] in Hloc1, He1.
  assert (HE : e1 = E) by (unfold E, n in *; fold d; lia).
  clear He1.
  assert (Hmin : -1074 <= E) by (unfold E, fexp, emin; lia).
  assert (Hex : ex <= E) by (unfold E; lia).
  assert (Hn0 : 0 <= Z.max 0 n) by lia.
  set (B := b * 2 ^ Z.max 0 n) in *.
  assert (Hpn : 0 < 2 ^ Z.max 0 n) by (apply Z.pow_pos_nonneg; lia).
  (* the mantissa after the shift has 53 bits at most *)
  assert (Hm1 : 0 <= shr_m mrs1 < 2 ^ 53).
  { destruct Hloc1 as (_ & H0 & Hin & _). split; [exact H0|].
    destruct (Z.lt_ge_cases (shr_m mrs1) (2 ^ 53)) as [Hlt|Hge]; [exact Hlt|].
    exfalso.
    assert (H1 : shr_m mrs1 * 2 ^ Z.max 0 n < mx + 1).
    { unfold B in Hin. nia. }
    assert (H2 : 2 ^ 53 * 2 ^ Z.max 0 n <= shr_m mrs1 * 2 ^ Z.max 0 n)
      by nia.
    rewrite <- Z.pow_add_r in H2 by lia.
    assert (H3 : 2 ^ d <= 2 ^ (53 + Z.max 0 n)).
    { apply Z.pow_le_mono_r; [lia|]. unfold n, fexp, emin. lia. }
    lia. }
  pose proof (round_nearest_even_located mrs1 a B Hloc1) as [Hr Herr].
  set (mr := round_nearest_even (shr_m mrs1) (loc_of_shr_record mrs1)) in *.
  (* in units of [2 ^ - K] *)
  assert (Hscale : b * 2 ^ (E + K) = B * 2 ^ (ex + K)).
  { unfold B. rewrite <- Z.mul_assoc, <- Z.pow_add_r by lia.
    f_equal. f_equal. unfold E, n in *. fold d. lia. }
  assert (Hpk : 0 < 2 ^ (ex + K)) by (apply Z.pow_pos_nonneg; lia).
  assert (Herr' : 2 * Z.abs (mr * 2 ^ (E + K) * b - a * 2 ^ (ex + K))
                  <= b * 2 ^ (E + K)).
  { replace (mr * 2 ^ (E + K) * b) with (mr * (b * 2 ^ (E + K))) by ring.
    rewrite Hscale.
    replace (mr * (B * 2 ^ (ex + K)) - a * 2 ^ (ex + K))
      with ((mr * B - a) * 2 ^ (ex + K)) by ring.
    rewrite Z.abs_mul, (Z.abs_eq (2 ^ (ex + K))) by lia. nia. }
  clearbody mr. subst e1. clearbody E.
  destruct (Z.eq_dec mr (2 ^ 53)) as [Hfull|Hnot].
  - (* the rounding carried into the next binade *)
    subst mr.
    change (Zdigits2 (2 ^ 53)) with 54.
    replace (fexp 53 1024 (54 + E) - E) with 1 by (unfold fexp, emin; lia).
    cbn [shr_record_of_loc shr iter_pos shr_1 shr_m].
    change (2 ^ 53) with 9007199254740992.
    cbn [shr_1 shr_m].
    destruct (Z.leb_spec (E + 1) (1024 - 53)) as [Hfit|Hover]; [|lia].
    split; [reflexivity|]. split; [lia|]. split; [reflexivity|].
    replace (E + 1 + K) with (1 + (E + K)) by ring.
    rewrite Z.pow_add_r by lia.
    change (2 ^ 1) with 2.
    change (2 ^ 53) with 9007199254740992 in Herr'.
    replace (4503599627370496 * (2 * 2 ^ (E + K)) * b)
      with (9007199254740992 * 2 ^ (E + K) * b) by ring.
    exact Herr'.
  - assert (Hlt : 0 <= mr < 2 ^ 53) by lia.
    pose proof (Zdigits2_bound mr 53 ltac:(lia) Hlt) as Hdr.
    replace (shr (shr_record_of_loc mr loc_Exact) E
               (fexp 53 1024 (Zdigits2 mr + E) - E))
      with (shr_record_of_loc mr loc_Exact, E).
    2:{ destruct (fexp 53 1024 (Zdigits2 mr + E) - E) as [|q|q] eqn:Hq;
          try reflexivity.
        exfalso. unfold fexp, emin in Hq. lia. }
    cbn [shr_record_of_loc shr_m].
    destruct mr as [|p|p]; [| |lia].
    + assert (Ha : 0 <= a * 2 ^ (ex + K)).
      { destruct Hloc as (_ & _ & Hin & _).
        rewrite shr_record_of_loc_m in Hin. nia. }
      lia.
    + destruct (Z.leb_spec E (1024 - 53)) as [Hfit|Hover]; [|lia].
      split; [reflexivity|]. split; [lia|]. split; [lia|]. exact Herr'.
Qed.

Lemma Zdigits2_le m : 0 < m -> 2 ^ (Zdigits2 m - 1) <= m.
Proof.
  intros Hm. destruct m as [|p|p]; [lia| |lia].
  cbn [Zdigits2]. rewrite digits2_pos_size.
  pose proof (Pos.size_le p) as H.
  assert (H2 : 2 ^ Zpos (Pos.size p) <= 2 * Zpos p).
  { change (2 * Zpos p) with (Zpos p~0).
    rewrite <- (Pos2Z.inj_pow 2 (Pos.size p)). apply Pos2Z.pos_le_pos.
    exact H. }
  replace (Zpos (Pos.size p)) with (Z.succ (Zpos (Pos.size p) - 1)) in H2
    by lia.
  rewrite Z.pow_succ_r in H2 by lia. lia.
Qed.

Lemma new_location_located q r b :
  0 <= q -> 0 <= r < b -> Z.even b = true ->
  located (shr_record_of_loc q (new_location b r)) (q * b + r) b.
Proof.
  intros Hq Hr Hb. unfold new_location. rewrite Hb.
  unfold new_location_even, located.
  destruct (Z.eqb_spec r 0) as [Hr0|Hr0].
  - cbn [shr_record_of_loc shr_m shr_r shr_s]. lia.
  - destruct (Z.compare_spec (2 * r) b) as [Heq|Hlt|Hgt];
      cbn [shr_record_of_loc shr_m shr_r shr_s]; lia.
Qed.

(** The quotient of a number of microseconds by a million, as a binary64
    number in units of [2 ^ -73]. *)
Lemma int_true_divide_error p sx :
  Zpos p < 2 ^ 58 ->
  match SFdiv 53 1024 (S754_finite sx p 0) (S754_finite false 1000000 0) with
  | S754_finite s m e =>
      s = sx /\ -73 <= e <= -13 /\ Zpos m < 2 ^ 53 /\
      2 * Z.abs (Zpos m * 2 ^ (e + 73) * 1000000 - Zpos p * 2 ^ 73)
      <= 1000000 * 2 ^ 59
  | _ => False
  end.
Proof.
  intros Hp. cbn [SFdiv]. rewrite xorb_false_r. unfold SFdiv_core_binary.
  pose proof (Zdigits2_bound (Zpos p) 58 ltac:(lia) ltac:(lia)) as Hd.
  pose proof (Zdigits2_le (Zpos p) ltac:(lia)) as Hlow.
  pose proof (Zdigits2_gt (Zpos p) ltac:(lia)) as Hhigh.
  assert (Hd1 : 1 <= Zdigits2 (Zpos p)) by (simpl; lia).
  change (Zdigits2 1000000) with 20.
  set (d := Zdigits2 (Zpos p)) in *.
  replace (Z.min (fexp 53 1024 (d + 0 - (20 + 0))) (0 - 0)) with (d - 73)
    by (unfold fexp, emin; lia).
  replace (0 - 0 - (d - 73)) with (73 - d) by lia.
  destruct (73 - d) as [|s|s] eqn:Hs; [lia| |lia].
  rewrite Z.shiftl_mul_pow2 by lia.
  pose proof (Z.div_eucl_eq (Zpos p * 2 ^ Zpos s) 1000000 ltac:(lia)) as Heq.
  pose proof (Z.mod_pos_bound (Zpos p * 2 ^ Zpos s) 1000000 ltac:(lia)) as Hr.
  unfold Z.modulo in Hr.
  destruct (Z.div_eucl (Zpos p * 2 ^ Zpos s) 1000000) as [q r].
  assert (Hpow : 0 < 2 ^ Zpos s) by (apply Z.pow_pos_nonneg; lia).
  assert (Hsplit : 2 ^ d * 2 ^ Zpos s = 2 ^ 73).
  { rewrite <- Z.pow_add_r by lia. f_equal. lia. }
  assert (Hq : 0 <= q < 2 ^ 54).
  { assert (Hprod : Zpos p * 2 ^ Zpos s < 2 ^ 73) by nia.
    change (2 ^ 73) with 9444732965739290427392 in Hprod.
    change (2 ^ 54) with 18014398509481984. split; nia. }
  pose proof (Zdigits2_bound q 54 ltac:(lia) Hq) as Hdq.
  pose proof (new_location_located q r 1000000 ltac:(lia) Hr eq_refl)
    as Hloc.
  replace (q * 1000000 + r) with (Zpos p * 2 ^ Zpos s) in Hloc by lia.
  pose proof (binary_round_aux_error 73 sx q (d - 73)
                (new_location 1000000 r) (Zpos p * 2 ^ Zpos s) 1000000
                ltac:(lia) Hloc) as Herr.
  cbv zeta in Herr.
  set (E := Z.max (d - 73) (fexp 53 1024 (Zdigits2 q + (d - 73)))) in *.
  assert (HE : d - 73 <= E <= d - 72) by (unfold E, fexp, emin; lia).
  clearbody E.
  assert (Hunits : Zpos p * 2 ^ Zpos s * 2 ^ (d - 73 + 73) = Zpos p * 2 ^ 73).
  { replace (d - 73 + 73) with d by ring.
    rewrite <- Hsplit. ring. }
  rewrite Hunits in Herr.
  assert (Hunit : 2 ^ (E + 73) <= 2 * 2 ^ d).
  { rewrite <- Z.pow_succ_r by lia. apply Z.pow_le_mono_r; lia. }
  assert (Htop : 2 ^ d <= 2 ^ 58) by (apply Z.pow_le_mono_r; lia).
  assert (Hlow' : 2 ^ d <= 2 * Zpos p).
  { replace d with (Z.succ (d - 1)) by lia.
    rewrite Z.pow_succ_r by lia. lia. }
  assert (Hpd : 0 < 2 ^ d) by (apply Z.pow_pos_nonneg; lia).
  destruct (binary_round_aux 53 1024 sx q (d - 73) (new_location 1000000 r))
    as [s0|s0| |s0 m e].
  - change (2 ^ 73) with 9444732965739290427392 in Herr. lia.
  - lia.
  - exact Herr.
  - destruct Herr as (Hsign & He & Hm & Hbound).
    split; [exact Hsign|]. split; [lia|]. split; [exact Hm|].
    change (2 ^ 59) with (2 * 2 ^ 58). lia.
Qed.

Lemma float_mul_1000_error sx m e :
  -73 <= e <= -13 -> Zpos m < 2 ^ 53 ->
  match float_mul_int (S754_finite sx m e) 1000 with
  | S754_finite s my ey =>
      s = sx /\ -73 <= ey <= -2 /\
      2 * Z.abs (Zpos my * 2 ^ (ey + 73) - 1000 * (Zpos m * 2 ^ (e + 73)))
      <= 2 ^ 70
  | _ => False
  end.
Proof.
  intros He Hm. unfold float_mul_int. cbn [exact_int SFmul].
  rewrite Z.add_0_r, xorb_false_r. rewrite Pos2Z.inj_mul.
  assert (Hloc : located (shr_record_of_loc (Zpos m * 1000) loc_Exact)
                   (Zpos m * 1000) 1).
  { unfold located. cbn [shr_record_of_loc shr_m shr_r shr_s]. lia. }
  pose proof (binary_round_aux_error 73 sx (Zpos m * 1000) e loc_Exact
                (Zpos m * 1000) 1 ltac:(lia) Hloc) as Herr.
  cbv zeta in Herr.
  assert (Hprod : 0 <= Zpos m * 1000 < 2 ^ 63).
  { change (2 ^ 63) with (2 ^ 53 * 1024). lia. }
  pose proof (Zdigits2_bound _ 63 ltac:(lia) Hprod) as Hd.
  set (E := Z.max e (fexp 53 1024 (Zdigits2 (Zpos m * 1000) + e))) in *.
  assert (HE : e <= E <= e + 10) by (unfold E, fexp, emin; lia).
  clearbody E.
  assert (Hpe : 0 < 2 ^ (e + 73)) by (apply Z.pow_pos_nonneg; lia).
  assert (Hunit : 2 ^ (E + 73) <= 2 ^ (e + 73) * 1024).
  { change 1024 with (2 ^ 10). rewrite <- Z.pow_add_r by lia.
    apply Z.pow_le_mono_r; lia. }
  assert (Htop : 2 ^ (E + 73) <= 2 ^ 70)
    by (apply Z.pow_le_mono_r; lia).
  destruct (binary_round_aux 53 1024 sx (Zpos m * 1000) e loc_Exact)
    as [s0|s0| |s0 my ey].
  - nia.
  - lia.
  - exact Herr.
  - destruct Herr as (Hsign & Hey & _ & Hbound).
    split; [exact Hsign|]. split; [lia|].
    replace (Zpos my * 2 ^ (ey + 73) - 1000 * (Zpos m * 2 ^ (e + 73)))
      with (Zpos my * 2 ^ (ey + 73) * 1 - Zpos m * 1000 * 2 ^ (e + 73))
      by ring.
    lia.
Qed.

Lemma round_half_even_error m e :
  -73 <= e < 0 ->
  2 * Z.abs (round_half_even m e * 2 ^ 73 - m * 2 ^ (e + 73)) <= 2 ^ 73.
Proof.
  intros He. unfold round_half_even.
  destruct (Z.leb_spec 0 e) as [Hpos|Hneg]; [lia|]. cbv zeta.
  assert (Hd : 0 < 2 ^ (- e)) by (apply Z.pow_pos_nonneg; lia).
  assert (Hsplit : 2 ^ (- e) * 2 ^ (e + 73) = 2 ^ 73).
  { rewrite <- Z.pow_add_r by lia. f_equal. lia. }
  assert (Hu : 0 < 2 ^ (e + 73)) by (apply Z.pow_pos_nonneg; lia).
  pose proof (Z.div_mod m (2 ^ (- e)) ltac:(lia)) as Hdiv.
  pose proof (Z.mod_pos_bound m (2 ^ (- e)) Hd) as Hmod.
  set (d := 2 ^ (- e)) in *. set (q := m / d) in *. set (r := m mod d) in *.
  set (u := 2 ^ (e + 73)) in *.
  assert (Hgoal : forall z, 2 * Z.abs (z * d - m) <= d ->
            2 * Z.abs (z * 2 ^ 73 - m * u) <= 2 ^ 73).
  { intros z Hz. rewrite <- Hsplit.
    replace (z * (d * u) - m * u) with ((z * d - m) * u) by ring.
    rewrite Z.abs_mul, (Z.abs_eq u) by lia. nia. }
  apply Hgoal.
  destruct (Z.compare_spec (2 * r) d) as [Heq|Hlt|Hgt].
  - destruct (Z.even q); lia.
  - lia.
  - lia.
Qed.

Lemma microseconds_range t :
  datetime_valid t ->
  Z.abs (microseconds_since_epoch (replace_tzinfo t timezone_utc)) < 2 ^ 58.
Proof.
  intros (Hd & Hh & Hm & Hs & Hus). unfold date_valid, MAXORDINAL in Hd.
  unfold microseconds_since_epoch, offset_of, EPOCH_ORDINAL. simpl.
  change (2 ^ 58) with 288230376151711744. lia.
Qed.

(** [round(timestamp * 1000)] on a number of microseconds. *)
Lemma js_round_error us :
  Z.abs us < 2 ^ 58 ->
  exists z,
    py_round (float_mul_int (int_true_divide us 1000000) 1000) = Ok z /\
    Z.abs (1000 * z - us) <= 593.
Proof.
  intros Hus.
  assert (Hcore : forall p sx, Zpos p < 2 ^ 58 ->
            exists z,
              py_round
                (float_mul_int
                   (SFdiv 53 1024 (S754_finite sx p 0)
                      (S754_finite false 1000000 0)) 1000)
              = Ok (if sx then - z else z) /\
              Z.abs (1000 * z - Zpos p) <= 593).
  { intros p sx Hp.
    pose proof (int_true_divide_error p sx Hp) as Hdiv.
    destruct (SFdiv 53 1024 (S754_finite sx p 0)
                (S754_finite false 1000000 0))
      as [s0|s0| |s0 m e]; try contradiction.
    destruct Hdiv as (Hsign & He & Hm & Hdiv). subst s0.
    pose proof (float_mul_1000_error sx m e He Hm) as Hmul.
    destruct (float_mul_int (S754_finite sx m e) 1000)
      as [s1|s1| |s1 my ey]; try contradiction.
    destruct Hmul as (Hsign & Hey & Hmul). subst s1.
    pose proof (round_half_even_error (Zpos my) ey ltac:(lia)) as Hround.
    exists (round_half_even (Zpos my) ey). split; [reflexivity|].
    set (z := round_half_even (Zpos my) ey) in *.
    set (X := Zpos m * 2 ^ (e + 73)) in *.
    set (Y := Zpos my * 2 ^ (ey + 73)) in *.
    change (2 ^ 73) with 9444732965739290427392 in *.
    change (2 ^ 70) with 1180591620717411303424 in *.
    change (2 ^ 59) with 576460752303423488 in *.
    replace (Zpos m * 2 ^ (e + 73) * 1000000) with (X * 1000000) in Hdiv
      by reflexivity.
    lia. }
  unfold int_true_divide.
  destruct us as [|p|p]; cbn [exact_int].
  - exists 0. split; [reflexivity|]. cbn. lia.
  - destruct (Hcore p false ltac:(lia)) as [z [Hz Hb]].
    exists z. split; [exact Hz|exact Hb].
  - destruct (Hcore p true ltac:(lia)) as [z [Hz Hb]].
    exists (- z). split; [exact Hz|]. lia.
Qed.

(** X16.  For every instant of the calendar 'js' gives an integer that is
    within 0.593 milliseconds of the instant: the two roundings of
    [timestamp() * 1000] in binary64 and the rounding to an integer never
    add up to a whole millisecond.  The integer is the number of whole
    milliseconds since the epoch or the next one, and it is exact for an
    instant that has no fraction of a millisecond. *)
Theorem js_milliseconds_accuracy t :
  datetime_valid t ->
  exists z,
    render "js" (Some t) = Ok (PyInt z) /\
    Z.abs (1000 * z - wall_clock t) <= 593 /\
    wall_clock t / 1000 <= z <= wall_clock t / 1000 + 1 /\
    (wall_clock t mod 1000 = 0 -> z = wall_clock t / 1000).
Proof.
  intros Ht.
  pose proof (microseconds_range t Ht) as Hrange.
  assert (Hus : microseconds_since_epoch (replace_tzinfo t timezone_utc)
                = wall_clock t).
  { unfold microseconds_since_epoch, wall_clock, offset_of. simpl. lia. }
  rewrite Hus in Hrange.
  destruct (js_round_error (wall_clock t) Hrange) as [z [Hz Hb]].
  exists z. split.
  - cbn [render String.eqb Ascii.eqb Bool.eqb].
    unfold timestamp, total_seconds. rewrite total_microseconds, Hus, Hz.
    reflexivity.
  - split; [exact Hb|].
    pose proof (Z.div_mod (wall_clock t) 1000 ltac:(lia)) as Hdiv.
    pose proof (Z.mod_pos_bound (wall_clock t) 1000 ltac:(lia)) as Hmod.
    split; [lia|]. intros Hwhole. lia.
Qed.

(** *** Instants near the epoch

    The two lemmas above again, for a quotient of at most [k] bits and
    an exponent of at most [j]. *)




(** ** Rendering of an instant *)

Section RenderingFacts.

Variable L : libraries.


End RenderingFacts.

(** ** [parse_date] *)

(** X17.  [parse_date] reads a text that starts with the four digits of
    a year, the two of a month and the two of a day of that month as the
    date with these fields, whatever follows the eight digits; the ISO
    text of that date shows the same digits. *)
Theorem parse_date_reads_fields app_abort y m d rest :
  check_date_fields y m d = true ->
  parse_date app_abort
    (PyStr (zero_padded 4 y ++ zero_padded 2 m ++ zero_padded 2 d ++ rest))
  = Ok (date_of_ymd y m d) /\
  ord2ymd (toordinal (date_of_ymd y m d)) = (y, m, d) /\
  date_isoformat (date_of_ymd y m d)
  = zero_padded 4 y ++ "-" ++ zero_padded 2 m ++ "-" ++ zero_padded 2 d.
Proof.
  intros H. split; [|split].
  - apply parse_date_fields. exact H.
  - apply ymd2ord_ord2ymd. exact H.
  - apply date_isoformat_fields. exact H.
Qed.

(** X18.  Every date of the calendar is what [parse_date] returns for
    the eight digits of its year, month and day. *)
Theorem parse_date_reaches_every_date app_abort day :
  date_valid day ->
  exists y m d,
    ord2ymd (toordinal day) = (y, m, d) /\
    parse_date app_abort
      (PyStr (zero_padded 4 y ++ zero_padded 2 m ++ zero_padded 2 d))
    = Ok day.
Proof.
  intros Hday. pose proof (ord2ymd_ymd2ord _ Hday) as Hfields.
  destruct (ord2ymd (toordinal day)) as [[y m] d].
  destruct Hfields as [Hc Hord].
  exists y, m, d. split; [reflexivity|].
  rewrite <- (string_app_empty (zero_padded 2 d)).
  rewrite (parse_date_fields app_abort y m d "" Hc).
  unfold date_of_ymd. rewrite Hord. destruct day; reflexivity.
Qed.

(** X19.  An argument that has no slices, which is the case of [None],
    of a truth value, of a number and of a datetime, makes [parse_date]
    raise [TypeError]: the handler, written for
    [ValueError or TypeError], catches [ValueError] alone, and
    [app.abort] is not called. *)
Theorem parse_date_no_slices app_abort day :
  day = PyNone \/ (exists b, day = PyBool b) \/ (exists z, day = PyInt z)
  \/ (exists t, day = PyDatetime t) ->
  parse_date app_abort day = Raise TypeError.
Proof.
  intros [->|[[b ->]|[[z ->]|[t ->]]]]; reflexivity.
Qed.

(** X20.  A date that [parse_date] returns for a text is a date of the
    calendar whose year, month and day are the numbers that [int] reads
    in the characters 0 to 3, 4 and 5, 6 and 7 of the text; the text has
    seven characters at least. *)
Theorem parse_date_result app_abort s output :
  parse_date app_abort (PyStr s) = Ok output ->
  (7 <= String.length s)%nat /\
  exists y m d,
    py_int (slice s 0 4) = Ok y /\
    py_int (slice s 4 6) = Ok m /\
    py_int (slice s 6 8) = Ok d /\
    check_date_fields y m d = true /\
    output = date_of_ymd y m d /\
    date_valid output /\
    ord2ymd (toordinal output) = (y, m, d).
Proof.
  intros H.
  rewrite parse_date_text in H.
  assert (Hhandler : outcome_bind (app_abort 500)
                       (fun _ => Raise UnboundLocalError)
                     <> Ok output).
  { destruct (app_abort 500); discriminate. }
  destruct (py_int (slice s 0 4)) as [y|] eqn:Hy; [|contradiction].
  destruct (py_int (slice s 4 6)) as [m|] eqn:Hm; [|contradiction].
  destruct (py_int (slice s 6 8)) as [d|] eqn:Hd; [|contradiction].
  destruct (check_date_fields y m d) eqn:Hc; [|contradiction].
  assert (Hout : output = date_of_ymd y m d) by congruence.
  subst output.
  split.
  - destruct (Nat.le_gt_cases 7 (String.length s)) as [Hlen|Hlen];
      [exact Hlen|].
    exfalso. unfold slice in Hd.
    rewrite substring_length_short in Hd by lia.
    discriminate.
  - exists y, m, d. repeat split; try assumption; try reflexivity.
    + apply (ymd2ord_valid _ _ _ Hc).
    + apply (ymd2ord_valid _ _ _ Hc).
    + apply ymd2ord_ord2ymd. exact Hc.
Qed.

(** X21.  On text [parse_date] has two ways out: it returns a date, or
    it calls [app.abort(500)].  What [app.abort] raises is raised; if it
    returns, [return output] raises [UnboundLocalError].  No text gets
    past the handler with another exception, and none gives a value that
    is not a date. *)
Theorem parse_date_handler app_abort s :
  (exists output, parse_date app_abort (PyStr s) = Ok output) \/
  parse_date app_abort (PyStr s)
  = match app_abort 500 with
    | Ok _ => Raise UnboundLocalError
    | Raise e => Raise e
    end.
Proof.
  rewrite parse_date_text.
  destruct (py_int (slice s 0 4)) as [y|]; [|right; reflexivity].
  destruct (py_int (slice s 4 6)) as [m|]; [|right; reflexivity].
  destruct (py_int (slice s 6 8)) as [d|]; [|right; reflexivity].
  destruct (check_date_fields y m d); [|right; reflexivity].
  left. eexists. reflexivity.
Qed.

Lemma digit_not_space_bytes c d :
  digit_value c = Some d -> is_space_bytes c = false.
Proof.
  unfold digit_value, is_space_bytes. cbv zeta.
  set (n := Z.of_nat (nat_of_ascii c)).
  destruct (Z.leb_spec 48 n); [|discriminate].
  destruct (Z.leb_spec n 57); [|discriminate].
  intros _.
  destruct (Z.leb_spec 9 n); destruct (Z.leb_spec n 13);
  destruct (Z.eqb_spec n 32); cbn; try reflexivity; lia.
Qed.

(** [int] reads bytes that are digits as the number they write. *)
Lemma py_int_bytes_natural s v : natural s = Some v -> py_int_bytes s = Ok v.
Proof.
  unfold natural, py_int_bytes. destruct s as [|c s]; [discriminate|].
  intros Hv.
  assert (Hc : exists d, digit_value c = Some d).
  { cbn [digits_value] in Hv. destruct (digit_value c) as [d|];
      [exists d; reflexivity|discriminate]. }
  destruct Hc as [d Hd].
  cbn [lstrip_bytes]. rewrite (digit_not_space_bytes _ _ Hd).
  destruct (digit_not_sign _ _ Hd) as [Hplus Hminus].
  assert (Hsigned : signed (String c s) = (false, String c s)).
  { unfold signed.
    destruct c as [[] [] [] [] [] [] [] []]; try reflexivity;
      exfalso; first [now apply Hminus | now apply Hplus]. }
  rewrite Hsigned, Hd.
  rewrite (scan_digits_digits _ zero 0 v Hv) by (left; discriminate).
  reflexivity.
Qed.

(** X22.  [parse_date] reads a [bytes] or [bytearray] object as it reads
    text: bytes that start with the four digits of a year, the two of a
    month and the two of a day of that month give the date with these
    fields, whatever follows the eight digits. *)
Theorem parse_date_reads_bytes app_abort y m d rest :
  check_date_fields y m d = true ->
  parse_date app_abort
    (PyBytes (zero_padded 4 y ++ zero_padded 2 m ++ zero_padded 2 d ++ rest))
  = Ok (date_of_ymd y m d) /\
  parse_date app_abort
    (PyBytes (zero_padded 4 y ++ zero_padded 2 m ++ zero_padded 2 d ++ rest))
  = parse_date app_abort
      (PyStr (zero_padded 4 y ++ zero_padded 2 m ++ zero_padded 2 d ++ rest)).
Proof.
  intros H.
  assert (Hbytes : parse_date app_abort
                     (PyBytes (zero_padded 4 y ++ zero_padded 2 m
                               ++ zero_padded 2 d ++ rest))
                   = Ok (date_of_ymd y m d)).
  { pose proof H as Hc. apply check_date_fields_spec in Hc.
    destruct Hc as [Hy [Hm Hd]].
    pose proof (days_in_month_le y m Hm) as H31.
    destruct (slices_of_fields (zero_padded 4 y) (zero_padded 2 m)
                (zero_padded 2 d) rest) as [Hsy [Hsm Hsd]];
      try apply zero_padded_length.
    unfold parse_date. cbv zeta. rewrite Hsy, Hsm, Hsd.
    rewrite (py_int_bytes_natural _ _
               (natural_zero_padded 4 y ltac:(lia) ltac:(simpl; lia))).
    rewrite (py_int_bytes_natural _ _
               (natural_zero_padded 2 m ltac:(lia) ltac:(simpl; lia))).
    rewrite (py_int_bytes_natural _ _
               (natural_zero_padded 2 d ltac:(lia) ltac:(simpl; lia))).
    cbn [outcome_bind]. unfold date_new.
    assert (Hfits : fits_int y && fits_int m && fits_int d = true).
    { unfold fits_int. rewrite !andb_true_iff, !Z.leb_le. lia. }
    rewrite Hfits, H. reflexivity. }
  split; [exact Hbytes|].
  rewrite Hbytes. symmetry. apply parse_date_fields. exact H.
Qed.

(** * The further properties on the samples *)

(** London on 2024-06-20, sunrise asked for as 'js'. *)
Lemma calculate_sunrise_value_kinds_witness :
  calculate_sunrise Almanac.libs (date_of_ymd 2024 6 20) (PyStr "-0:34")
    (PyBool true) "js"
    (mkworld (station 0 (PyStr "51.5") (PyStr "-0.13")) [])
  = (Ok (PyInt 1718854992346),
     mkworld
       (site (PyStr "51.5") (PyStr "-0.13") (date_of_ymd 2024 6 20) "-0:34")
       [mkcall true
          (site (PyStr "51.5") (PyStr "-0.13") (date_of_ymd 2024 6 20)
                "-0:34")]) /\
  angle_error Almanac.libs (PyStr "-0:34") = None /\
  "js" = "js" /\
  exists t,
    solver Almanac.libs (is_True (PyBool true))
      (aimed (location (mkworld (station 0 (PyStr "51.5") (PyStr "-0.13")) []))
             (date_of_ymd 2024 6 20) (PyStr "-0:34"))
    = Crossing t /\
    py_round (float_mul_int (timestamp (replace_tzinfo t timezone_utc)) 1000)
    = Ok 1718854992346.
Proof.
  assert (Hrun :
            calculate_sunrise Almanac.libs (date_of_ymd 2024 6 20)
              (PyStr "-0:34") (PyBool true) "js"
              (mkworld (station 0 (PyStr "51.5") (PyStr "-0.13")) [])
            = (Ok (PyInt 1718854992346),
               mkworld
                 (site (PyStr "51.5") (PyStr "-0.13") (date_of_ymd 2024 6 20)
                       "-0:34")
                 [mkcall true
                    (site (PyStr "51.5") (PyStr "-0.13")
                          (date_of_ymd 2024 6 20) "-0:34")])).
  { vm_compute. reflexivity. }
  split; [exact Hrun|].
  exact (calculate_sunrise_value_kinds Almanac.libs _ _ _ _ _ _ _ Hrun).
Defined.

(** London on 2024-06-20 with the default of [dawn], the text 'True': the
    value is civil dusk, not civil dawn. *)
Lemma calculate_sunrise_dawn_not_True_witness :
  PyStr "True" <> PyBool true /\
  angle_error Almanac.libs (PyStr "-6") = None /\
  calculate_sunrise Almanac.libs (date_of_ymd 2024 6 20) (PyStr "-6")
    (PyStr "True") "iso"
    (mkworld (station 0 (PyStr "51.5") (PyStr "-0.13")) [])
  = (Ok (PyStr "2024-06-20T21:05:01+00:00"),
     mkworld
       (site (PyStr "51.5") (PyStr "-0.13") (date_of_ymd 2024 6 20) "-6")
       [mkcall false
          (site (PyStr "51.5") (PyStr "-0.13") (date_of_ymd 2024 6 20)
                "-6")]).
Proof.
  assert (Hdawn : PyStr "True" <> PyBool true) by discriminate.
  assert (Hangle : angle_error Almanac.libs (PyStr "-6") = None)
    by reflexivity.
  split; [exact Hdawn|]. split; [exact Hangle|].
  rewrite (calculate_sunrise_dawn_not_True Almanac.libs
             (date_of_ymd 2024 6 20) (PyStr "-6") (PyStr "True") "iso"
             (mkworld (station 0 (PyStr "51.5") (PyStr "-0.13")) [])
             Hdawn Hangle).
  vm_compute. reflexivity.
Defined.

(** The failing solver on 2016-06-02. *)
Lemma calculate_sunrise_solver_error_witness :
  angle_error Outage.libs (PyStr "-6") = None /\
  solver Outage.libs (is_True (PyBool true))
    (aimed (location (mkworld (station 0 (PyStr "51.5") (PyStr "-0.13")) []))
           (date_of_ymd 2016 6 2) (PyStr "-6"))
  = Fault (LibraryError "RuntimeError") /\
  calculate_sunrise Outage.libs (date_of_ymd 2016 6 2) (PyStr "-6")
    (PyBool true) "iso"
    (mkworld (station 0 (PyStr "51.5") (PyStr "-0.13")) [])
  = (Raise (LibraryError "RuntimeError"),
     mkworld
       (aimed (location (mkworld (station 0 (PyStr "51.5") (PyStr "-0.13"))
                                 []))
              (date_of_ymd 2016 6 2) (PyStr "-6"))
       (solver_trace (mkworld (station 0 (PyStr "51.5") (PyStr "-0.13")) [])
        ++ [mkcall (is_True (PyBool true))
              (aimed (location (mkworld (station 0 (PyStr "51.5")
                                                 (PyStr "-0.13")) []))
                     (date_of_ymd 2016 6 2) (PyStr "-6"))])%list).
Proof.
  assert (Hangle : angle_error Outage.libs (PyStr "-6") = None)
    by reflexivity.
  assert (Hsolver :
            solver Outage.libs (is_True (PyBool true))
              (aimed (location (mkworld (station 0 (PyStr "51.5")
                                                 (PyStr "-0.13")) []))
                     (date_of_ymd 2016 6 2) (PyStr "-6"))
            = Fault (LibraryError "RuntimeError")).
  { vm_compute. reflexivity. }
  split; [exact Hangle|]. split; [exact Hsolver|].
  exact (calculate_sunrise_solver_error Outage.libs _ _ _ "iso" _ _ Hangle
           Hsolver).
Defined.

(** [None] as a horizon: the almanac's setter raises [TypeError]. *)
Lemma calculate_sunrise_horizon_refused_witness :
  angle_error Almanac.libs PyNone = Some TypeError /\
  calculate_sunrise Almanac.libs (date_of_ymd 2024 6 20) PyNone (PyBool true)
    "iso" (mkworld (station 0 (PyStr "51.5") (PyStr "-0.13")) [])
  = (Raise TypeError,
     mkworld (with_date (station 0 (PyStr "51.5") (PyStr "-0.13"))
                        (midnight (date_of_ymd 2024 6 20))) []) /\
  o_horizon (with_date (station 0 (PyStr "51.5") (PyStr "-0.13"))
                       (midnight (date_of_ymd 2024 6 20)))
  = PyInt 0.
Proof.
  assert (Hangle : angle_error Almanac.libs PyNone = Some TypeError)
    by reflexivity.
  assert (Hrun :
            calculate_sunrise Almanac.libs (date_of_ymd 2024 6 20) PyNone
              (PyBool true) "iso"
              (mkworld (station 0 (PyStr "51.5") (PyStr "-0.13")) [])
            = (Raise TypeError,
               mkworld (with_date (station 0 (PyStr "51.5") (PyStr "-0.13"))
                                  (midnight (date_of_ymd 2024 6 20))) [])).
  { vm_compute. reflexivity. }
  split; [exact Hangle|]. split; [exact Hrun|].
  destruct (calculate_sunrise_horizon_refused Almanac.libs _ _ _ _ _ _ _ _
              Hangle Hrun) as (_ & _ & _ & Hhorizon & _).
  exact Hhorizon.
Defined.

(** Latitude 70 with the output type 'xml': four absent events. *)
Lemma list_times_unknown_output_type_witness :
  "xml" <> "js" /\ "xml" <> "dt" /\ "xml" <> "iso" /\
  fst (list_times Almanac.libs 0 (PyStr "70") (PyStr "20")
         (date_of_ymd 2024 6 21) "xml" Almanac.start)
  = Ok [("civil_dawn", PyNone); ("sunrise", PyNone);
        ("sunset", PyNone); ("civil_dusk", PyNone)].
Proof.
  assert (Hjs : "xml" <> "js") by discriminate.
  assert (Hdt : "xml" <> "dt") by discriminate.
  assert (Hiso : "xml" <> "iso") by discriminate.
  split; [exact Hjs|]. split; [exact Hdt|]. split; [exact Hiso|].
  apply (proj2 (list_times_unknown_output_type Almanac.libs 0 (PyStr "70")
                  (PyStr "20") (date_of_ymd 2024 6 21) "xml" Almanac.start
                  _ Hjs Hdt Hiso)).
  repeat split.
Defined.

(** The days from 2024-02-28 to 2024-03-01. *)
Lemma days_between_spec_witness :
  date_valid (date_of_ymd 2024 2 28) /\
  date_valid (date_of_ymd 2024 3 1) /\
  date_of_ymd 2024 3 1 <> date_max /\
  exists ds,
    days_between (date_of_ymd 2024 2 28) (date_of_ymd 2024 3 1) = Ok ds /\
    (forall d,
       In d ds <->
       date_le (date_of_ymd 2024 2 28) d /\ date_le d (date_of_ymd 2024 3 1))
    /\ NoDup ds /\ chronological ds /\
    Z.of_nat (List.length ds)
    = Z.max 0 (toordinal (date_of_ymd 2024 3 1)
               - toordinal (date_of_ymd 2024 2 28) + 1).
Proof.
  assert (Hs : date_valid (date_of_ymd 2024 2 28)).
  { unfold date_valid. vm_compute. split; discriminate. }
  assert (He : date_valid (date_of_ymd 2024 3 1)).
  { unfold date_valid. vm_compute. split; discriminate. }
  assert (Hne : date_of_ymd 2024 3 1 <> date_max).
  { vm_compute. discriminate. }
  split; [exact Hs|]. split; [exact He|]. split; [exact Hne|].
  exact (proj2 (days_between_spec (date_of_ymd 2024 2 28)
                  (date_of_ymd 2024 3 1) Hs He) Hne).
Defined.

(** Latitude 70 from 2024-06-20 to 2024-06-21: two entries, eight
    solver calls. *)
Lemma sun_entries_witness :
  request_dates Almanac.libs (date_of_ymd 2024 1 1)
    (mkargs (Some "70") (Some "20") (Some "2024-06-20") (Some "2024-06-21")
            None)
  = Ok (date_of_ymd 2024 6 20, date_of_ymd 2024 6 21) /\
  sun Almanac.libs (date_of_ymd 2024 1 1) (fun _ => 0)
    (mkargs (Some "70") (Some "20") (Some "2024-06-20") (Some "2024-06-21")
            None) Almanac.start
  = (Ok (mkresponse (PyStr "70", PyStr "20")
           [mkday_entry "2024-06-20"
              [("civil_dawn", PyNone); ("sunrise", PyNone);
               ("sunset", PyNone); ("civil_dusk", PyNone)];
            mkday_entry "2024-06-21"
              [("civil_dawn", PyNone); ("sunrise", PyNone);
               ("sunset", PyNone); ("civil_dusk", PyNone)]]),
     mkworld (site (PyStr "70") (PyStr "20") (date_of_ymd 2024 6 21) "-6")
       (canonical_calls (PyStr "70") (PyStr "20") (date_of_ymd 2024 6 20)
        ++ canonical_calls (PyStr "70") (PyStr "20")
             (date_of_ymd 2024 6 21))%list) /\
  exists days,
    days_between (date_of_ymd 2024 6 20) (date_of_ymd 2024 6 21) = Ok days /\
    List.length days = 2%nat.
Proof.
  assert (Hdates :
            request_dates Almanac.libs (date_of_ymd 2024 1 1)
              (mkargs (Some "70") (Some "20") (Some "2024-06-20")
                      (Some "2024-06-21") None)
            = Ok (date_of_ymd 2024 6 20, date_of_ymd 2024 6 21)).
  { vm_compute. reflexivity. }
  assert (Hsun :
            sun Almanac.libs (date_of_ymd 2024 1 1) (fun _ => 0)
              (mkargs (Some "70") (Some "20") (Some "2024-06-20")
                      (Some "2024-06-21") None) Almanac.start
            = (Ok (mkresponse (PyStr "70", PyStr "20")
                     [mkday_entry "2024-06-20"
                        [("civil_dawn", PyNone); ("sunrise", PyNone);
                         ("sunset", PyNone); ("civil_dusk", PyNone)];
                      mkday_entry "2024-06-21"
                        [("civil_dawn", PyNone); ("sunrise", PyNone);
                         ("sunset", PyNone); ("civil_dusk", PyNone)]]),
               mkworld
                 (site (PyStr "70") (PyStr "20") (date_of_ymd 2024 6 21) "-6")
                 (canonical_calls (PyStr "70") (PyStr "20")
                    (date_of_ymd 2024 6 20)
                  ++ canonical_calls (PyStr "70") (PyStr "20")
                       (date_of_ymd 2024 6 21))%list)).
  { vm_compute. reflexivity. }
  split; [exact Hdates|]. split; [exact Hsun|].
  destruct (sun_entries Almanac.libs _ _ _ _ _ _ _ _ Hdates Hsun)
    as (days & Hdays & _ & Hall & _).
  exists days. split; [exact Hdays|].
  apply Forall2_length in Hall. exact Hall.
Defined.

(** Latitude 70 on 2024-06-21, no last day named. *)
Lemma sun_single_day_witness :
  arg_end (mkargs (Some "70") (Some "20") (Some "2024-06-21") None None)
  = None /\
  request_dates Almanac.libs (date_of_ymd 2024 1 1)
    (mkargs (Some "70") (Some "20") (Some "2024-06-21") None None)
  = Ok (date_of_ymd 2024 6 21, date_of_ymd 2024 6 21) /\
  date_valid (date_of_ymd 2024 6 21) /\
  sun Almanac.libs (date_of_ymd 2024 1 1) (fun _ => 0)
    (mkargs (Some "70") (Some "20") (Some "2024-06-21") None None)
    Almanac.start
  = (Ok (mkresponse (PyStr "70", PyStr "20")
           [mkday_entry "2024-06-21"
              [("civil_dawn", PyNone); ("sunrise", PyNone);
               ("sunset", PyNone); ("civil_dusk", PyNone)]]),
     mkworld (site (PyStr "70") (PyStr "20") (date_of_ymd 2024 6 21) "-6")
       (canonical_calls (PyStr "70") (PyStr "20") (date_of_ymd 2024 6 21))) /\
  date_of_ymd 2024 6 21 = date_of_ymd 2024 6 21.
Proof.
  assert (Hdates :
            request_dates Almanac.libs (date_of_ymd 2024 1 1)
              (mkargs (Some "70") (Some "20") (Some "2024-06-21") None None)
            = Ok (date_of_ymd 2024 6 21, date_of_ymd 2024 6 21)).
  { vm_compute. reflexivity. }
  assert (Hs : date_valid (date_of_ymd 2024 6 21)).
  { unfold date_valid. vm_compute. split; discriminate. }
  assert (Hsun :
            sun Almanac.libs (date_of_ymd 2024 1 1) (fun _ => 0)
              (mkargs (Some "70") (Some "20") (Some "2024-06-21") None None)
              Almanac.start
            = (Ok (mkresponse (PyStr "70", PyStr "20")
                     [mkday_entry "2024-06-21"
                        [("civil_dawn", PyNone); ("sunrise", PyNone);
                         ("sunset", PyNone); ("civil_dusk", PyNone)]]),
               mkworld
                 (site (PyStr "70") (PyStr "20") (date_of_ymd 2024 6 21) "-6")
                 (canonical_calls (PyStr "70") (PyStr "20")
                    (date_of_ymd 2024 6 21)))).
  { vm_compute. reflexivity. }
  split; [reflexivity|]. split; [exact Hdates|]. split; [exact Hs|].
  split; [exact Hsun|].
  exact (proj1 (sun_single_day Almanac.libs (date_of_ymd 2024 1 1)
                  (fun _ => 0)
                  (mkargs (Some "70") (Some "20") (Some "2024-06-21") None
                          None)
                  _ _ Almanac.start _ _ eq_refl Hdates Hs Hsun)).
Defined.

(** A first day that the parser cannot read. *)
Lemma sun_unreadable_day_witness :
  arg_start (mkargs (Some "51.5") (Some "-0.13") (Some "tomorrow")
                    (Some "2024-06-21") None)
  = Some "tomorrow" /\
  dateutil_parse Almanac.libs "tomorrow" = Raise ValueError /\
  sun Almanac.libs (date_of_ymd 2024 1 1) (fun _ => 0)
    (mkargs (Some "51.5") (Some "-0.13") (Some "tomorrow")
            (Some "2024-06-21") None) Almanac.start
  = (Raise ValueError, Almanac.start).
Proof.
  split; [reflexivity|]. split; [reflexivity|].
  exact (proj1 (sun_unreadable_day Almanac.libs (date_of_ymd 2024 1 1)
                  (fun _ => 0)
                  (mkargs (Some "51.5") (Some "-0.13") (Some "tomorrow")
                          (Some "2024-06-21") None) Almanac.start)
           "tomorrow" ValueError eq_refl eq_refl).
Defined.

(** Latitude 70 from 2016-06-01 to 2016-06-03 with the failing solver:
    the first day is computed, the second day fails at its first call. *)
Lemma sun_first_failing_day_witness :
  request_dates Outage.libs (date_of_ymd 2024 1 1)
    (mkargs (Some "70") (Some "20") (Some "2016-06-01") (Some "2016-06-03")
            None)
  = Ok (date_of_ymd 2016 6 1, date_of_ymd 2016 6 3) /\
  days_between (date_of_ymd 2016 6 1) (date_of_ymd 2016 6 3)
  = Ok [date_of_ymd 2016 6 1; date_of_ymd 2016 6 2; date_of_ymd 2016 6 3] /\
  sun Outage.libs (date_of_ymd 2024 1 1) (fun _ => 0)
    (mkargs (Some "70") (Some "20") (Some "2016-06-01") (Some "2016-06-03")
            None) Almanac.start
  = (Raise (LibraryError "RuntimeError"),
     mkworld (site (PyStr "70") (PyStr "20") (date_of_ymd 2016 6 2) "-6")
       (canonical_calls (PyStr "70") (PyStr "20") (date_of_ymd 2016 6 1)
        ++ [mkcall true
              (site (PyStr "70") (PyStr "20") (date_of_ymd 2016 6 2)
                    "-6")])%list) /\
  exists before day after n,
    [date_of_ymd 2016 6 1; date_of_ymd 2016 6 2; date_of_ymd 2016 6 3]
    = (before ++ day :: after)%list /\
    fst (list_times Outage.libs 0 (PyStr "70") (PyStr "20") day "iso"
           Almanac.start)
    = Raise (LibraryError "RuntimeError") /\
    solver_trace
      (mkworld (site (PyStr "70") (PyStr "20") (date_of_ymd 2016 6 2) "-6")
         (canonical_calls (PyStr "70") (PyStr "20") (date_of_ymd 2016 6 1)
          ++ [mkcall true
                (site (PyStr "70") (PyStr "20") (date_of_ymd 2016 6 2)
                      "-6")])%list)
    = (solver_trace Almanac.start
       ++ flat_map (canonical_calls (PyStr "70") (PyStr "20")) before
       ++ firstn n (canonical_calls (PyStr "70") (PyStr "20") day))%list.
Proof.
  assert (Hdates :
            request_dates Outage.libs (date_of_ymd 2024 1 1)
              (mkargs (Some "70") (Some "20") (Some "2016-06-01")
                      (Some "2016-06-03") None)
            = Ok (date_of_ymd 2016 6 1, date_of_ymd 2016 6 3)).
  { vm_compute. reflexivity. }
  assert (Hdays :
            days_between (date_of_ymd 2016 6 1) (date_of_ymd 2016 6 3)
            = Ok [date_of_ymd 2016 6 1; date_of_ymd 2016 6 2;
                  date_of_ymd 2016 6 3]).
  { vm_compute. reflexivity. }
  assert (Hsun :
            sun Outage.libs (date_of_ymd 2024 1 1) (fun _ => 0)
              (mkargs (Some "70") (Some "20") (Some "2016-06-01")
                      (Some "2016-06-03") None) Almanac.start
            = (Raise (LibraryError "RuntimeError"),
               mkworld
                 (site (PyStr "70") (PyStr "20") (date_of_ymd 2016 6 2) "-6")
                 (canonical_calls (PyStr "70") (PyStr "20")
                    (date_of_ymd 2016 6 1)
                  ++ [mkcall true
                        (site (PyStr "70") (PyStr "20")
                              (date_of_ymd 2016 6 2) "-6")])%list)).
  { vm_compute. reflexivity. }
  split; [exact Hdates|]. split; [exact Hdays|]. split; [exact Hsun|].
  destruct (sun_first_failing_day Outage.libs _ _ _ _ _ _ _ _ _ Hdates Hdays
              Hsun)
    as (before & day & after & n & Hsplit & _ & Hday & Htrace).
  exists before, day, after, n.
  split; [exact Hsplit|]. split; [exact Hday|exact Htrace].
Defined.

(** Latitude 70 from 2024-06-20 to 2024-06-21: two distinct date texts. *)
Lemma sun_dates_distinct_witness :
  request_dates Almanac.libs (date_of_ymd 2024 1 1)
    (mkargs (Some "70") (Some "20") (Some "2024-06-20") (Some "2024-06-21")
            (Some "js"))
  = Ok (date_of_ymd 2024 6 20, date_of_ymd 2024 6 21) /\
  date_valid (date_of_ymd 2024 6 20) /\
  date_valid (date_of_ymd 2024 6 21) /\
  sun Almanac.libs (date_of_ymd 2024 1 1) (fun _ => 0)
    (mkargs (Some "70") (Some "20") (Some "2024-06-20") (Some "2024-06-21")
            (Some "js")) Almanac.start
  = (Ok (mkresponse (PyStr "70", PyStr "20")
           [mkday_entry "2024-06-20"
              [("civil_dawn", PyNone); ("sunrise", PyNone);
               ("sunset", PyNone); ("civil_dusk", PyNone)];
            mkday_entry "2024-06-21"
              [("civil_dawn", PyNone); ("sunrise", PyNone);
               ("sunset", PyNone); ("civil_dusk", PyNone)]]),
     mkworld (site (PyStr "70") (PyStr "20") (date_of_ymd 2024 6 21) "-6")
       (canonical_calls (PyStr "70") (PyStr "20") (date_of_ymd 2024 6 20)
        ++ canonical_calls (PyStr "70") (PyStr "20")
             (date_of_ymd 2024 6 21))%list) /\
  NoDup ["2024-06-20"; "2024-06-21"].
Proof.
  assert (Hdates :
            request_dates Almanac.libs (date_of_ymd 2024 1 1)
              (mkargs (Some "70") (Some "20") (Some "2024-06-20")
                      (Some "2024-06-21") (Some "js"))
            = Ok (date_of_ymd 2024 6 20, date_of_ymd 2024 6 21)).
  { vm_compute. reflexivity. }
  assert (Hs : date_valid (date_of_ymd 2024 6 20)).
  { unfold date_valid. vm_compute. split; discriminate. }
  assert (He : date_valid (date_of_ymd 2024 6 21)).
  { unfold date_valid. vm_compute. split; discriminate. }
  assert (Hsun :
            sun Almanac.libs (date_of_ymd 2024 1 1) (fun _ => 0)
              (mkargs (Some "70") (Some "20") (Some "2024-06-20")
                      (Some "2024-06-21") (Some "js")) Almanac.start
            = (Ok (mkresponse (PyStr "70", PyStr "20")
                     [mkday_entry "2024-06-20"
                        [("civil_dawn", PyNone); ("sunrise", PyNone);
                         ("sunset", PyNone); ("civil_dusk", PyNone)];
                      mkday_entry "2024-06-21"
                        [("civil_dawn", PyNone); ("sunrise", PyNone);
                         ("sunset", PyNone); ("civil_dusk", PyNone)]]),
               mkworld
                 (site (PyStr "70") (PyStr "20") (date_of_ymd 2024 6 21) "-6")
                 (canonical_calls (PyStr "70") (PyStr "20")
                    (date_of_ymd 2024 6 20)
                  ++ canonical_calls (PyStr "70") (PyStr "20")
                       (date_of_ymd 2024 6 21))%list)).
  { vm_compute. reflexivity. }
  split; [exact Hdates|]. split; [exact Hs|]. split; [exact He|].
  split; [exact Hsun|].
  exact (proj1 (sun_dates_distinct Almanac.libs _ _ _ _ _ _ _ _ Hdates Hs He
                  Hsun)).
Defined.

(** Two answers of a solver that differ in the zone they carry, which
    [calculate_sunrise] replaces. *)
Lemma iso_text_identifies_instant_witness :
  datetime_valid (mkdatetime (date_of_ymd 2024 6 20) 3 43 12 345678 None) /\
  datetime_valid (mkdatetime (date_of_ymd 2024 6 20) 3 43 12 345678
                             (Some (mktimezone 3600))) /\
  render "iso" (Some (mkdatetime (date_of_ymd 2024 6 20) 3 43 12 345678 None))
  = render "iso"
      (Some (mkdatetime (date_of_ymd 2024 6 20) 3 43 12 345678
                        (Some (mktimezone 3600)))) /\
  render "dt" (Some (mkdatetime (date_of_ymd 2024 6 20) 3 43 12 345678 None))
  = render "dt"
      (Some (mkdatetime (date_of_ymd 2024 6 20) 3 43 12 345678
                        (Some (mktimezone 3600)))).
Proof.
  assert (H1 : datetime_valid
                 (mkdatetime (date_of_ymd 2024 6 20) 3 43 12 345678 None)).
  { unfold datetime_valid, date_valid. cbn [day_of hour minute second
                                               microsecond].
    vm_compute. repeat split; discriminate. }
  assert (H2 : datetime_valid
                 (mkdatetime (date_of_ymd 2024 6 20) 3 43 12 345678
                             (Some (mktimezone 3600)))).
  { unfold datetime_valid, date_valid. cbn [day_of hour minute second
                                               microsecond].
    vm_compute. repeat split; discriminate. }
  assert (H3 : render "iso"
                 (Some (mkdatetime (date_of_ymd 2024 6 20) 3 43 12 345678
                                   None))
               = render "iso"
                   (Some (mkdatetime (date_of_ymd 2024 6 20) 3 43 12 345678
                                     (Some (mktimezone 3600))))).
  { vm_compute. reflexivity. }
  split; [exact H1|]. split; [exact H2|]. split; [exact H3|].
  exact (iso_text_identifies_instant _ _ H1 H2 H3).
Defined.

(** London sunrise on 2024-06-20 at 03:43:12.345678. *)
Lemma js_milliseconds_accuracy_witness :
  datetime_valid (mkdatetime (date_of_ymd 2024 6 20) 3 43 12 345678 None) /\
  exists z,
    render "js"
      (Some (mkdatetime (date_of_ymd 2024 6 20) 3 43 12 345678 None))
    = Ok (PyInt z) /\
    Z.abs (1000 * z
           - wall_clock
               (mkdatetime (date_of_ymd 2024 6 20) 3 43 12 345678 None))
    <= 593.
Proof.
  assert (H1 : datetime_valid
                 (mkdatetime (date_of_ymd 2024 6 20) 3 43 12 345678 None)).
  { unfold datetime_valid, date_valid. cbn [day_of hour minute second
                                               microsecond].
    vm_compute. repeat split; discriminate. }
  split; [exact H1|].
  destruct (js_milliseconds_accuracy _ H1) as (z & Hz & Hb & _).
  exists z. split; [exact Hz|exact Hb].
Defined.

(** The text 20160229T12:00. *)
Lemma parse_date_reads_fields_witness :
  check_date_fields 2016 2 29 = true /\
  parse_date (fun _ => Raise (LibraryError "InternalServerError"))
    (PyStr "20160229T12:00")
  = Ok (date_of_ymd 2016 2 29) /\
  date_isoformat (date_of_ymd 2016 2 29) = "2016-02-29".
Proof.
  assert (Hc : check_date_fields 2016 2 29 = true) by reflexivity.
  split; [exact Hc|].
  destruct (parse_date_reads_fields
              (fun _ => Raise (LibraryError "InternalServerError"))
              2016 2 29 "T12:00" Hc) as (Hparse & _ & Htext).
  split; [exact Hparse|exact Htext].
Defined.

(** The last day of the calendar. *)
Lemma parse_date_reaches_every_date_witness :
  date_valid date_max /\
  exists y m d,
    ord2ymd (toordinal date_max) = (y, m, d) /\
    parse_date (fun _ => Ok tt)
      (PyStr (zero_padded 4 y ++ zero_padded 2 m ++ zero_padded 2 d))
    = Ok date_max.
Proof.
  assert (H : date_valid date_max).
  { unfold date_valid. vm_compute. split; discriminate. }
  split; [exact H|].
  exact (parse_date_reaches_every_date (fun _ => Ok tt) date_max H).
Defined.

(** The number 20160229 in place of the text. *)
Lemma parse_date_no_slices_witness :
  (PyInt 20160229 = PyNone \/ (exists b, PyInt 20160229 = PyBool b)
   \/ (exists z, PyInt 20160229 = PyInt z)
   \/ (exists t, PyInt 20160229 = PyDatetime t)) /\
  parse_date (fun _ => Raise (LibraryError "InternalServerError"))
    (PyInt 20160229)
  = Raise TypeError.
Proof.
  assert (H : PyInt 20160229 = PyNone \/ (exists b, PyInt 20160229 = PyBool b)
              \/ (exists z, PyInt 20160229 = PyInt z)
              \/ (exists t, PyInt 20160229 = PyDatetime t)).
  { right. right. left. exists 20160229. reflexivity. }
  split; [exact H|].
  exact (parse_date_no_slices _ _ H).
Defined.

(** A text of seven characters: the day is its last character. *)
Lemma parse_date_result_witness :
  parse_date (fun _ => Raise (LibraryError "InternalServerError"))
    (PyStr "2016011")
  = Ok (date_of_ymd 2016 1 1) /\
  (7 <= String.length "2016011")%nat /\
  exists y m d,
    py_int (slice "2016011" 6 8) = Ok d /\
    check_date_fields y m d = true /\
    ord2ymd (toordinal (date_of_ymd 2016 1 1)) = (y, m, d).
Proof.
  assert (Hrun : parse_date
                   (fun _ => Raise (LibraryError "InternalServerError"))
                   (PyStr "2016011")
                 = Ok (date_of_ymd 2016 1 1)).
  { vm_compute. reflexivity. }
  split; [exact Hrun|].
  destruct (parse_date_result _ _ _ Hrun)
    as (Hlen & y & m & d & _ & _ & Hd & Hc & _ & _ & Hfields).
  split; [exact Hlen|].
  exists y, m, d. repeat split; assumption.
Defined.

(** The bytes of 20160229T12:00. *)
Lemma parse_date_reads_bytes_witness :
  check_date_fields 2016 2 29 = true /\
  parse_date (fun _ => Raise (LibraryError "InternalServerError"))
    (PyBytes "20160229T12:00")
  = Ok (date_of_ymd 2016 2 29).
Proof.
  assert (Hc : check_date_fields 2016 2 29 = true) by reflexivity.
  split; [exact Hc|].
  exact (proj1 (parse_date_reads_bytes
                  (fun _ => Raise (LibraryError "InternalServerError"))
                  2016 2 29 "T12:00" Hc)).
Defined.


